(** * JobFill: form-field classifier and resume parser

    A shallow embedding of [scripts/formDetector.js],
    [scripts/siteAdapters/greenhouse.js] and [scripts/resumeParser.js].

    - JavaScript strings are sequences of UTF-16 code units: [list N].
    - JavaScript numbers are IEEE 754 binary64 values.  Confidences are
      kept as primitive floats (same format, same rounding); match scores
      and indices are small integers, exact in binary64, kept as [Z]/[nat].
    - Plain objects used as dictionaries are ordered association lists
      where iteration order matters ([Object.entries]) and [gmap] where
      only lookup matters. *)

From Stdlib Require Import ZArith NArith List String Ascii Bool Lia PrimFloat.
From Stdlib Require Import Sorted.
From stdpp Require Import base option list gmap sorting.

Set Warnings "-inexact-float".

(* ===================================================================== *)
(** * JavaScript built-ins used by the code *)
(* ===================================================================== *)

Module JS.

(** One UTF-16 code unit. *)
Definition char16 := N.

Definition jsstring := list char16.

(** A source literal (ASCII only) as a JavaScript string. *)
Definition str (s : string) : jsstring :=
  map N_of_ascii (list_ascii_of_string s).

(** [a === b] on strings. *)
Fixpoint streq (a b : jsstring) : bool :=
  match a, b with
  | [], [] => true
  | c :: a', d :: b' => N.eqb c d && streq a' b'
  | _, _ => false
  end.

(** Truthiness of a string: non-empty. *)
Definition truthy (s : jsstring) : bool :=
  match s with [] => false | _ :: _ => true end.

(** [s.startsWith(p)]. *)
Fixpoint startsWith (s p : jsstring) : bool :=
  match p, s with
  | [], _ => true
  | _ :: _, [] => false
  | c :: p', d :: s' => N.eqb c d && startsWith s' p'
  end.

(** [s.includes(p)]: [p] occurs in [s] as a contiguous substring. *)
Fixpoint includes (s p : jsstring) : bool :=
  startsWith s p ||
  match s with
  | [] => false
  | _ :: s' => includes s' p
  end.

(** [arr.includes(x)] on an array of strings. *)
Definition arrayIncludes (arr : list jsstring) (x : jsstring) : bool :=
  existsb (fun y => streq y x) arr.

(** [Math.min(a, b)]: NaN is contagious and -0 is below +0. *)
Definition Math_min (a b : float) : float :=
  if is_nan a || is_nan b then nan
  else if (a <? b)%float then a
  else if (b <? a)%float then b
  else if get_sign a then a else b.

(** WhiteSpace and LineTerminator code units: what [trim] removes and
    what the regular-expression class [\s] matches. *)
Definition isWhiteSpace (c : char16) : bool :=
  ((9 <=? c) && (c <=? 13) || (c =? 32) || (c =? 160) || (c =? 5760)
   || (8192 <=? c) && (c <=? 8202) || (c =? 8232) || (c =? 8233)
   || (c =? 8239) || (c =? 8287) || (c =? 12288) || (c =? 65279))%N.

Fixpoint trimStart (s : jsstring) : jsstring :=
  match s with
  | c :: s' => if isWhiteSpace c then trimStart s' else s
  | [] => []
  end.

Definition trimEnd (s : jsstring) : jsstring :=
  rev (trimStart (rev s)).

(** [s.trim()]. *)
Definition trim (s : jsstring) : jsstring := trimEnd (trimStart s).

Definition LF : char16 := 10%N.
Definition CR : char16 := 13%N.

(** Splitting at maximal non-empty runs of separator code units, as
    [s.split(/[...]+/)] does for a character class: [cur] is the piece
    being read (reversed), [inRun] tells whether the previous code unit
    was a separator.  The empty string yields one empty piece. *)
Fixpoint splitRunsFrom (sep : char16 -> bool) (s : jsstring)
         (cur : jsstring) (inRun : bool) : list jsstring :=
  match s with
  | [] => [rev cur]
  | c :: s' =>
      if sep c then
        if inRun then splitRunsFrom sep s' cur true
        else rev cur :: splitRunsFrom sep s' [] true
      else splitRunsFrom sep s' (c :: cur) false
  end.

Definition splitRuns (sep : char16 -> bool) (s : jsstring) : list jsstring :=
  splitRunsFrom sep s [] false.

(** [s.split('\n')]-style splitting at every single occurrence of one
    code unit. *)
Fixpoint splitCharFrom (d : char16) (s : jsstring) (cur : jsstring)
  : list jsstring :=
  match s with
  | [] => [rev cur]
  | c :: s' =>
      if N.eqb c d then rev cur :: splitCharFrom d s' []
      else splitCharFrom d s' (c :: cur)
  end.

Definition splitChar (d : char16) (s : jsstring) : list jsstring :=
  splitCharFrom d s [].

(** [arr.join(sep)]. *)
Fixpoint join (sep : jsstring) (arr : list jsstring) : jsstring :=
  match arr with
  | [] => []
  | [x] => x
  | x :: rest => x ++ sep ++ join sep rest
  end.

(** [arr.slice(start, end)] for non-negative integer bounds. *)
Definition slice {A} (arr : list A) (start stop : nat) : list A :=
  take (stop - start) (drop start arr).

(** [s.replace(/[...]/g, '')]: delete every code unit of a class. *)
Definition removeAll (cls : char16 -> bool) (s : jsstring) : jsstring :=
  List.filter (fun c => negb (cls c)) s.

(** [s.replace(/\r\n/g, '\n')]. *)
Fixpoint replaceCRLF (s : jsstring) : jsstring :=
  match s with
  | c :: s' =>
      match s' with
      | d :: s'' =>
          if N.eqb c CR && N.eqb d LF then LF :: replaceCRLF s''
          else c :: replaceCRLF s'
      | [] => [c]
      end
  | [] => []
  end.

(** [s.replace(/\r/g, '\n')]. *)
Definition replaceCR (s : jsstring) : jsstring :=
  map (fun c => if N.eqb c CR then LF else c) s.

(** [s.replace(/\n+/g, '\n')]: every run of line feeds becomes one. *)
Fixpoint collapseLF (s : jsstring) : jsstring :=
  match s with
  | c :: s' =>
      if N.eqb c LF then
        match s' with
        | d :: _ => if N.eqb d LF then collapseLF s' else c :: collapseLF s'
        | [] => [c]
        end
      else c :: collapseLF s'
  | [] => []
  end.

End JS.

(* ===================================================================== *)
(** * scripts/formDetector.js *)
(* ===================================================================== *)

Module FormDetector.
Import JS.
Local Open Scope Z_scope.

(** The object returned by [getFieldMetadata]. *)
Record FieldMetadata := {
  id : jsstring;
  name : jsstring;
  type : jsstring;
  placeholder : jsstring;
  className : jsstring;
  value : jsstring;
  autocomplete : jsstring;
  ariaLabel : jsstring;
  ariaLabelledBy : jsstring;
  ariaDescribedBy : jsstring;
  title : jsstring;
  dataAttributes : list (jsstring * jsstring);
  labelText : jsstring;
  labelForField : bool;
  required : bool;
  pattern : jsstring;
  minLength : Z;
  maxLength : Z;
  min : jsstring;
  max : jsstring;
  options : list jsstring
}.

(** The [patterns] table of [categorizeField], in [Object.entries]
    order (insertion order of the literal). *)
Definition patterns_src : list (string * list (string * list string)) :=
  [ ("personal",
     [ ("name", ["name"; "full name"; "full_name"]);
       ("firstName", ["first name"; "firstname"; "first_name"; "fname";
                      "given name"; "given_name"]);
       ("lastName", ["last name"; "lastname"; "last_name"; "lname";
                     "family name"; "surname"]);
       ("middleName", ["middle name"; "middlename"; "middle_name"; "mname";
                       "middle initial"]);
       ("email", ["email"; "e-mail"; "email address"; "e-mail address"]);
       ("phone", ["phone"; "telephone"; "mobile"; "cell"; "phone number"]);
       ("address", ["address"; "street"; "street address"; "address line";
                    "mailing address"]);
       ("city", ["city"; "town"; "municipality"]);
       ("state", ["state"; "province"; "region"]);
       ("zipCode", ["zip"; "zipcode"; "zip code"; "postal"; "postal code"]);
       ("country", ["country"; "nation"]) ]);
    ("education",
     [ ("school", ["school"; "university"; "college"; "institution";
                   "academy"; "educational institution"]);
       ("degree", ["degree"; "degree type"; "diploma"; "certification";
                   "qualification"]);
       ("fieldOfStudy", ["field of study"; "major"; "specialization";
                         "concentration"; "discipline"]);
       ("graduationDate", ["graduation date"; "graduation"; "graduated";
                           "completion date"; "completion"]);
       ("gpa", ["gpa"; "grade point average"; "grade average";
                "academic average"]) ]);
    ("experience",
     [ ("company", ["company"; "employer"; "organization"; "firm";
                    "business"]);
       ("title", ["job title"; "title"; "position"; "role"; "designation"]);
       ("startDate", ["start date"; "from date"; "employment start";
                      "date from"]);
       ("endDate", ["end date"; "to date"; "employment end"; "date to"]);
       ("description", ["description"; "job description";
                        "responsibilities"; "duties"]);
       ("currentJob", ["current job"; "current position";
                       "current employer"; "present employer"]) ]);
    ("skills",
     [ ("skills", ["skills"; "abilities"; "competencies"; "expertise";
                   "proficiencies"]);
       ("languages", ["languages"; "spoken languages";
                      "programming languages"]);
       ("certifications", ["certifications"; "certificates"; "credentials";
                           "licenses"]) ]);
    ("other",
     [ ("salary", ["salary"; "compensation"; "pay"; "wage"; "remuneration";
                   "expected salary"]);
       ("startDate", ["start date"; "availability"; "available from";
                      "when can you start"]);
       ("relocation", ["relocation"; "willing to relocate"; "can relocate";
                       "relocate"]);
       ("citizenship", ["citizenship"; "citizen"; "work authorization";
                        "authorized to work"; "visa"]);
       ("linkedin", ["linkedin"; "linkedin url"; "linkedin profile"]);
       ("website", ["website"; "personal website"; "portfolio"; "blog"]);
       ("github", ["github"; "github url"; "github profile"; "gitlab"]);
       ("twitter", ["twitter"; "twitter url"; "twitter handle"; "x.com"]);
       ("reference", ["reference"; "references"; "referrer"; "referral"]);
       ("coverLetter", ["cover letter"; "cover_letter"; "coverletter";
                        "letter of interest"]);
       ("resume", ["resume"; "cv"; "curriculum vitae"; "upload resume";
                   "upload cv"]) ]) ]%string.

Definition patterns : list (jsstring * list (jsstring * list jsstring)) :=
  map (fun '(cat, subcats) =>
         (str cat, map (fun '(subcat, pats) => (str subcat, map str pats))
                       subcats))
      patterns_src.

(** The body of the [for (const pattern of patterns)] loop of
    [calculateMatchScore]: the running [score] after one pattern. *)
Definition scorePattern (metadata : FieldMetadata) (score : Z)
           (pattern : jsstring) : Z :=
  let score := if includes metadata.(id) pattern then score + 3 else score in
  let score := if includes metadata.(name) pattern then score + 3 else score in
  let score :=
    if includes metadata.(labelText) pattern then
      let score := score + 5 in
      if metadata.(labelForField) then score + 2 else score
    else score in
  let score :=
    if includes metadata.(placeholder) pattern then score + 2 else score in
  let score :=
    if includes metadata.(ariaLabel) pattern then score + 3 else score in
  let score := if includes metadata.(title) pattern then score + 1 else score in
  fold_left
    (fun score '(key, value) =>
       if includes key pattern || includes value pattern
       then score + 1 else score)
    metadata.(dataAttributes) score.

Definition calculateMatchScore (metadata : FieldMetadata)
           (patterns : list jsstring) : Z :=
  fold_left (scorePattern metadata) patterns 0%Z.

(** The three variables [category], [subcategory], [highestMatchScore]
    of [categorizeField]. *)
Definition Best : Type := jsstring * jsstring * Z.

Definition unknown : jsstring := str "unknown".

(** One iteration of the inner loop of [categorizeField]. *)
Definition considerSubcategory (metadata : FieldMetadata) (cat : jsstring)
           (best : Best) (entry : jsstring * list jsstring) : Best :=
  let '(subcat, pats) := entry in
  let '(category, subcategory, highestMatchScore) := best in
  let matchScore := calculateMatchScore metadata pats in
  if (highestMatchScore <? matchScore)%Z
  then (cat, subcat, matchScore)
  else (category, subcategory, highestMatchScore).

(** The two nested loops over [Object.entries(patterns)]. *)
Definition bestMatch (metadata : FieldMetadata) : Best :=
  fold_left
    (fun best '(cat, subcats) =>
       fold_left (considerSubcategory metadata cat) subcats best)
    patterns (unknown, unknown, 0%Z).

(** The if/else-if chain under "Field type heuristics": the pair it
    leaves in [category], [subcategory]. *)
Definition fieldTypeHeuristics (metadata : FieldMetadata)
           (category subcategory : jsstring) : jsstring * jsstring :=
  if streq metadata.(type) (str "email") then (str "personal", str "email")
  else if streq metadata.(type) (str "tel") then (str "personal", str "phone")
  else if streq metadata.(autocomplete) (str "address-line1")
       then (str "personal", str "address")
  else if streq metadata.(autocomplete) (str "address-level2")
       then (str "personal", str "city")
  else if streq metadata.(autocomplete) (str "address-level1")
       then (str "personal", str "state")
  else if streq metadata.(autocomplete) (str "postal-code")
       then (str "personal", str "zipCode")
  else if streq metadata.(autocomplete) (str "country")
       then (str "personal", str "country")
  else (category, subcategory).

(** The condition guarding the "Field type heuristics" block:
    [category === 'unknown' || highestMatchScore < 3]. *)
Definition inconclusive (category : jsstring) (highestMatchScore : Z) : bool :=
  streq category unknown || (highestMatchScore <? 3).

Definition categorizeField (metadata : FieldMetadata) : jsstring * jsstring :=
  let '(category, subcategory, highestMatchScore) := bestMatch metadata in
  if inconclusive category highestMatchScore
  then fieldTypeHeuristics metadata category subcategory
  else (category, subcategory).

Definition calculateConfidence (metadata : FieldMetadata)
           (category subcategory : jsstring) : float :=
  if streq category unknown then 0%float
  else
    let confidence := 0.5%float in
    let confidence :=
      if metadata.(labelForField) then (confidence + 0.3)%float
      else confidence in
    let confidence :=
      if streq subcategory (str "email") && streq metadata.(type) (str "email")
         || streq subcategory (str "phone") && streq metadata.(type) (str "tel")
      then (confidence + 0.3)%float else confidence in
    let confidence :=
      if truthy metadata.(autocomplete) then
        if streq subcategory (str "firstName")
             && streq metadata.(autocomplete) (str "given-name")
           || streq subcategory (str "lastName")
             && streq metadata.(autocomplete) (str "family-name")
           || streq subcategory (str "email")
             && streq metadata.(autocomplete) (str "email")
           || streq subcategory (str "phone")
             && streq metadata.(autocomplete) (str "tel")
           || streq subcategory (str "address")
             && includes metadata.(autocomplete) (str "address-line")
           || streq subcategory (str "city")
             && streq metadata.(autocomplete) (str "address-level2")
           || streq subcategory (str "state")
             && streq metadata.(autocomplete) (str "address-level1")
           || streq subcategory (str "zipCode")
             && streq metadata.(autocomplete) (str "postal-code")
           || streq subcategory (str "country")
             && streq metadata.(autocomplete) (str "country")
        then (confidence + 0.3)%float else confidence
      else confidence in
    let confidence :=
      if includes metadata.(id) subcategory
         || includes metadata.(name) subcategory
      then (confidence + 0.2)%float else confidence in
    let confidence :=
      if metadata.(required) && truthy metadata.(labelText)
      then (confidence + 0.1)%float else confidence in
    let confidence :=
      if (0 <? length metadata.(options))%nat then
        if streq subcategory (str "country")
             && arrayIncludes metadata.(options) (str "united states")
           || streq subcategory (str "state")
             && arrayIncludes metadata.(options) (str "california")
           || streq subcategory (str "degree")
             && (arrayIncludes metadata.(options) (str "bachelor")
                 || arrayIncludes metadata.(options) (str "master")
                 || arrayIncludes metadata.(options) (str "phd"))
        then (confidence + 0.2)%float else confidence
      else confidence in
    Math_min confidence 1.0%float.

(** The classification part of the object built by [analyzeField]. *)
Record Classification := {
  category : jsstring;
  subcategory : jsstring;
  confidence : float
}.

Definition classify (metadata : FieldMetadata) : Classification :=
  let '(category, subcategory) := categorizeField metadata in
  let confidence := calculateConfidence metadata category subcategory in
  {| category := category; subcategory := subcategory;
     confidence := confidence |}.

End FormDetector.

(* ===================================================================== *)
(** * scripts/siteAdapters/greenhouse.js *)
(* ===================================================================== *)

Module GreenhouseAdapter.
Import JS.

(** The metadata object after [enhanceGreenhouseField]: the detector's
    metadata spread together with three more properties. *)
Record GreenhouseMetadata := {
  base : FormDetector.FieldMetadata;
  greenhouseFieldId : jsstring;
  greenhouseFieldType : jsstring;
  isRequired : bool
}.

Definition calculateGreenhouseConfidence (metadata : GreenhouseMetadata)
           (category subcategory : jsstring) : float :=
  let confidence :=
    FormDetector.calculateConfidence metadata.(base) category subcategory in
  let confidence :=
    if truthy metadata.(greenhouseFieldId)
       || truthy metadata.(greenhouseFieldType)
    then Math_min (confidence + 0.15)%float 1.0%float else confidence in
  let confidence :=
    if streq category (str "personal")
         && (streq subcategory (str "firstName")
             || streq subcategory (str "lastName")
             || streq subcategory (str "email")
             || streq subcategory (str "phone"))
       || streq category (str "other")
         && (streq subcategory (str "resume")
             || streq subcategory (str "coverLetter"))
    then Math_min (confidence + 0.2)%float 1.0%float else confidence in
  confidence.

End GreenhouseAdapter.

(* ===================================================================== *)
(** * scripts/resumeParser.js *)
(* ===================================================================== *)

Module ResumeParser.
Import JS.

(** Primitive values a caller can pass where a string is expected. *)
Inductive jsvalue :=
| JUndefined
| JNull
| JBoolean (b : bool)
| JNumber (x : float)
| JString (s : jsstring).

Inductive error := TypeError.

(** Outcome of running a function body: a returned value or a thrown
    exception. *)
Inductive completion (A : Type) :=
| Normal (a : A)
| Throw (e : error).
Arguments Normal {A} a.
Arguments Throw {A} e.

#[global] Instance completion_ret : MRet completion := @Normal.
#[global] Instance completion_bind : MBind completion :=
  fun A B k c => match c with Normal a => k a | Throw e => Throw e end.

(** [try { body } catch (error) { handler(error) }].  The [console.error]
    call of the handler in [parse] does not change the outcome and is left
    out. *)
Definition tryCatch {A} (body : completion A) (handler : error -> completion A)
  : completion A :=
  match body with Normal a => Normal a | Throw e => handler e end.

(** The regular-expression literals of the file. *)
Inductive RegExp :=
| patterns_email | patterns_phone | patterns_linkedin | patterns_website
| patterns_address
| blockSeparator               (* /\n\s*\n/ *)
| titleCompanyPattern
| experience_datePattern
| degreeSchoolPattern
| education_datePattern
| yearPattern.

(** The host's regular-expression matcher, taken as given.  Each view
    returns what the code reads from the match object. *)
Record RegExpEngine := {
  (** [s.match(re)[0]], or [None] when [s.match(re)] is [null]. *)
  match0 : RegExp -> jsstring -> option jsstring;
  (** Capture groups 1 and 2 of [s.match(re)]; both groups take part in
      every match of the three patterns this is used with. *)
  matchGroups : RegExp -> jsstring -> option (jsstring * jsstring);
  (** [s.match(re)] for a global [re]: every match, or [null]. *)
  matchAll : RegExp -> jsstring -> option (list jsstring);
  (** [s.split(re)]. *)
  splitRegExp : RegExp -> jsstring -> list jsstring
}.

Record Boundary := { type : jsstring; index : nat }.

(** [sectionHeaders] of [extractSections], in [Object.entries] order. *)
Definition sectionHeaders : list (jsstring * list jsstring) :=
  map (fun '(sectionType, headers) => (str sectionType, map str headers))
    [ ("experience", ["experience"; "work experience"; "employment";
                      "work history"; "professional experience"]);
      ("education", ["education"; "educational background";
                     "academic background"; "academic experience";
                     "academic history"]);
      ("skills", ["skills"; "technical skills"; "core competencies";
                  "competencies"; "expertise"; "proficiencies"]);
      ("projects", ["projects"; "personal projects";
                    "professional projects"]);
      ("certifications", ["certifications"; "certificates"; "licenses"]);
      ("languages", ["languages"; "language proficiencies"]);
      ("summary", ["summary"; "professional summary"; "career summary";
                   "career objective"; "objective"]) ]%string.

(** [boundaries.sort((a, b) => a.index - b.index)]: a stable sort by
    index. *)
Fixpoint insertByIndex (b : Boundary) (sorted : list Boundary)
  : list Boundary :=
  match sorted with
  | [] => [b]
  | c :: rest =>
      if (c.(index) <=? b.(index))%nat then c :: insertByIndex b rest
      else b :: c :: rest
  end.

Definition sortByIndex (boundaries : list Boundary) : list Boundary :=
  fold_left (fun sorted b => insertByIndex b sorted) boundaries [].

(** Delimiters of the first split of [parseSkills]:
    comma, U+2022, pipe, U+00B7, asterisk, plus, line feed. *)
Definition isSkillDelimiter (c : char16) : bool :=
  ((c =? 44) || (c =? 8226) || (c =? 124) || (c =? 183) || (c =? 42)
   || (c =? 43) || (c =? 10))%N.

(** The class [[,.;:]]. *)
Definition isListPunctuation (c : char16) : bool :=
  ((c =? 44) || (c =? 46) || (c =? 59) || (c =? 58))%N.

(** [parseSkills]; [None] is [undefined]. *)
Definition parseSkills (text : option jsstring) : list jsstring :=
  match text with
  | None => []
  | Some text =>
      if negb (truthy text) then []
      else
        let skills :=
          List.filter (fun skill => (0 <? length skill)%nat)
            (map trim (splitRuns isSkillDelimiter text)) in
        if (length skills <? 3)%nat then
          let words := splitRuns isWhiteSpace text in
          if (10 <? length words)%nat then
            map (fun word => removeAll isListPunctuation (trim word))
                (List.filter (fun word => (2 <? length word)%nat) words)
          else skills
        else skills
  end.

Module ExperienceEntry.
Record t := {
  title : jsstring;
  company : jsstring;
  startDate : jsstring;
  endDate : jsstring;
  description : jsstring
}.
End ExperienceEntry.

Module EducationEntry.
Record t := {
  degree : jsstring;
  school : jsstring;
  startDate : jsstring;
  endDate : jsstring;
  description : jsstring
}.
End EducationEntry.

Record PersonalInfo := {
  fullName : jsstring;
  email : jsstring;
  phone : jsstring;
  linkedin : jsstring;
  website : jsstring;
  address : jsstring
}.

Record ResumeRecord := {
  personalInfo : PersonalInfo;
  experience : list ExperienceEntry.t;
  education : list EducationEntry.t;
  skills : list jsstring;
  rawText : jsvalue
}.

Section Host.
(** [String.prototype.toLowerCase] of the host. *)
Variable toLowerCase : jsstring -> jsstring.
Variable re : RegExpEngine.

(** The callback given to [lines.forEach]: [boundaries] after the
    visit of one line. *)
Definition visitLine (sectionHeaders : list (jsstring * list jsstring))
           (boundaries : list Boundary) (line : jsstring) (index : nat)
  : list Boundary :=
  let cleanLine := toLowerCase (trim line) in
  if negb (truthy cleanLine) then boundaries
  else
    match
      List.find
        (fun '(sectionType, headers) =>
           existsb (fun header =>
                      streq cleanLine header
                      || streq cleanLine (header ++ str ":"))
                   headers)
        sectionHeaders
    with
    | Some (sectionType, _) =>
        boundaries ++ [{| type := sectionType; index := index |}]
    | None => boundaries
    end.

Fixpoint forEachLine (sectionHeaders : list (jsstring * list jsstring))
         (lines : list jsstring) (index : nat)
         (boundaries : list Boundary) : list Boundary :=
  match lines with
  | [] => boundaries
  | line :: rest =>
      forEachLine sectionHeaders rest (S index)
                  (visitLine sectionHeaders boundaries line index)
  end.

Definition findSectionBoundaries (lines : list jsstring)
           (sectionHeaders : list (jsstring * list jsstring))
  : list Boundary :=
  sortByIndex (forEachLine sectionHeaders lines 0 []).

(** The chain of [replace] calls and the [trim] of [extractSections]. *)
Definition normalize (text : jsstring) : jsstring :=
  trim (collapseLF (replaceCR (replaceCRLF text))).

(** The [for] loop of [extractSections] over [sectionBoundaries]. *)
Fixpoint fillSections (lines : list jsstring)
         (sectionBoundaries : list Boundary)
         (sections : gmap jsstring jsstring) : gmap jsstring jsstring :=
  match sectionBoundaries with
  | [] => sections
  | currentSection :: rest =>
      let startIndex := S currentSection.(index) in
      let endIndex :=
        match rest with
        | nextSection :: _ => nextSection.(index)
        | [] => length lines
        end in
      fillSections lines rest
        (<[currentSection.(type) :=
             join [LF] (slice lines startIndex endIndex)]> sections)
  end.

(** [sectionBoundaries[0]?.index || lines.length]. *)
Definition headerEnd (sectionBoundaries : list Boundary)
           (lines : list jsstring) : nat :=
  match sectionBoundaries with
  | b :: _ => if (b.(index) =? 0)%nat then length lines else b.(index)
  | [] => length lines
  end.

Definition extractSections (text : jsvalue)
  : completion (gmap jsstring jsstring) :=
  match text with
  | JString text =>
      let normalizedText := normalize text in
      let lines := splitChar LF normalizedText in
      let sectionBoundaries := findSectionBoundaries lines sectionHeaders in
      let sections : gmap jsstring jsstring :=
        <[str "header" :=
            join [LF] (slice lines 0 (headerEnd sectionBoundaries lines))]>
          ∅ in
      Normal (fillSections lines sectionBoundaries sections)
  | _ => Throw TypeError   (* [text.replace] is not callable *)
  end.

Definition extractPattern (text : jsstring) (pattern : RegExp) : jsstring :=
  match re.(match0) pattern text with
  | Some m => m
  | None => []
  end.

(** [lines[0]] of an array of strings, then a method call on it. *)
Definition first (lines : list jsstring) : completion jsstring :=
  match lines with
  | firstLine :: _ => Normal firstLine
  | [] => Throw TypeError
  end.

Definition parsePersonalInfo (fullText : jsvalue)
           (headerText : option jsstring) : completion PersonalInfo :=
  match fullText, headerText with
  | JString fullText, Some headerText =>
      let email := extractPattern fullText patterns_email in
      let phone := extractPattern fullText patterns_phone in
      let linkedin := extractPattern fullText patterns_linkedin in
      let website := extractPattern fullText patterns_website in
      let address := extractPattern fullText patterns_address in
      let lines := splitChar LF (trim headerText) in
      let fullName := match lines with l :: _ => l | [] => [] end in
      Normal {| fullName := fullName; email := email; phone := phone;
                linkedin := linkedin; website := website;
                address := address |}
  | _, _ => Throw TypeError
  end.

(** The callback given to [jobBlocks.forEach]. *)
Definition visitJobBlock (experiences : list ExperienceEntry.t)
           (block : jsstring) : completion (list ExperienceEntry.t) :=
  if negb (truthy (trim block)) then Normal experiences
  else
    let lines := splitChar LF (trim block) in
    firstLine ← first lines;
    let titleCompanyMatch := re.(matchGroups) titleCompanyPattern firstLine in
    let '(title, company) :=
      match titleCompanyMatch with
      | Some (g1, g2) => (trim g1, trim g2)
      | None => (trim firstLine, [])
      end in
    let '(startDate, endDate) :=
      match lines with
      | _ :: secondLine :: _ =>
          match re.(matchGroups) experience_datePattern secondLine with
          | Some (g1, g2) => (g1, g2)
          | None => ([], [])
          end
      | _ => ([], [])
      end in
    let descriptionLines :=
      drop ((match titleCompanyMatch with Some _ => 1 | None => 0 end)
            + (if truthy startDate then 1 else 0))%nat lines in
    let description := trim (join [LF] descriptionLines) in
    Normal (experiences ++
            [{| ExperienceEntry.title := title;
                ExperienceEntry.company := company;
                ExperienceEntry.startDate := startDate;
                ExperienceEntry.endDate := endDate;
                ExperienceEntry.description := description |}]).

Fixpoint forEachBlock {A} (visit : list A -> jsstring -> completion (list A))
         (blocks : list jsstring) (acc : list A) : completion (list A) :=
  match blocks with
  | [] => Normal acc
  | block :: rest => acc' ← visit acc block; forEachBlock visit rest acc'
  end.

Definition parseExperience (text : option jsstring)
  : completion (list ExperienceEntry.t) :=
  match text with
  | None => Normal []
  | Some text =>
      if negb (truthy text) then Normal []
      else
        let jobBlocks := re.(splitRegExp) blockSeparator text in
        forEachBlock visitJobBlock jobBlocks []
  end.

Definition potentialDegrees : list jsstring :=
  map str ["bachelor"; "master"; "bs"; "ba"; "ms"; "ma"; "phd";
           "doctorate"]%string.

(** The callback given to [educationBlocks.forEach]. *)
Definition visitEducationBlock (education : list EducationEntry.t)
           (block : jsstring) : completion (list EducationEntry.t) :=
  if negb (truthy (trim block)) then Normal education
  else
    let lines := splitChar LF (trim block) in
    firstLine ← first lines;
    let '(degree, school) :=
      match re.(matchGroups) degreeSchoolPattern firstLine with
      | Some (g1, g2) => (trim g1, trim g2)
      | None =>
          if existsb (fun d => includes (toLowerCase firstLine) d)
                     potentialDegrees
          then (firstLine, [])
          else ([], firstLine)
      end in
    let allText := join (str " ") lines in
    let '(startDate, endDate) :=
      match re.(match0) education_datePattern allText with
      | Some dateRange =>
          match re.(matchAll) yearPattern dateRange with
          | Some years =>
              if (1 <=? length years)%nat then
                (match years with y0 :: _ => y0 | [] => [] end,
                 if (2 <=? length years)%nat
                 then match years with _ :: y1 :: _ => y1 | _ => [] end
                 else str "Present")
              else ([], [])
          | None => ([], [])
          end
      | None => ([], [])
      end in
    let descriptionLines := drop 1 lines in
    let description := trim (join [LF] descriptionLines) in
    Normal (education ++
            [{| EducationEntry.degree := degree;
                EducationEntry.school := school;
                EducationEntry.startDate := startDate;
                EducationEntry.endDate := endDate;
                EducationEntry.description := description |}]).

Definition parseEducation (text : option jsstring)
  : completion (list EducationEntry.t) :=
  match text with
  | None => Normal []
  | Some text =>
      if negb (truthy text) then Normal []
      else
        let educationBlocks := re.(splitRegExp) blockSeparator text in
        forEachBlock visitEducationBlock educationBlocks []
  end.

Definition parse (text : jsvalue) : completion ResumeRecord :=
  tryCatch
    (sections ← extractSections text;
     personalInfo ← parsePersonalInfo text (sections !! str "header");
     experience ← parseExperience (sections !! str "experience");
     education ← parseEducation (sections !! str "education");
     let skills := parseSkills (sections !! str "skills") in
     Normal {| personalInfo := personalInfo; experience := experience;
               education := education; skills := skills;
               rawText := text |})
    (fun error => Throw error).

End Host.

(** Lower-casing of ASCII letters, a host [toLowerCase] restricted to
    ASCII text; used to run the section splitter on examples. *)
Definition asciiToLowerCase (s : jsstring) : jsstring :=
  map (fun c => if (65 <=? c)%N && (c <=? 90)%N then (c + 32)%N else c) s.

End ResumeParser.


(* ===================================================================== *)
(** * scripts/formDetector.js: which controls are detected *)
(* ===================================================================== *)

Module FormControls.
Import JS.

(** What [isRelevantField] reads of a form control.  [None] stands for a
    property that is null or undefined; [node] identifies the DOM node. *)
Record Control := {
  node : nat;
  type : jsstring;
  disabled : bool;
  readOnly : bool;
  autocomplete : jsstring;
  name : option jsstring;
  id : option jsstring
}.

(** [s?.includes(p)] used as a condition. *)
Definition optionalIncludes (s : option jsstring) (p : jsstring) : bool :=
  match s with
  | Some s => includes s p
  | None => false
  end.

Definition isRelevantField (field : Control) : bool :=
  if streq field.(type) (str "hidden")
     || field.(disabled)
     || field.(readOnly)
     || streq field.(type) (str "submit")
     || streq field.(type) (str "button")
     || streq field.(type) (str "file")
  then false
  else if streq field.(type) (str "password")
          || streq field.(autocomplete) (str "new-password")
          || optionalIncludes field.(name) (str "captcha")
          || optionalIncludes field.(id) (str "captcha")
          || optionalIncludes field.(name) (str "security")
          || optionalIncludes field.(id) (str "security")
  then false
  else true.

(** The object built by [analyzeField]. *)
Record DetectedField := {
  element : Control;
  metadata : FormDetector.FieldMetadata;
  category : jsstring;
  subcategory : jsstring;
  confidence : float
}.

Section Document.
(** What [getFieldMetadata] reads from the page for a control. *)
Variable getFieldMetadata : Control -> FormDetector.FieldMetadata.

Definition analyzeField (field : Control) : DetectedField :=
  let metadata := getFieldMetadata field in
  let '(category, subcategory) := FormDetector.categorizeField metadata in
  let confidence :=
    FormDetector.calculateConfidence metadata category subcategory in
  {| element := field; metadata := metadata; category := category;
     subcategory := subcategory; confidence := confidence |}.

(** [detectFields], given the controls [querySelectorAll] returns, in
    document order. *)
Definition detectFields (inputElements : list Control) : list DetectedField :=
  map analyzeField (List.filter isRelevantField inputElements).

End Document.
End FormControls.

(* ===================================================================== *)
(** * scripts/siteAdapters/greenhouse.js: wrappers and categories *)
(* ===================================================================== *)

Module GreenhouseFields.
Import JS.

(** What the adapter reads of an ancestor element of a control. *)
Record Element := {
  tagName : jsstring;
  id : jsstring;
  className : jsstring;
  (** [querySelector('.field-label.required') !== null] *)
  hasRequiredLabel : bool;
  (** [querySelector('.asterisk') !== null] *)
  hasAsterisk : bool
}.

(** ASCII whitespace, which separates the tokens of a class attribute. *)
Definition isAsciiWhiteSpace (c : char16) : bool :=
  ((c =? 9) || (c =? 10) || (c =? 12) || (c =? 13) || (c =? 32))%N.

(** The tokens of [element.classList]. *)
Definition classList (e : Element) : list jsstring :=
  List.filter truthy (splitRuns isAsciiWhiteSpace e.(className)).

(** [element.classList.contains(token)]. *)
Definition classListContains (e : Element) (token : jsstring) : bool :=
  existsb (fun t => streq t token) (classList e).

(** [findFieldWrapper], given the chain [element.parentElement],
    [element.parentElement.parentElement], ... up to the root. *)
Fixpoint findFieldWrapper (ancestors : list Element) : option Element :=
  match ancestors with
  | [] => None
  | parent :: rest =>
      if streq parent.(tagName) (str "BODY") then None
      else if classListContains parent (str "field")
              || classListContains parent (str "form-field")
              || classListContains parent (str "question")
      then Some parent
      else findFieldWrapper rest
  end.

Definition categorizeGreenhouseField
           (metadata : GreenhouseAdapter.GreenhouseMetadata)
  : jsstring * jsstring :=
  let id := metadata.(GreenhouseAdapter.base).(FormDetector.id) in
  let name := metadata.(GreenhouseAdapter.base).(FormDetector.name) in
  let labelText := metadata.(GreenhouseAdapter.base).(FormDetector.labelText) in
  let greenhouseFieldId := metadata.(GreenhouseAdapter.greenhouseFieldId) in
  if streq id (str "first_name") || streq name (str "first_name")
     || streq greenhouseFieldId (str "first_name_field")
  then (str "personal", str "firstName")
  else if streq id (str "last_name") || streq name (str "last_name")
          || streq greenhouseFieldId (str "last_name_field")
  then (str "personal", str "lastName")
  else if streq id (str "email") || streq name (str "email")
          || streq greenhouseFieldId (str "email_field")
  then (str "personal", str "email")
  else if streq id (str "phone") || streq name (str "phone")
          || streq greenhouseFieldId (str "phone_field")
  then (str "personal", str "phone")
  else if streq id (str "linkedin_url") || streq name (str "urls[LinkedIn]")
          || includes id (str "linkedin")
          || includes greenhouseFieldId (str "linkedin")
  then (str "other", str "linkedin")
  else if streq id (str "website") || streq name (str "website")
          || includes id (str "website")
          || includes greenhouseFieldId (str "website")
  then (str "other", str "website")
  else if includes id (str "address") || includes name (str "address")
          || includes greenhouseFieldId (str "address")
  then
    if includes id (str "city") || includes name (str "city")
    then (str "personal", str "city")
    else if includes id (str "state") || includes name (str "state")
    then (str "personal", str "state")
    else if includes id (str "zip") || includes name (str "zip")
            || includes id (str "postal") || includes name (str "postal")
    then (str "personal", str "zipCode")
    else (str "personal", str "address")
  else if includes greenhouseFieldId (str "education")
          || includes greenhouseFieldId (str "degree")
          || includes greenhouseFieldId (str "school")
  then
    if includes greenhouseFieldId (str "school")
       || includes labelText (str "school")
       || includes labelText (str "university")
    then (str "education", str "school")
    else if includes greenhouseFieldId (str "degree")
            || includes labelText (str "degree")
    then (str "education", str "degree")
    else (str "education", str "school")
  else if includes greenhouseFieldId (str "experience")
          || includes greenhouseFieldId (str "employment")
          || includes greenhouseFieldId (str "job")
  then
    if includes greenhouseFieldId (str "company")
       || includes labelText (str "company")
    then (str "experience", str "company")
    else if includes greenhouseFieldId (str "title")
            || includes labelText (str "title")
    then (str "experience", str "title")
    else (str "experience", str "company")
  else if includes id (str "resume") || includes name (str "resume")
          || includes id (str "cv") || includes name (str "cv")
          || includes labelText (str "resume")
          || includes labelText (str "cv")
  then (str "other", str "resume")
  else if includes id (str "cover_letter")
          || includes name (str "cover_letter")
          || includes labelText (str "cover letter")
  then (str "other", str "coverLetter")
  else FormDetector.categorizeField metadata.(GreenhouseAdapter.base).

(** The [metadata] property of a field object: as the detector built it,
    or as [enhanceGreenhouseField] replaced it. *)
Inductive Metadata :=
| Detected (metadata : FormDetector.FieldMetadata)
| Enhanced (metadata : GreenhouseAdapter.GreenhouseMetadata).

(** A field object; [ancestors] is the parent chain of its [element]. *)
Record Field := {
  ancestors : list Element;
  metadata : Metadata;
  category : jsstring;
  subcategory : jsstring;
  confidence : float
}.

(** The detector's properties of a metadata object; the spread
    [{...metadata, ...}] copies them. *)
Definition detectorMetadata (metadata : Metadata) : FormDetector.FieldMetadata :=
  match metadata with
  | Detected metadata => metadata
  | Enhanced metadata => metadata.(GreenhouseAdapter.base)
  end.

Definition enhanceGreenhouseField (field : Field) : Field :=
  let metadata := field.(metadata) in
  match findFieldWrapper field.(ancestors) with
  | Some fieldWrapper =>
      let greenhouseFieldId := fieldWrapper.(id) in
      let greenhouseFieldType := fieldWrapper.(className) in
      let isRequired :=
        classListContains fieldWrapper (str "required")
        || fieldWrapper.(hasRequiredLabel)
        || fieldWrapper.(hasAsterisk) in
      let metadata' :=
        {| GreenhouseAdapter.base := detectorMetadata metadata;
           GreenhouseAdapter.greenhouseFieldId := greenhouseFieldId;
           GreenhouseAdapter.greenhouseFieldType := greenhouseFieldType;
           GreenhouseAdapter.isRequired :=
             isRequired
             || (detectorMetadata metadata).(FormDetector.required) |} in
      let '(category, subcategory) := categorizeGreenhouseField metadata' in
      {| ancestors := field.(ancestors);
         metadata := Enhanced metadata';
         category := category;
         subcategory := subcategory;
         confidence :=
           GreenhouseAdapter.calculateGreenhouseConfidence
             metadata' category subcategory |}
  | None => field
  end.

End GreenhouseFields.

(* ===================================================================== *)
(** * The Lever adapter *)
(* ===================================================================== *)

Module LeverAdapter.
Import JS.

(** The metadata object after [enhanceFieldInfo]; [leverFieldType] is
    [null] ([None]) or a string. *)
Record LeverMetadata := {
  base : FormDetector.FieldMetadata;
  leverFieldType : option jsstring;
  isRequired : bool
}.

(** Truthiness of a value that is [null] or a string. *)
Definition truthyOption (s : option jsstring) : bool :=
  match s with
  | Some s => truthy s
  | None => false
  end.

Definition categorizeLeverField (metadata : LeverMetadata)
  : jsstring * jsstring :=
  let id := metadata.(base).(FormDetector.id) in
  let name := metadata.(base).(FormDetector.name) in
  let labelText := metadata.(base).(FormDetector.labelText) in
  if streq name (str "resume") || includes id (str "resume")
     || includes labelText (str "resume") || includes labelText (str "cv")
  then (str "other", str "resume")
  else if streq name (str "coverLetter") || includes id (str "cover")
          || includes labelText (str "cover letter")
  then (str "other", str "coverLetter")
  else if streq name (str "name") || streq id (str "name")
          || includes labelText (str "full name")
  then (str "personal", str "name")
  else if streq name (str "email") || streq id (str "email")
          || includes labelText (str "email")
  then (str "personal", str "email")
  else if streq name (str "phone") || streq id (str "phone")
          || includes labelText (str "phone")
  then (str "personal", str "phone")
  else if streq name (str "org") || includes labelText (str "company")
          || includes labelText (str "current company")
  then (str "experience", str "company")
  else if streq name (str "urls[LinkedIn]") || includes id (str "linkedin")
          || includes labelText (str "linkedin")
  then (str "other", str "linkedin")
  else if streq name (str "urls[GitHub]") || includes id (str "github")
          || includes labelText (str "github")
  then (str "other", str "github")
  else if streq name (str "urls[Portfolio]") || includes id (str "website")
          || includes id (str "portfolio")
          || includes labelText (str "website")
          || includes labelText (str "portfolio")
  then (str "other", str "website")
  else FormDetector.categorizeField metadata.(base).

Definition calculateLeverConfidence (metadata : LeverMetadata)
           (category subcategory : jsstring) : float :=
  let confidence :=
    FormDetector.calculateConfidence metadata.(base) category subcategory in
  let confidence :=
    if truthyOption metadata.(leverFieldType)
    then Math_min (confidence + 0.15)%float 1.0%float else confidence in
  let confidence :=
    if streq category (str "personal") && streq subcategory (str "name")
    then Math_min (confidence + 0.2)%float 1.0%float else confidence in
  confidence.

End LeverAdapter.

(* ===================================================================== *)
(** * The Workday adapter *)
(* ===================================================================== *)

Module WorkdayAdapter.
Import JS.

(** The [enhancedInfo] object of [getWorkdayFieldInfo];
    [workdayAutomationId] is a string or [null], [workdayFieldType] a
    string or [null]. *)
Record WorkdayMetadata := {
  base : FormDetector.FieldMetadata;
  workdayAutomationId : option jsstring;
  workdayFieldType : option jsstring
}.

(** The branches under [if (workdayAutomationId)]: the pair returned
    there, or [None] when control falls through to the generic call. *)
Definition automationIdCategory (workdayAutomationId : jsstring)
  : option (jsstring * jsstring) :=
  let has := includes workdayAutomationId in
  if has (str "email") then Some (str "personal", str "email")
  else if has (str "phone") then Some (str "personal", str "phone")
  else if has (str "name") then
    if has (str "first") then Some (str "personal", str "firstName")
    else if has (str "last") then Some (str "personal", str "lastName")
    else Some (str "personal", str "name")
  else if has (str "address") then
    if has (str "line1") || has (str "street")
    then Some (str "personal", str "address")
    else if has (str "city") then Some (str "personal", str "city")
    else if has (str "state") || has (str "province")
    then Some (str "personal", str "state")
    else if has (str "zip") || has (str "postal")
    then Some (str "personal", str "zipCode")
    else if has (str "country") then Some (str "personal", str "country")
    else Some (str "personal", str "address")
  else if has (str "education") || has (str "school") || has (str "degree")
  then
    if has (str "school") || has (str "institution")
    then Some (str "education", str "school")
    else if has (str "degree") then Some (str "education", str "degree")
    else if has (str "major") || has (str "field")
    then Some (str "education", str "fieldOfStudy")
    else if has (str "gpa") then Some (str "education", str "gpa")
    else if has (str "graduated") || has (str "completion")
    then Some (str "education", str "graduationDate")
    else Some (str "education", str "school")
  else if has (str "experience") || has (str "employment") || has (str "job")
  then
    if has (str "company") || has (str "employer")
    then Some (str "experience", str "company")
    else if has (str "title") || has (str "position")
    then Some (str "experience", str "title")
    else if has (str "start") then Some (str "experience", str "startDate")
    else if has (str "end") then Some (str "experience", str "endDate")
    else if has (str "description") || has (str "duties")
    then Some (str "experience", str "description")
    else Some (str "experience", str "company")
  else if has (str "skill") then Some (str "skills", str "skills")
  else if has (str "veteran") || has (str "military")
  then Some (str "other", str "veteranStatus")
  else None.

Definition categorizeWorkdayField (metadata : WorkdayMetadata)
  : jsstring * jsstring :=
  let specific :=
    match metadata.(workdayAutomationId) with
    | Some workdayAutomationId =>
        if truthy workdayAutomationId
        then automationIdCategory workdayAutomationId
        else None
    | None => None
    end in
  match specific with
  | Some found => found
  | None => FormDetector.categorizeField metadata.(base)
  end.

Definition calculateWorkdayConfidence (metadata : WorkdayMetadata)
           (category subcategory : jsstring) : float :=
  let confidence :=
    FormDetector.calculateConfidence metadata.(base) category subcategory in
  let confidence :=
    if LeverAdapter.truthyOption metadata.(workdayAutomationId)
    then Math_min (confidence + 0.2)%float 1.0%float else confidence in
  confidence.

(** [removeDuplicateFields]; [element] gives the identity of the DOM node
    a field object refers to, [seenElements] is the [Set]. *)
Definition removeDuplicateFields {Field : Type} (element : Field -> nat)
           (fields : list Field) : list Field :=
  (fold_left
     (fun '(uniqueFields, seenElements) field =>
        if bool_decide (element field ∈ (seenElements : gset nat))
        then (uniqueFields, seenElements)
        else (uniqueFields ++ [field], {[element field]} ∪ seenElements))
     fields ([], ∅)).1.

End WorkdayAdapter.

(* ===================================================================== *)
(** * Reference definitions used to state the properties *)
(* ===================================================================== *)

Module Reference.
Import JS.
Local Open Scope Z_scope.

(** The catalog as a flat sequence of (category, subcategory, trigger
    phrases), in iteration order. *)
Definition catalogEntries : list (jsstring * jsstring * list jsstring) :=
  flat_map (fun '(cat, subcats) =>
              map (fun '(subcat, pats) => (cat, subcat, pats)) subcats)
           FormDetector.patterns.

(** One iteration of the catalog loops of [categorizeField], over the
    flat catalog. *)
Definition considerEntry (m : FormDetector.FieldMetadata)
           (best : FormDetector.Best)
           (e : jsstring * jsstring * list jsstring) : FormDetector.Best :=
  FormDetector.considerSubcategory m e.1.1 best (e.1.2, e.2).

(** [best] is the outcome of scanning [seen]: still the initial
    unknown/unknown when nothing scored, otherwise the first entry of
    [seen] that reaches the highest score. *)
Definition firstMaximal (m : FormDetector.FieldMetadata)
           (seen : list (jsstring * jsstring * list jsstring))
           (best : FormDetector.Best) : Prop :=
  (best = (FormDetector.unknown, FormDetector.unknown, 0)
   /\ Forall (fun e => FormDetector.calculateMatchScore m e.2 <= 0) seen)
  \/ (0 < best.2
      /\ exists before pats after,
          seen = before ++ (best.1.1, best.1.2, pats) :: after
          /\ FormDetector.calculateMatchScore m pats = best.2
          /\ Forall (fun e => FormDetector.calculateMatchScore m e.2 < best.2)
                    before
          /\ Forall (fun e => FormDetector.calculateMatchScore m e.2 <= best.2)
                    after).

(** No text in any channel the classifier reads. *)
Definition textless (m : FormDetector.FieldMetadata) : Prop :=
  m.(FormDetector.id) = [] /\ m.(FormDetector.name) = []
  /\ m.(FormDetector.type) = [] /\ m.(FormDetector.placeholder) = []
  /\ m.(FormDetector.labelText) = [] /\ m.(FormDetector.ariaLabel) = []
  /\ m.(FormDetector.title) = [] /\ m.(FormDetector.autocomplete) = []
  /\ m.(FormDetector.dataAttributes) = [].

(** Points one trigger phrase earns, channel by channel, as the
    specification words it. *)
Definition spec_phraseScore (m : FormDetector.FieldMetadata) (p : jsstring) : Z :=
  (if includes m.(FormDetector.labelText) p
   then 5 + (if m.(FormDetector.labelForField) then 2 else 0) else 0)
  + (if includes m.(FormDetector.id) p then 3 else 0)
  + (if includes m.(FormDetector.name) p then 3 else 0)
  + (if includes m.(FormDetector.ariaLabel) p then 3 else 0)
  + (if includes m.(FormDetector.placeholder) p then 2 else 0)
  + (if includes m.(FormDetector.title) p then 1 else 0)
  + Z.of_nat (length (List.filter
                        (fun kv => includes kv.1 p || includes kv.2 p)
                        m.(FormDetector.dataAttributes))).

(** The specification's match score: the sum over all trigger phrases. *)
Definition spec_matchScore (m : FormDetector.FieldMetadata)
           (phrases : list jsstring) : Z :=
  foldr Z.add 0 (map (spec_phraseScore m) phrases).

(** A control with the given id, type, label text and label binding and
    nothing else. *)
Definition control (id type labelText : jsstring) (labelForField : bool)
  : FormDetector.FieldMetadata :=
  {| FormDetector.id := id; FormDetector.name := [];
     FormDetector.type := type; FormDetector.placeholder := [];
     FormDetector.className := []; FormDetector.value := [];
     FormDetector.autocomplete := []; FormDetector.ariaLabel := [];
     FormDetector.ariaLabelledBy := []; FormDetector.ariaDescribedBy := [];
     FormDetector.title := []; FormDetector.dataAttributes := [];
     FormDetector.labelText := labelText;
     FormDetector.labelForField := labelForField;
     FormDetector.required := false; FormDetector.pattern := [];
     FormDetector.minLength := 0; FormDetector.maxLength := 0;
     FormDetector.min := []; FormDetector.max := [];
     FormDetector.options := [] |}.

(** [<input>] with no attribute and no label. *)
Definition bareControl : FormDetector.FieldMetadata := control [] [] [] false.

(** [<input id="email" type="email">] with no label. *)
Definition emailInput : FormDetector.FieldMetadata :=
  control (str "email") (str "email") [] false.

(** [<label for=...>First Name</label>] bound to a control. *)
Definition firstNameLabelled : FormDetector.FieldMetadata :=
  control [] [] (str "first name") true.

(** [<label for=...>Email</label>] bound to a control. *)
Definition emailLabelled : FormDetector.FieldMetadata :=
  control [] [] (str "email") true.

(** [<input type="email">] with no id and no label. *)
Definition emailTypeOnly : FormDetector.FieldMetadata :=
  control [] (str "email") [] false.

(** The "no decision" result. *)
Definition unknownResult : FormDetector.Classification :=
  {| FormDetector.category := FormDetector.unknown;
     FormDetector.subcategory := FormDetector.unknown;
     FormDetector.confidence := 0%float |}.

(** A Greenhouse field wrapped in [<div id="email_field" class="field">]. *)
Definition greenhouseEmail : GreenhouseAdapter.GreenhouseMetadata :=
  {| GreenhouseAdapter.base := emailInput;
     GreenhouseAdapter.greenhouseFieldId := str "email_field";
     GreenhouseAdapter.greenhouseFieldType := str "field";
     GreenhouseAdapter.isRequired := true |}.

(** Removing a class of code units from the end of a token only: the
    reading of "stripping trailing punctuation" in the specification. *)
Fixpoint dropWhile (cls : char16 -> bool) (s : jsstring) : jsstring :=
  match s with
  | c :: s' => if cls c then dropWhile cls s' else s
  | [] => []
  end.

Definition spec_stripTrailing (cls : char16 -> bool) (s : jsstring) : jsstring :=
  rev (dropWhile cls (rev s)).

(** [parseSkills] as the specification words it: delimiter tokens, or,
    when these are fewer than 3 and the text has more than 10
    whitespace-separated words, the words longer than 2 with trailing
    punctuation stripped. *)
Definition spec_parseSkills (text : jsstring) : list jsstring :=
  let tokens :=
    List.filter (fun t => (0 <? length t)%nat)
      (map trim (splitRuns ResumeParser.isSkillDelimiter text)) in
  let words :=
    List.filter (fun w => (0 <? length w)%nat) (splitRuns isWhiteSpace text) in
  if (length tokens <? 3)%nat && (10 <? length words)%nat
  then map (spec_stripTrailing ResumeParser.isListPunctuation)
           (List.filter (fun w => (2 <? length w)%nat) words)
  else tokens.

(** Sample texts. *)
Definition skillsList : jsstring := str "Python, Go, Rust".

Definition skillsProse : jsstring :=
  str "I use node.js and many other tools every day at my job".

Definition skillsTenWords : jsstring :=
  str " one two three four five six seven eight nine ten".

(** A resume whose experience header occurs twice. *)
Definition twoExperienceHeaders : jsstring :=
  join [LF] (map str ["Jane Doe"; "Experience"; "job one"; "EDUCATION:";
                      "school"; " experience "; "job two";
                      "My experience is long"; "end"]%string).

(** The string is empty or starts with a code unit [trim] keeps. *)
Definition headNotWhiteSpace (s : jsstring) : Prop :=
  match s with
  | [] => True
  | c :: _ => isWhiteSpace c = false
  end.

(** The canonical section a cleaned line names, if any: the first
    section type, in table order, one of whose synonyms the line equals,
    with or without a colon after it. *)
Definition headerType (cleanLine : jsstring) : option jsstring :=
  match
    List.find
      (fun '(sectionType, headers) =>
         existsb (fun header =>
                    streq cleanLine header
                    || streq cleanLine (header ++ str ":"))
                 headers)
      ResumeParser.sectionHeaders
  with
  | Some (sectionType, _) => Some sectionType
  | None => None
  end.

(** A line is a header line when, trimmed and lower-cased, it is exactly a
    known synonym or that synonym followed by a colon. *)
Definition isHeaderLine (toLowerCase : jsstring -> jsstring)
           (line : jsstring) : Prop :=
  exists sectionType headers header,
    In (sectionType, headers) ResumeParser.sectionHeaders
    /\ In header headers
    /\ (toLowerCase (trim line) = header
        \/ toLowerCase (trim line) = header ++ str ":").

(** The boundaries of the lines from [index] on, line by line. *)
Fixpoint boundariesFrom (toLowerCase : jsstring -> jsstring)
         (lines : list jsstring) (index : nat) : list ResumeParser.Boundary :=
  match lines with
  | [] => []
  | line :: rest =>
      match headerType (toLowerCase (trim line)) with
      | Some sectionType =>
          [{| ResumeParser.type := sectionType; ResumeParser.index := index |}]
      | None => []
      end ++ boundariesFrom toLowerCase rest (S index)
  end.

(** Where the text of a section ends: at the next boundary, or at the end
    of the document. *)
Definition sectionEnd (following : list ResumeParser.Boundary)
           (lines : list jsstring) : nat :=
  match following with
  | nextSection :: _ => nextSection.(ResumeParser.index)
  | [] => length lines
  end.

Definition indexLe (a b : ResumeParser.Boundary) : Prop :=
  (a.(ResumeParser.index) <= b.(ResumeParser.index))%nat.

(** A matcher on which no pattern matches and no separator occurs; enough
    to run the parser on texts without contact details. *)
Definition silentEngine : ResumeParser.RegExpEngine :=
  {| ResumeParser.match0 := fun _ _ => None;
     ResumeParser.matchGroups := fun _ _ => None;
     ResumeParser.matchAll := fun _ _ => None;
     ResumeParser.splitRegExp := fun _ s => [s] |}.

End Reference.

(* ===================================================================== *)
(** * Further notions used to state properties of the code *)
(* ===================================================================== *)

Module Notions.
Import JS.
Local Open Scope Z_scope.

(** The six categories a classification result can carry. *)
Definition knownCategories : list jsstring :=
  map str ["personal"; "education"; "experience"; "skills"; "other";
           "unknown"]%string.

(** [category]/[subcategory] is a key pair of the pattern catalog. *)
Definition isCatalogPair (category subcategory : jsstring) : bool :=
  existsb (fun e => streq e.1.1 category && streq e.1.2 subcategory)
          Reference.catalogEntries.

(** One of the structural fallback rules of [categorizeField] applies to
    the control: its type is email or tel, or its autocomplete token is
    one of the five address tokens. *)
Definition hasStructuralSignal (m : FormDetector.FieldMetadata) : bool :=
  streq m.(FormDetector.type) (str "email")
  || streq m.(FormDetector.type) (str "tel")
  || arrayIncludes
       (map str ["address-line1"; "address-level2"; "address-level1";
                 "postal-code"; "country"]%string)
       m.(FormDetector.autocomplete).

(** The metadata of the same control with its label bound, or not bound,
    by a for/id relationship. *)
Definition withLabelBinding (m : FormDetector.FieldMetadata) (bound : bool)
  : FormDetector.FieldMetadata :=
  {| FormDetector.id := m.(FormDetector.id);
     FormDetector.name := m.(FormDetector.name);
     FormDetector.type := m.(FormDetector.type);
     FormDetector.placeholder := m.(FormDetector.placeholder);
     FormDetector.className := m.(FormDetector.className);
     FormDetector.value := m.(FormDetector.value);
     FormDetector.autocomplete := m.(FormDetector.autocomplete);
     FormDetector.ariaLabel := m.(FormDetector.ariaLabel);
     FormDetector.ariaLabelledBy := m.(FormDetector.ariaLabelledBy);
     FormDetector.ariaDescribedBy := m.(FormDetector.ariaDescribedBy);
     FormDetector.title := m.(FormDetector.title);
     FormDetector.dataAttributes := m.(FormDetector.dataAttributes);
     FormDetector.labelText := m.(FormDetector.labelText);
     FormDetector.labelForField := bound;
     FormDetector.required := m.(FormDetector.required);
     FormDetector.pattern := m.(FormDetector.pattern);
     FormDetector.minLength := m.(FormDetector.minLength);
     FormDetector.maxLength := m.(FormDetector.maxLength);
     FormDetector.min := m.(FormDetector.min);
     FormDetector.max := m.(FormDetector.max);
     FormDetector.options := m.(FormDetector.options) |}.

(** A category/subcategory result that is unknown/unknown or a key pair of
    the catalog. *)
Definition catalogOrUnknown (r : jsstring * jsstring) : Prop :=
  r = (FormDetector.unknown, FormDetector.unknown)
  \/ isCatalogPair r.1 r.2 = true.

(** What the automation-id rules of the Workday adapter may answer: no
    decision, a key pair of the catalog, or other/veteranStatus. *)
Definition catalogOrVeteran (o : option (jsstring * jsstring)) : Prop :=
  match o with
  | Some r => isCatalogPair r.1 r.2 = true
              \/ r = (str "other", str "veteranStatus")
  | None => True
  end.

(** The element carries one of the classes [findFieldWrapper] of the
    Greenhouse adapter looks for. *)
Definition hasWrapperClass (e : GreenhouseFields.Element) : bool :=
  GreenhouseFields.classListContains e (str "field")
  || GreenhouseFields.classListContains e (str "form-field")
  || GreenhouseFields.classListContains e (str "question").

(** An ancestor the wrapper search walks past: below the body and without
    a wrapper class. *)
Definition passedOver (e : GreenhouseFields.Element) : Prop :=
  e.(GreenhouseFields.tagName) <> str "BODY" /\ hasWrapperClass e = false.

(** Keeping, in order, the first field object of every DOM node not in
    [seen]. *)
Fixpoint firstOccurrences {Field : Type} (element : Field -> nat)
         (seen : gset nat) (fields : list Field) : list Field :=
  match fields with
  | [] => []
  | field :: rest =>
      if bool_decide (element field ∈ seen)
      then firstOccurrences element seen rest
      else field :: firstOccurrences element ({[element field]} ∪ seen) rest
  end.

(** Two line feeds stand next to each other somewhere in the string. *)
Fixpoint adjacentLF (s : jsstring) : bool :=
  match s with
  | c :: s' =>
      match s' with
      | d :: _ => N.eqb c LF && N.eqb d LF || adjacentLF s'
      | [] => false
      end
  | [] => false
  end.

(** The canonical section names: the keys of [sectionHeaders]. *)
Definition sectionTypes : list jsstring :=
  map fst ResumeParser.sectionHeaders.

Definition indexLt (a b : ResumeParser.Boundary) : Prop :=
  (a.(ResumeParser.index) < b.(ResumeParser.index))%nat.

(** A block that [parseExperience] and [parseEducation] turn into an
    entry: it is not blank. *)
Definition isEntryBlock (block : jsstring) : bool := truthy (trim block).

(** Code units of a string up to its first line feed. *)
Fixpoint firstLineOf (s : jsstring) : jsstring :=
  match s with
  | c :: s' => if N.eqb c LF then [] else c :: firstLineOf s'
  | [] => []
  end.

End Notions.

(* ===================================================================== *)
(** * Facts about the built-ins *)
(* ===================================================================== *)

Module JSFacts.
Import JS.

Lemma streq_spec (a b : jsstring) : streq a b = true <-> a = b.
Proof.
  revert b; induction a as [|c a IH]; intros [|d b]; simpl; try easy.
  rewrite andb_true_iff, N.eqb_eq, IH.
  split; [intros [-> ->]; reflexivity | intros [= -> ->]; auto].
Qed.

Lemma streq_refl (a : jsstring) : streq a a = true.
Proof. apply streq_spec; reflexivity. Qed.

Lemma streq_neq (a b : jsstring) : a <> b -> streq a b = false.
Proof.
  intros Hne; destruct (streq a b) eqn:E; [|reflexivity].
  apply streq_spec in E; contradiction.
Qed.

Lemma startsWith_spec (s p : jsstring) :
  startsWith s p = true <-> exists post, s = p ++ post.
Proof.
  revert s; induction p as [|c p IH]; intros s; simpl.
  - split; [intros _; exists s; reflexivity | destruct s; reflexivity].
  - destruct s as [|d s].
    + split; [discriminate | intros [post [=]]].
    + simpl; rewrite andb_true_iff, N.eqb_eq, IH; split.
      * intros [-> [post ->]]; exists post; reflexivity.
      * intros [post [= -> ->]]; split; [reflexivity | exists post; reflexivity].
Qed.

Lemma includes_spec (s p : jsstring) :
  includes s p = true <-> exists pre post, s = pre ++ p ++ post.
Proof.
  induction s as [|d s IH].
  - change (includes [] p) with (startsWith [] p || false).
    rewrite orb_false_r, startsWith_spec; split.
    + intros [post ->]; exists [], post; reflexivity.
    + intros [pre [post H]]; destruct pre; [exists post; exact H | discriminate].
  - change (includes (d :: s) p)
      with (startsWith (d :: s) p || includes s p).
    rewrite orb_true_iff, startsWith_spec, IH; split.
    + intros [[post ->] | [pre [post ->]]].
      * exists [], post; reflexivity.
      * exists (d :: pre), post; reflexivity.
    + intros [[|e pre] [post H]].
      * left; exists post; exact H.
      * right; injection H as -> ->; exists pre, post; reflexivity.
Qed.

Lemma includes_refl (s : jsstring) : includes s s = true.
Proof. apply includes_spec; exists [], []; rewrite app_nil_r; reflexivity. Qed.

Lemma includes_empty_subject (p : jsstring) : p <> [] -> includes [] p = false.
Proof. destruct p; [contradiction | reflexivity]. Qed.

Lemma truthy_false (s : jsstring) : truthy s = false <-> s = [].
Proof. destruct s; simpl; split; congruence. Qed.

End JSFacts.

(** The built-ins on small inputs, as the host evaluates them. *)
Module BuiltinExamples.
Import JS.

Example includes_inner : includes (str "email address") (str "address") = true.
Proof. reflexivity. Qed.

Example includes_empty_pattern : includes (str "abc") [] = true.
Proof. reflexivity. Qed.

Example includes_longer_pattern : includes (str "mail") (str "email") = false.
Proof. reflexivity. Qed.

Example trim_both_ends :
  trim ([9; 32] ++ str "a b" ++ [160; 10])%N = str "a b".
Proof. reflexivity. Qed.

Example trim_blank : trim (str "   ") = [].
Proof. reflexivity. Qed.

Example splitRuns_edges :
  splitRuns (N.eqb 44) (str ",a,,b,") = map str [""; "a"; "b"; ""]%string.
Proof. reflexivity. Qed.

Example splitRuns_empty : splitRuns (N.eqb 44) [] = [[]].
Proof. reflexivity. Qed.

Example splitChar_keeps_empty_pieces :
  splitChar LF (str "a" ++ [LF; LF] ++ str "b" ++ [LF])
  = map str ["a"; ""; "b"; ""]%string.
Proof. reflexivity. Qed.

Example join_lines : join [LF] (map str ["a"; "b"]%string) = str "a" ++ [LF] ++ str "b".
Proof. reflexivity. Qed.

Example join_nothing : join [LF] [] = [].
Proof. reflexivity. Qed.

Example slice_middle : slice [1; 2; 3; 4; 5]%N 1 3 = [2; 3]%N.
Proof. reflexivity. Qed.

Example slice_past_end : slice [1; 2; 3]%N 2 7 = [3]%N.
Proof. reflexivity. Qed.

Example slice_empty_range : slice [1; 2; 3]%N 3 2 = [].
Proof. reflexivity. Qed.

Example line_endings :
  collapseLF (replaceCR (replaceCRLF
    (str "a" ++ [CR; LF; CR; LF] ++ str "b" ++ [CR] ++ str "c")))
  = str "a" ++ [LF] ++ str "b" ++ [LF] ++ str "c".
Proof. reflexivity. Qed.

Example removeAll_everywhere :
  removeAll (N.eqb 46) (str "node.js.") = str "nodejs".
Proof. reflexivity. Qed.

Example Math_min_caps : Math_min (0.5 + 0.3 + 0.3)%float 1%float = 1%float.
Proof. reflexivity. Qed.

Example Math_min_keeps : Math_min (0.5 + 0.3)%float 1%float = 0.8%float.
Proof. reflexivity. Qed.

End BuiltinExamples.

(* ===================================================================== *)
(** * The classifier: scoring, best match, confidence *)
(* ===================================================================== *)

Module FormDetectorFacts.
Import JS JSFacts FormDetector Reference.
Local Open Scope Z_scope.

(** ** The match score is a sum *)

Lemma dataAttributes_count (p : jsstring) (data : list (jsstring * jsstring))
      (score : Z) :
  fold_left
    (fun score '(key, value) =>
       if includes key p || includes value p then score + 1 else score)
    data score
  = score + Z.of_nat (length (List.filter
                                (fun kv => includes kv.1 p || includes kv.2 p)
                                data)).
Proof.
  revert score; induction data as [|[k v] data IH]; intros score; simpl.
  - lia.
  - rewrite IH. destruct (includes k p || includes v p); simpl; lia.
Qed.

Lemma scorePattern_sum (m : FieldMetadata) (score : Z) (p : jsstring) :
  scorePattern m score p = score + spec_phraseScore m p.
Proof.
  unfold scorePattern, spec_phraseScore.
  rewrite dataAttributes_count.
  destruct (includes (id m) p), (includes (name m) p),
    (includes (labelText m) p), (labelForField m),
    (includes (placeholder m) p), (includes (ariaLabel m) p),
    (includes (title m) p); lia.
Qed.

Lemma fold_scorePattern_sum (m : FieldMetadata) (ps : list jsstring) (score : Z) :
  fold_left (scorePattern m) ps score = score + spec_matchScore m ps.
Proof.
  revert score; induction ps as [|p ps IH]; intros score; simpl.
  - unfold spec_matchScore; simpl; lia.
  - rewrite IH, scorePattern_sum. unfold spec_matchScore; simpl; lia.
Qed.

Lemma calculateMatchScore_sum (m : FieldMetadata) (ps : list jsstring) :
  calculateMatchScore m ps = spec_matchScore m ps.
Proof. unfold calculateMatchScore; rewrite fold_scorePattern_sum; lia. Qed.

Lemma spec_phraseScore_nonneg (m : FieldMetadata) (p : jsstring) :
  0 <= spec_phraseScore m p.
Proof.
  unfold spec_phraseScore.
  destruct (includes (id m) p), (includes (name m) p),
    (includes (labelText m) p), (labelForField m),
    (includes (placeholder m) p), (includes (ariaLabel m) p),
    (includes (title m) p); lia.
Qed.

Lemma spec_matchScore_nonneg (m : FieldMetadata) (ps : list jsstring) :
  0 <= spec_matchScore m ps.
Proof.
  induction ps as [|p ps IH]; unfold spec_matchScore in *; simpl; [lia|].
  pose proof (spec_phraseScore_nonneg m p); lia.
Qed.

Lemma spec_matchScore_phrase (m : FieldMetadata) (ps : list jsstring)
      (p : jsstring) :
  In p ps -> spec_phraseScore m p <= spec_matchScore m ps.
Proof.
  induction ps as [|q ps IH]; intros Hin; [destruct Hin|].
  unfold spec_matchScore in *; simpl.
  destruct Hin as [-> | Hin].
  - pose proof (spec_matchScore_nonneg m ps) as H0.
    unfold spec_matchScore in H0; lia.
  - pose proof (spec_phraseScore_nonneg m q); specialize (IH Hin); lia.
Qed.

Lemma bound_label_scores_seven (m : FieldMetadata) (p : jsstring) :
  labelForField m = true -> includes (labelText m) p = true ->
  7 <= spec_phraseScore m p.
Proof.
  intros Hf Hl; unfold spec_phraseScore; rewrite Hf, Hl.
  destruct (includes (id m) p), (includes (name m) p),
    (includes (placeholder m) p), (includes (ariaLabel m) p),
    (includes (title m) p); lia.
Qed.

Lemma textless_phraseScore (m : FieldMetadata) (p : jsstring) :
  textless m -> p <> [] -> spec_phraseScore m p = 0.
Proof.
  intros (Hid & Hname & _ & Hph & Hlab & Haria & Htitle & _ & Hdata) Hp.
  unfold spec_phraseScore.
  rewrite Hid, Hname, Hph, Hlab, Haria, Htitle, Hdata.
  rewrite (includes_empty_subject p Hp); reflexivity.
Qed.

Lemma textless_matchScore (m : FieldMetadata) (ps : list jsstring) :
  textless m -> Forall (fun p => p <> []) ps -> calculateMatchScore m ps = 0.
Proof.
  intros Hm Hps; rewrite calculateMatchScore_sum.
  induction Hps as [|p ps Hp _ IH]; [reflexivity|].
  unfold spec_matchScore in *; simpl.
  rewrite (textless_phraseScore m p Hm Hp), IH; reflexivity.
Qed.

End FormDetectorFacts.

Module BestMatchFacts.
Import JS JSFacts FormDetector Reference FormDetectorFacts.
Local Open Scope Z_scope.

(** ** The two nested loops scan the flat catalog *)

Lemma scan_subcategories (m : FieldMetadata) (cat : jsstring)
      (subcats : list (jsstring * list jsstring)) (best : Best) :
  fold_left (considerSubcategory m cat) subcats best
  = fold_left (considerEntry m)
      (map (fun '(subcat, pats) => (cat, subcat, pats)) subcats) best.
Proof.
  revert best; induction subcats as [|[subcat pats] subcats IH]; intros best.
  - reflexivity.
  - simpl. rewrite IH. reflexivity.
Qed.

Lemma scan_categories (m : FieldMetadata)
      (cats : list (jsstring * list (jsstring * list jsstring))) (best : Best) :
  fold_left
    (fun best '(cat, subcats) =>
       fold_left (considerSubcategory m cat) subcats best)
    cats best
  = fold_left (considerEntry m)
      (flat_map (fun '(cat, subcats) =>
                   map (fun '(subcat, pats) => (cat, subcat, pats)) subcats)
                cats)
      best.
Proof.
  revert best; induction cats as [|[cat subcats] cats IH]; intros best.
  - reflexivity.
  - simpl. rewrite fold_left_app, IH, scan_subcategories. reflexivity.
Qed.

Lemma bestMatch_flat (m : FieldMetadata) :
  bestMatch m = fold_left (considerEntry m) catalogEntries (unknown, unknown, 0).
Proof. apply scan_categories. Qed.

(** ** The scan keeps the first entry of highest score *)

Lemma considerEntry_firstMaximal (m : FieldMetadata)
      (seen : list (jsstring * jsstring * list jsstring)) (best : Best)
      (e : jsstring * jsstring * list jsstring) :
  firstMaximal m seen best ->
  firstMaximal m (seen ++ [e]) (considerEntry m best e).
Proof.
  destruct e as [[cat subcat] pats], best as [[c s] h].
  unfold considerEntry, considerSubcategory; simpl.
  intros Hinv. destruct (Z.ltb_spec h (calculateMatchScore m pats)) as [Hlt|Hge].
  - right; simpl. destruct Hinv as [[Hbest Hall] | (Hpos & before & ps & after & Hseen & Hps & Hb & Ha)].
    + injection Hbest as -> -> ->. split; [lia|].
      exists seen, pats, []. repeat split; auto.
      eapply Forall_impl; [exact Hall|]. simpl; intros; lia.
    + simpl in *. split; [lia|].
      exists seen, pats, []. repeat split; auto.
      rewrite Hseen. apply Forall_app; split.
      * eapply Forall_impl; [exact Hb|]. simpl; intros; lia.
      * constructor; [simpl; lia|].
        eapply Forall_impl; [exact Ha|]. simpl; intros; lia.
  - destruct Hinv as [[Hbest Hall] | (Hpos & before & ps & after & Hseen & Hps & Hb & Ha)].
    + left. split; [exact Hbest|].
      injection Hbest as -> -> ->.
      apply Forall_app; split; [exact Hall|]. constructor; [simpl; lia | constructor].
    + right; simpl in *. split; [exact Hpos|].
      exists before, ps, (after ++ [(cat, subcat, pats)]).
      repeat split; auto.
      * rewrite Hseen, <- app_assoc. reflexivity.
      * apply Forall_app; split; [exact Ha|]. constructor; [simpl; lia | constructor].
Qed.

Lemma scan_firstMaximal (m : FieldMetadata)
      (rest seen : list (jsstring * jsstring * list jsstring)) (best : Best) :
  firstMaximal m seen best ->
  firstMaximal m (seen ++ rest) (fold_left (considerEntry m) rest best).
Proof.
  revert seen best; induction rest as [|e rest IH]; intros seen best Hinv.
  - rewrite app_nil_r. exact Hinv.
  - simpl. replace (seen ++ e :: rest) with ((seen ++ [e]) ++ rest)
      by (rewrite <- app_assoc; reflexivity).
    apply IH, considerEntry_firstMaximal, Hinv.
Qed.

Lemma bestMatch_firstMaximal (m : FieldMetadata) :
  firstMaximal m catalogEntries (bestMatch m).
Proof.
  rewrite bestMatch_flat.
  apply (scan_firstMaximal m catalogEntries []).
  left; split; [reflexivity | constructor].
Qed.

(** ** Facts read off the catalog *)

Lemma catalog_categories_known :
  Forall (fun e => e.1.1 <> unknown) catalogEntries.
Proof.
  apply List.Forall_forall. intros e He.
  assert (Hb : forallb (fun e => negb (streq e.1.1 unknown)) catalogEntries = true)
    by (vm_compute; reflexivity).
  rewrite forallb_forall in Hb. specialize (Hb e He).
  intros Heq. rewrite Heq, streq_refl in Hb. discriminate.
Qed.

Lemma catalog_phrases_nonempty :
  Forall (fun e => Forall (fun p => p <> []) e.2) catalogEntries.
Proof.
  apply List.Forall_forall. intros e He. apply List.Forall_forall. intros p Hp.
  assert (Hb : forallb (fun e => forallb truthy e.2) catalogEntries = true)
    by (vm_compute; reflexivity).
  rewrite forallb_forall in Hb. specialize (Hb e He).
  rewrite forallb_forall in Hb. specialize (Hb p Hp).
  intros ->. discriminate.
Qed.

(** ** Consequences *)

Lemma bestMatch_dominates (m : FieldMetadata) (c s : jsstring) (h : Z)
      (e : jsstring * jsstring * list jsstring) :
  bestMatch m = (c, s, h) ->
  In e catalogEntries -> calculateMatchScore m e.2 <= h.
Proof.
  intros Hbm He. pose proof (bestMatch_firstMaximal m) as Hinv.
  rewrite Hbm in Hinv. unfold firstMaximal in Hinv. cbn [fst snd] in Hinv.
  destruct Hinv
    as [[Hbest Hall] | (Hpos & before & ps & after & Hseen & Hps & Hb & Ha)].
  - injection Hbest as _ _ ->.
    rewrite List.Forall_forall in Hall. apply Hall, He.
  - rewrite Hseen in He. apply in_app_or in He. destruct He as [He | [<- | He]].
    + rewrite List.Forall_forall in Hb. specialize (Hb e He). lia.
    + cbn [snd]. lia.
    + rewrite List.Forall_forall in Ha. apply Ha, He.
Qed.

Lemma bestMatch_cases (m : FieldMetadata) (c s : jsstring) (h : Z) :
  bestMatch m = (c, s, h) ->
  (c = unknown /\ s = unknown /\ h = 0)
  \/ (0 < h /\ c <> unknown
      /\ exists pats, In (c, s, pats) catalogEntries
                      /\ calculateMatchScore m pats = h).
Proof.
  intros Hbm. pose proof (bestMatch_firstMaximal m) as Hinv.
  rewrite Hbm in Hinv. unfold firstMaximal in Hinv. cbn [fst snd] in Hinv.
  destruct Hinv
    as [[Hbest Hall] | (Hpos & before & ps & after & Hseen & Hps & Hb & Ha)].
  - left. injection Hbest as -> -> ->. auto.
  - right. assert (Hin : In (c, s, ps) catalogEntries)
      by (rewrite Hseen; apply in_or_app; right; left; reflexivity).
    split; [exact Hpos|]. split.
    + pose proof catalog_categories_known as Hk.
      rewrite List.Forall_forall in Hk. specialize (Hk _ Hin).
      cbn [fst] in Hk. exact Hk.
    + exists ps; auto.
Qed.

Lemma textless_bestMatch (m : FieldMetadata) :
  textless m -> bestMatch m = (unknown, unknown, 0).
Proof.
  intros Hm. destruct (bestMatch m) as [[c s] h] eqn:Hbm.
  destruct (bestMatch_cases m c s h Hbm)
    as [(-> & -> & ->) | (Hpos & _ & pats & Hin & Hsc)]; [reflexivity|].
  pose proof catalog_phrases_nonempty as Hne. rewrite List.Forall_forall in Hne.
  specialize (Hne _ Hin). cbn [snd] in Hne.
  rewrite (textless_matchScore m pats Hm Hne) in Hsc. lia.
Qed.

End BestMatchFacts.

Module ConfidenceFacts.
Import JS JSFacts FormDetector Reference FormDetectorFacts BestMatchFacts.

(** Splits on every condition of a confidence computation, then evaluates
    the remaining closed floating-point expression. *)
Ltac by_boost_cases :=
  repeat match goal with
         | |- context [if ?b then _ else _] => destruct b
         end;
  vm_compute; repeat split; reflexivity.

Lemma calculateConfidence_unit (m : FieldMetadata) (c s : jsstring) :
  (0 <=? calculateConfidence m c s)%float = true
  /\ (calculateConfidence m c s <=? 1)%float = true.
Proof. unfold calculateConfidence. by_boost_cases. Qed.

Lemma calculateConfidence_unknown (m : FieldMetadata) (s : jsstring) :
  calculateConfidence m unknown s = 0%float.
Proof. unfold calculateConfidence. rewrite streq_refl. reflexivity. Qed.

Lemma calculateConfidence_known (m : FieldMetadata) (c s : jsstring) :
  c <> unknown -> (0.5 <=? calculateConfidence m c s)%float = true.
Proof.
  intros Hc. unfold calculateConfidence. rewrite (streq_neq _ _ Hc).
  by_boost_cases.
Qed.

Lemma calculateConfidence_bound_label (m : FieldMetadata) (c s : jsstring) :
  c <> unknown -> labelForField m = true ->
  (0.8 <=? calculateConfidence m c s)%float = true.
Proof.
  intros Hc Hl. unfold calculateConfidence. rewrite (streq_neq _ _ Hc), Hl.
  by_boost_cases.
Qed.

Lemma calculateGreenhouseConfidence_unit
      (gm : GreenhouseAdapter.GreenhouseMetadata) (c s : jsstring) :
  (0 <=? GreenhouseAdapter.calculateGreenhouseConfidence gm c s)%float = true
  /\ (GreenhouseAdapter.calculateGreenhouseConfidence gm c s <=? 1)%float = true.
Proof.
  unfold GreenhouseAdapter.calculateGreenhouseConfidence, calculateConfidence.
  by_boost_cases.
Qed.

(** ** The fallback stage *)

Lemma fieldTypeHeuristics_cases (m : FieldMetadata) (c s : jsstring) :
  fieldTypeHeuristics m c s = (c, s)
  \/ (fieldTypeHeuristics m c s).1 = str "personal".
Proof.
  unfold fieldTypeHeuristics.
  repeat match goal with
         | |- context [if ?b then _ else _] => destruct b
         end; auto.
Qed.

Lemma personal_is_known : str "personal" <> unknown.
Proof. vm_compute; discriminate. Qed.

Lemma fieldTypeHeuristics_no_signal (m : FieldMetadata) (c s : jsstring) :
  type m = [] -> autocomplete m = [] -> fieldTypeHeuristics m c s = (c, s).
Proof. intros Ht Ha. unfold fieldTypeHeuristics. rewrite Ht, Ha. reflexivity. Qed.

Lemma categorizeField_confident (m : FieldMetadata) (c s : jsstring) (h : Z) :
  bestMatch m = (c, s, h) -> (3 <= h)%Z -> categorizeField m = (c, s).
Proof.
  intros Hbm Hh. unfold categorizeField, inconclusive. rewrite Hbm.
  destruct (bestMatch_cases m c s h Hbm) as [(_ & _ & ->) | (_ & Hk & _)]; [lia|].
  rewrite (streq_neq _ _ Hk). destruct (Z.ltb_spec h 3); [lia | reflexivity].
Qed.

Lemma categorizeField_inconclusive (m : FieldMetadata) (c s : jsstring) (h : Z) :
  bestMatch m = (c, s, h) -> (h < 3)%Z \/ c = unknown ->
  categorizeField m = fieldTypeHeuristics m c s.
Proof.
  intros Hbm Hgate. unfold categorizeField, inconclusive. rewrite Hbm.
  destruct Hgate as [Hlt | ->].
  - destruct (Z.ltb_spec h 3); [|lia]. rewrite orb_true_r. reflexivity.
  - rewrite streq_refl. reflexivity.
Qed.

Lemma categorizeField_unknown (m : FieldMetadata) (c s : jsstring) :
  categorizeField m = (c, s) -> c = unknown -> s = unknown.
Proof.
  destruct (bestMatch m) as [[c0 s0] h] eqn:Hbm. intros Hcat Hc.
  destruct (bestMatch_cases m c0 s0 h Hbm)
    as [(-> & -> & ->) | (Hpos & Hk & _)].
  - rewrite (categorizeField_inconclusive m _ _ _ Hbm) in Hcat by (left; lia).
    destruct (fieldTypeHeuristics_cases m unknown unknown) as [Hsame | Hp].
    + rewrite Hsame in Hcat. congruence.
    + rewrite Hcat in Hp. cbn [fst] in Hp.
      exfalso; apply personal_is_known; congruence.
  - destruct (Z.lt_ge_cases h 3) as [Hlt | Hge].
    + rewrite (categorizeField_inconclusive m _ _ _ Hbm) in Hcat by (left; lia).
      destruct (fieldTypeHeuristics_cases m c0 s0) as [Hsame | Hp].
      * rewrite Hsame in Hcat. congruence.
      * rewrite Hcat in Hp. cbn [fst] in Hp.
        exfalso; apply personal_is_known; congruence.
    + rewrite (categorizeField_confident m _ _ _ Hbm Hge) in Hcat. congruence.
Qed.

Lemma textless_categorizeField (m : FieldMetadata) :
  textless m -> categorizeField m = (unknown, unknown).
Proof.
  intros Hm.
  rewrite (categorizeField_inconclusive m _ _ _ (textless_bestMatch m Hm))
    by (left; lia).
  destruct Hm as (_ & _ & Htype & _ & _ & _ & _ & Hauto & _).
  apply fieldTypeHeuristics_no_signal; assumption.
Qed.

End ConfidenceFacts.

(* ===================================================================== *)
(** * Properties of the field classifier *)
(* ===================================================================== *)

Module ClassifierProperties.
Import JS JSFacts FormDetector Reference.
Import FormDetectorFacts BestMatchFacts ConfidenceFacts.
Local Open Scope Z_scope.

(** C1. A metadata record with no text in any channel (id, name, type,
    placeholder, label text, aria-label, title, autocomplete, no
    data-attributes) classifies as unknown/unknown with confidence exactly
    0.  Classification is a total function of the metadata record, so it
    yields a result for every well-typed input; whenever that result's
    category is unknown, its subcategory is unknown and its confidence is
    0. *)
Theorem C1_textless_classifies_unknown (m : FieldMetadata) :
  (textless m -> classify m = unknownResult)
  /\ (category (classify m) = unknown ->
      subcategory (classify m) = unknown
      /\ confidence (classify m) = 0%float).
Proof.
  split.
  - intros Hm. unfold classify. rewrite (textless_categorizeField m Hm).
    rewrite calculateConfidence_unknown. reflexivity.
  - unfold classify.
    pose proof (categorizeField_unknown m) as Hsub.
    destruct (categorizeField m) as [c s]. cbn [category subcategory confidence].
    intros ->. rewrite (Hsub _ _ eq_refl eq_refl), calculateConfidence_unknown.
    auto.
Qed.

Lemma C1_witness :
  textless bareControl /\ classify bareControl = unknownResult.
Proof.
  assert (H : textless bareControl) by (repeat split).
  split; [exact H | exact (proj1 (C1_textless_classifies_unknown bareControl) H)].
Defined.

(** C2. For every metadata record and every category/subcategory pair,
    the confidence computed by [calculateConfidence], and the one computed
    by the Greenhouse overlay's [calculateGreenhouseConfidence], is at
    least 0 and at most 1. *)
Theorem C2_confidence_in_unit_interval
        (m : FieldMetadata) (gm : GreenhouseAdapter.GreenhouseMetadata)
        (c s : jsstring) :
  ((0 <=? calculateConfidence m c s)%float = true
   /\ (calculateConfidence m c s <=? 1)%float = true)
  /\ ((0 <=? GreenhouseAdapter.calculateGreenhouseConfidence gm c s)%float = true
      /\ (GreenhouseAdapter.calculateGreenhouseConfidence gm c s <=? 1)%float
         = true).
Proof.
  split;
    [apply calculateConfidence_unit | apply calculateGreenhouseConfidence_unit].
Qed.

(** C4. The match score of a metadata record against a list of trigger
    phrases is the sum, over all the phrases, of: 5 if the label text
    contains the phrase (and 2 more when the label is bound by for/id), 3
    each for id, name and aria-label, 2 for the placeholder, 1 for the
    title, and 1 per data-attribute whose key or value contains it. *)
Theorem C4_match_score_is_weighted_sum (m : FieldMetadata)
        (phrases : list jsstring) :
  calculateMatchScore m phrases = spec_matchScore m phrases.
Proof. apply calculateMatchScore_sum. Qed.

(** C10. Whenever classification yields a category other than unknown,
    the confidence is at least 0.5; so a confidence is either exactly 0
    or at least 0.5. *)
Theorem C10_known_category_at_least_half (m : FieldMetadata) :
  (category (classify m) <> unknown ->
   (0.5 <=? confidence (classify m))%float = true)
  /\ (forall c s, c <> unknown ->
                  (0.5 <=? calculateConfidence m c s)%float = true)
  /\ (confidence (classify m) = 0%float
      \/ (0.5 <=? confidence (classify m))%float = true).
Proof.
  assert (Hgen : forall c s, c <> unknown ->
                             (0.5 <=? calculateConfidence m c s)%float = true)
    by (intros c s; apply calculateConfidence_known).
  unfold classify. destruct (categorizeField m) as [c s]; simpl.
  split; [apply Hgen|]. split; [exact Hgen|].
  destruct (decide (c = unknown)) as [-> | Hc].
  - left; apply calculateConfidence_unknown.
  - right; apply Hgen, Hc.
Qed.

Lemma C10_witness :
  category (classify emailInput) <> unknown
  /\ (0.5 <=? confidence (classify emailInput))%float = true.
Proof.
  assert (H : category (classify emailInput) <> unknown)
    by (vm_compute; discriminate).
  split; [exact H | exact (proj1 (C10_known_category_at_least_half emailInput) H)].
Defined.


(** C5. The type/autocomplete fallback rules are consulted exactly when
    the best pattern score is below 3 or no category matched: in that case
    the result is what the rules leave (type email gives personal/email,
    autocomplete address-level2 gives personal/city when no earlier rule
    fires), and whenever the best pattern score is 3 or more the
    pattern-derived category/subcategory is returned unchanged. *)
Theorem C5_fallback_only_when_inconclusive
        (m : FieldMetadata) (c s : jsstring) (h : Z) :
  bestMatch m = (c, s, h) ->
  (inconclusive c h = true <-> h < 3 \/ c = unknown)
  /\ (3 <= h -> categorizeField m = (c, s))
  /\ (h < 3 \/ c = unknown -> categorizeField m = fieldTypeHeuristics m c s)
  /\ (categorizeField m <> (c, s) -> h < 3 \/ c = unknown)
  /\ (h < 3 \/ c = unknown -> type m = str "email" ->
      categorizeField m = (str "personal", str "email"))
  /\ (h < 3 \/ c = unknown ->
      type m <> str "email" -> type m <> str "tel" ->
      autocomplete m = str "address-level2" ->
      categorizeField m = (str "personal", str "city")).
Proof.
  intros Hbm.
  assert (Hconf : 3 <= h -> categorizeField m = (c, s))
    by apply (categorizeField_confident m c s h Hbm).
  assert (Hinc : h < 3 \/ c = unknown ->
                 categorizeField m = fieldTypeHeuristics m c s)
    by apply (categorizeField_inconclusive m c s h Hbm).
  split.
  { unfold inconclusive. rewrite orb_true_iff, Z.ltb_lt, streq_spec. tauto. }
  split; [exact Hconf|]. split; [exact Hinc|]. split; [|split].
  - intros Hne. destruct (Z.lt_ge_cases h 3) as [Hlt | Hge]; [left; exact Hlt|].
    destruct (Hne (Hconf Hge)).
  - intros Hgate Htype. rewrite (Hinc Hgate).
    unfold fieldTypeHeuristics. rewrite Htype. reflexivity.
  - intros Hgate Hne Hnt Hauto. rewrite (Hinc Hgate).
    unfold fieldTypeHeuristics.
    rewrite (streq_neq _ _ Hne), (streq_neq _ _ Hnt), Hauto. reflexivity.
Qed.

Lemma C5_witness :
  bestMatch emailTypeOnly = (unknown, unknown, 0)
  /\ categorizeField emailTypeOnly = (str "personal", str "email").
Proof.
  assert (H : bestMatch emailTypeOnly = (unknown, unknown, 0))
    by (vm_compute; reflexivity).
  split; [exact H|].
  apply (C5_fallback_only_when_inconclusive emailTypeOnly _ _ _ H);
    [left; lia | reflexivity].
Defined.

(** C3 (as the code has it). For a metadata record whose label is bound
    by for/id and whose label text equals a trigger phrase of catalog
    subcategory S: S scores at least 7; classification returns a catalog
    pair whose score is at least that of S, namely the first pair of
    highest score in catalog order, which is S whenever S scores strictly
    higher than every other catalog pair; and the confidence is at least
    0.8. *)
Theorem C3_bound_label_exact_phrase
        (m : FieldMetadata) (cat sub : jsstring) (pats : list jsstring)
        (p : jsstring) :
  In (cat, sub, pats) catalogEntries -> In p pats ->
  labelForField m = true -> labelText m = p ->
  7 <= calculateMatchScore m pats
  /\ (exists pats',
         In ((categorizeField m).1, (categorizeField m).2, pats') catalogEntries
         /\ calculateMatchScore m pats <= calculateMatchScore m pats'
         /\ firstMaximal m catalogEntries
              ((categorizeField m).1, (categorizeField m).2,
               calculateMatchScore m pats'))
  /\ ((forall e, In e catalogEntries -> e <> (cat, sub, pats) ->
                 calculateMatchScore m e.2 < calculateMatchScore m pats) ->
      categorizeField m = (cat, sub))
  /\ (0.8 <=? confidence (classify m))%float = true.
Proof.
  intros Hin Hp Hbound Hlabel.
  assert (Hseven : 7 <= calculateMatchScore m pats).
  { rewrite calculateMatchScore_sum.
    etransitivity; [|apply (spec_matchScore_phrase m pats p Hp)].
    apply bound_label_scores_seven; [exact Hbound|].
    rewrite Hlabel. apply includes_refl. }
  destruct (bestMatch m) as [[c s] h] eqn:Hbm.
  pose proof (bestMatch_dominates m c s h _ Hbm Hin) as Hdom. cbn [snd] in Hdom.
  assert (Hcat : categorizeField m = (c, s))
    by (apply (categorizeField_confident m c s h Hbm); lia).
  destruct (bestMatch_cases m c s h Hbm)
    as [(_ & _ & ->) | (Hpos & Hk & pats' & Hin' & Hsc')]; [lia|].
  split; [exact Hseven|]. rewrite Hcat. cbn [fst snd]. split; [|split].
  - exists pats'. split; [exact Hin'|]. split; [lia|].
    rewrite Hsc', <- Hbm. apply bestMatch_firstMaximal.
  - intros Hstrict.
    destruct (decide ((c, s, pats') = (cat, sub, pats))) as [Heq | Hne].
    + injection Heq as -> -> _. reflexivity.
    + specialize (Hstrict _ Hin' Hne). cbn [snd] in Hstrict. lia.
  - unfold classify. rewrite Hcat. cbn [confidence].
    apply calculateConfidence_bound_label; assumption.
Qed.

Lemma C3_witness :
  categorizeField emailLabelled = (str "personal", str "email")
  /\ (0.8 <=? confidence (classify emailLabelled))%float = true.
Proof.
  pose (pats := map str ["email"; "e-mail"; "email address";
                         "e-mail address"]%string).
  assert (Hin : In (str "personal", str "email", pats) catalogEntries)
    by (vm_compute; tauto).
  assert (Hp : In (str "email") pats) by (left; reflexivity).
  destruct (C3_bound_label_exact_phrase emailLabelled _ _ _ _ Hin Hp
              eq_refl eq_refl) as (_ & _ & Hwin & Hconf).
  split; [|exact Hconf].
  apply Hwin. intros e He Hne.
  assert (Hb : forallb
                 (fun e => streq e.1.1 (str "personal")
                           && streq e.1.2 (str "email")
                           || (calculateMatchScore emailLabelled e.2
                               <? calculateMatchScore emailLabelled pats))
                 catalogEntries = true) by (vm_compute; reflexivity).
  rewrite forallb_forall in Hb. specialize (Hb e He).
  apply orb_true_iff in Hb. destruct Hb as [Hb | Hb]; [|lia].
  exfalso. apply andb_true_iff in Hb. destruct Hb as [Hc Hs].
  apply streq_spec in Hc, Hs. destruct e as [[ec es] eps]. cbn [fst snd] in *.
  subst ec es. apply Hne.
  assert (Hu : forallb
                 (fun e => negb (streq e.1.1 (str "personal")
                                 && streq e.1.2 (str "email"))
                           || bool_decide (e.2 = pats))
                 catalogEntries = true) by (vm_compute; reflexivity).
  rewrite forallb_forall in Hu. specialize (Hu _ He). cbn [fst snd] in Hu.
  rewrite !streq_refl in Hu. cbn in Hu. apply bool_decide_eq_true in Hu.
  rewrite Hu. reflexivity.
Defined.

Lemma C3_counterexample :
  labelForField firstNameLabelled = true
  /\ (exists pats,
         In (str "personal", str "firstName", pats) catalogEntries
         /\ In (labelText firstNameLabelled) pats)
  /\ categorizeField firstNameLabelled = (str "personal", str "name")
  /\ categorizeField firstNameLabelled <> (str "personal", str "firstName").
Proof.
  split; [reflexivity|]. split.
  - exists (map str ["first name"; "firstname"; "first_name"; "fname";
                     "given name"; "given_name"]%string).
    split; [vm_compute; tauto | left; reflexivity].
  - split; [vm_compute; reflexivity | vm_compute; discriminate].
Qed.

(** C9 (as the code has it). For a control with id "email", type "email"
    and nothing else, the pattern stage already decides: the trigger
    phrase "email" occurs in the id, so personal/email scores 3, the best
    score is 3, the guard of the fallback stage is false, and
    classification returns personal/email with confidence 1, which is at
    least 0.5. *)
Theorem C9_email_input_is_pattern_matched :
  calculateMatchScore emailInput
    (map str ["email"; "e-mail"; "email address"; "e-mail address"]%string) = 3
  /\ bestMatch emailInput = (str "personal", str "email", 3)
  /\ inconclusive (str "personal") 3 = false
  /\ categorizeField emailInput = (str "personal", str "email")
  /\ classify emailInput
     = {| category := str "personal"; subcategory := str "email";
          confidence := 1%float |}
  /\ (0.5 <=? confidence (classify emailInput))%float = true.
Proof. repeat split; vm_compute; reflexivity. Qed.

Lemma C9_counterexample :
  ~ ((bestMatch emailInput).2 = 0
     /\ inconclusive (bestMatch emailInput).1.1 (bestMatch emailInput).2 = true
     /\ categorizeField emailInput = (str "personal", str "email")
     /\ (0.5 <=? confidence (classify emailInput))%float = true).
Proof. intros [H _]. vm_compute in H. discriminate. Qed.

End ClassifierProperties.

(* ===================================================================== *)
(** * The resume parser: splitting and trimming *)
(* ===================================================================== *)

Module SplitFacts.
Import JS JSFacts Reference.

Lemma trimStart_head (s : jsstring) : headNotWhiteSpace (trimStart s).
Proof.
  induction s as [|c s IH]; simpl; [exact I|].
  destruct (isWhiteSpace c) eqn:E; [exact IH | exact E].
Qed.

Lemma trimStart_fixed (s : jsstring) : headNotWhiteSpace s -> trimStart s = s.
Proof. destruct s as [|c s]; simpl; [reflexivity | intros ->; reflexivity]. Qed.

Lemma trimStart_idempotent (s : jsstring) : trimStart (trimStart s) = trimStart s.
Proof. apply trimStart_fixed, trimStart_head. Qed.

Lemma trimStart_keeps_last (l : jsstring) (c : char16) :
  isWhiteSpace c = false -> exists l', trimStart (l ++ [c]) = l' ++ [c].
Proof.
  intros Hc. induction l as [|d l IH]; simpl.
  - rewrite Hc. exists []; reflexivity.
  - destruct (isWhiteSpace d); [exact IH | exists (d :: l); reflexivity].
Qed.

Lemma trimEnd_head (s : jsstring) :
  headNotWhiteSpace s -> headNotWhiteSpace (trimEnd s).
Proof.
  destruct s as [|c s]; [intros _; exact I|]. simpl. intros Hc.
  unfold trimEnd. simpl.
  destruct (trimStart_keeps_last (rev s) c Hc) as [l' ->].
  rewrite rev_app_distr. simpl. exact Hc.
Qed.

Lemma trimEnd_idempotent (s : jsstring) : trimEnd (trimEnd s) = trimEnd s.
Proof. unfold trimEnd. rewrite rev_involutive, trimStart_idempotent. reflexivity. Qed.

Lemma trim_idempotent (s : jsstring) : trim (trim s) = trim s.
Proof.
  unfold trim.
  rewrite (trimStart_fixed (trimEnd (trimStart s)))
    by apply trimEnd_head, trimStart_head.
  apply trimEnd_idempotent.
Qed.

Lemma trimStart_Forall (P : char16 -> Prop) (s : jsstring) :
  Forall P s -> Forall P (trimStart s).
Proof.
  induction 1 as [|c s Hc Hs IH]; simpl; [constructor|].
  destruct (isWhiteSpace c); [exact IH | constructor; assumption].
Qed.

Lemma trim_Forall (P : char16 -> Prop) (s : jsstring) :
  Forall P s -> Forall P (trim s).
Proof.
  intros H. unfold trim, trimEnd.
  apply Forall_rev, trimStart_Forall, Forall_rev, trimStart_Forall, H.
Qed.

Lemma removeAll_Forall (P : char16 -> Prop) (cls : char16 -> bool)
      (s : jsstring) :
  Forall P s -> Forall P (removeAll cls s).
Proof.
  induction 1 as [|c s Hc Hs IH]; simpl; [constructor|].
  destruct (cls c); simpl; [exact IH | constructor; assumption].
Qed.

Lemma removeAll_clean (cls : char16 -> bool) (s : jsstring) :
  Forall (fun c => cls c = false) (removeAll cls s).
Proof.
  induction s as [|c s IH]; simpl; [constructor|].
  destruct (cls c) eqn:E; simpl; [exact IH | constructor; assumption].
Qed.

(** Pieces between separator runs hold no separator. *)
Lemma splitRunsFrom_pieces (sep : char16 -> bool) (s cur : jsstring)
      (inRun : bool) :
  Forall (fun c => sep c = false) cur ->
  Forall (Forall (fun c => sep c = false)) (splitRunsFrom sep s cur inRun).
Proof.
  revert cur inRun; induction s as [|c s IH]; intros cur inRun Hcur; simpl.
  - constructor; [apply Forall_rev, Hcur | constructor].
  - destruct (sep c) eqn:E.
    + destruct inRun.
      * apply IH, Hcur.
      * constructor; [apply Forall_rev, Hcur | apply IH; constructor].
    + apply IH. constructor; assumption.
Qed.

Lemma splitRuns_pieces (sep : char16 -> bool) (s : jsstring) :
  Forall (Forall (fun c => sep c = false)) (splitRuns sep s).
Proof. apply splitRunsFrom_pieces; constructor. Qed.

(** [split] never returns an empty array. *)
Lemma splitCharFrom_nonempty (d : char16) (s cur : jsstring) :
  splitCharFrom d s cur <> [].
Proof.
  revert cur; induction s as [|c s IH]; intros cur; simpl; [discriminate|].
  destruct (N.eqb c d); [discriminate | apply IH].
Qed.

Lemma splitChar_nonempty (d : char16) (s : jsstring) : splitChar d s <> [].
Proof. apply splitCharFrom_nonempty. Qed.

End SplitFacts.

Module SectionFacts.
Import JS JSFacts Reference ResumeParser SplitFacts.

Section Host.
Variable toLowerCase : jsstring -> jsstring.

(** ** One line *)

Lemma visitLine_headerType (boundaries : list Boundary) (line : jsstring)
      (i : nat) :
  visitLine toLowerCase sectionHeaders boundaries line i
  = boundaries
    ++ match headerType (toLowerCase (trim line)) with
       | Some sectionType => [{| type := sectionType; index := i |}]
       | None => []
       end.
Proof.
  unfold visitLine, headerType.
  destruct (toLowerCase (trim line)) as [|c clean] eqn:E.
  - simpl. rewrite app_nil_r. reflexivity.
  - cbn [truthy negb].
    destruct (List.find _ sectionHeaders) as [[t hs]|];
      [reflexivity | rewrite app_nil_r; reflexivity].
Qed.

Lemma headerType_isHeaderLine (line : jsstring) :
  (exists t, headerType (toLowerCase (trim line)) = Some t)
  <-> isHeaderLine toLowerCase line.
Proof.
  unfold headerType, isHeaderLine.
  set (clean := toLowerCase (trim line)).
  set (hit := fun '(sectionType, headers) =>
                existsb (fun header : jsstring =>
                           streq clean header || streq clean (header ++ str ":"))
                        headers).
  split.
  - intros [t Ht]. destruct (List.find hit sectionHeaders) as [[t' hs]|] eqn:F;
      [|discriminate].
    apply find_some in F. destruct F as [Hin Hhit]. unfold hit in Hhit.
    apply existsb_exists in Hhit. destruct Hhit as (h & Hh & Heq).
    exists t', hs, h. split; [exact Hin|]. split; [exact Hh|].
    apply orb_true_iff in Heq. destruct Heq as [Heq | Heq];
      apply streq_spec in Heq; auto.
  - intros (t & hs & h & Hin & Hh & Heq).
    destruct (List.find hit sectionHeaders) as [[t' hs']|] eqn:F;
      [exists t'; reflexivity|].
    exfalso. pose proof (find_none _ _ F _ Hin) as Hno. unfold hit in Hno.
    assert (Hyes : existsb (fun header : jsstring =>
                              streq clean header
                              || streq clean (header ++ str ":")) hs = true).
    { apply existsb_exists. exists h. split; [exact Hh|].
      apply orb_true_iff. destruct Heq as [Heq | Heq]; [left | right];
        apply streq_spec; exact Heq. }
    congruence.
Qed.

(** ** All lines *)

Lemma forEachLine_boundariesFrom (lines : list jsstring) (i : nat)
      (boundaries : list Boundary) :
  forEachLine toLowerCase sectionHeaders lines i boundaries
  = boundaries ++ boundariesFrom toLowerCase lines i.
Proof.
  revert i boundaries; induction lines as [|line rest IH]; intros i bs; simpl.
  - rewrite app_nil_r. reflexivity.
  - rewrite IH, visitLine_headerType, <- app_assoc. reflexivity.
Qed.

Lemma boundariesFrom_In (lines : list jsstring) (start : nat) (t : jsstring)
      (i : nat) :
  In {| type := t; index := i |} (boundariesFrom toLowerCase lines start)
  <-> (start <= i)%nat
      /\ exists line, lines !! (i - start)%nat = Some line
                      /\ headerType (toLowerCase (trim line)) = Some t.
Proof.
  revert start; induction lines as [|line rest IH]; intros start; simpl.
  - split; [intros [] | intros (_ & l & Hl & _); discriminate].
  - rewrite in_app_iff, IH. split.
    + intros [Hhere | (Hle & l & Hl & Ht)].
      * destruct (headerType (toLowerCase (trim line))) as [t'|] eqn:E;
          [|destruct Hhere].
        destruct Hhere as [[= <- <-] | []].
        split; [lia|]. exists line. rewrite Nat.sub_diag. auto.
      * split; [lia|]. exists l. split; [|exact Ht].
        replace (i - start)%nat with (S (i - S start)) by lia. exact Hl.
    + intros (Hle & l & Hl & Ht).
      destruct (decide (i = start)) as [-> | Hne].
      * left. rewrite Nat.sub_diag in Hl. injection Hl as ->.
        rewrite Ht. left; reflexivity.
      * right. split; [lia|]. exists l. split; [|exact Ht].
        replace (i - start)%nat with (S (i - S start)) in Hl by lia. exact Hl.
Qed.

Lemma boundariesFrom_lower (lines : list jsstring) (start : nat) :
  Forall (fun b => (start <= index b)%nat) (boundariesFrom toLowerCase lines start).
Proof.
  revert start; induction lines as [|line rest IH]; intros start; simpl;
    [constructor|].
  apply Forall_app; split.
  - destruct (headerType _); constructor; [simpl; lia | constructor].
  - eapply Forall_impl; [apply IH|]. simpl; intros; lia.
Qed.

Lemma boundariesFrom_sorted (lines : list jsstring) (start : nat) :
  StronglySorted indexLe (boundariesFrom toLowerCase lines start).
Proof.
  revert start; induction lines as [|line rest IH]; intros start; simpl;
    [constructor|].
  destruct (headerType _); simpl; [|apply IH].
  constructor; [apply IH|].
  apply List.Forall_forall. intros b Hb.
  pose proof (boundariesFrom_lower rest (S start)) as Hlow.
  rewrite List.Forall_forall in Hlow. specialize (Hlow b Hb).
  unfold indexLe; simpl. lia.
Qed.

(** ** Sorting boundaries that are already in line order *)

Lemma insertByIndex_last (b : Boundary) (sorted : list Boundary) :
  Forall (fun a => indexLe a b) sorted -> insertByIndex b sorted = sorted ++ [b].
Proof.
  induction 1 as [|a sorted Ha _ IH]; simpl; [reflexivity|].
  unfold indexLe in Ha. destruct (Nat.leb_spec (index a) (index b)); [|lia].
  rewrite IH. reflexivity.
Qed.

Lemma sort_sorted_from (boundaries sorted : list Boundary) :
  StronglySorted indexLe (sorted ++ boundaries) ->
  fold_left (fun sorted b => insertByIndex b sorted) boundaries sorted
  = sorted ++ boundaries.
Proof.
  revert sorted; induction boundaries as [|b rest IH]; intros sorted Hs; simpl.
  - rewrite app_nil_r. reflexivity.
  - rewrite insertByIndex_last.
    + rewrite IH; rewrite <- app_assoc; [reflexivity | exact Hs].
    + clear IH. induction sorted as [|a sorted IHs]; [constructor|].
      simpl in Hs. inversion Hs as [|? ? Hrest Hall]; subst.
      constructor; [|apply IHs, Hrest].
      rewrite List.Forall_forall in Hall. apply Hall.
      apply in_or_app; right; left; reflexivity.
Qed.

Lemma findSectionBoundaries_boundariesFrom (lines : list jsstring) :
  findSectionBoundaries toLowerCase lines sectionHeaders
  = boundariesFrom toLowerCase lines 0.
Proof.
  unfold findSectionBoundaries, sortByIndex.
  rewrite forEachLine_boundariesFrom. simpl.
  apply (sort_sorted_from _ []), boundariesFrom_sorted.
Qed.

Lemma boundary_iff_header_line (lines : list jsstring) (i : nat) :
  (exists t, In {| type := t; index := i |}
                (findSectionBoundaries toLowerCase lines sectionHeaders))
  <-> exists line, lines !! i = Some line /\ isHeaderLine toLowerCase line.
Proof.
  rewrite findSectionBoundaries_boundariesFrom. split.
  - intros [t Ht]. apply boundariesFrom_In in Ht.
    destruct Ht as (_ & line & Hl & Hty). rewrite Nat.sub_0_r in Hl.
    exists line. split; [exact Hl|]. apply headerType_isHeaderLine; eauto.
  - intros (line & Hl & Hh). apply headerType_isHeaderLine in Hh.
    destruct Hh as [t Ht]. exists t. apply boundariesFrom_In.
    split; [lia|]. exists line. rewrite Nat.sub_0_r. auto.
Qed.

(** ** Filling the sections object *)

Lemma fillSections_untouched (lines : list jsstring)
      (boundaries : list Boundary) (sections : gmap jsstring jsstring)
      (key : jsstring) :
  Forall (fun b => type b <> key) boundaries ->
  fillSections lines boundaries sections !! key = sections !! key.
Proof.
  revert sections; induction boundaries as [|b rest IH]; intros sections Hall;
    [reflexivity|].
  inversion Hall as [|? ? Hb Hrest]; subst. simpl.
  rewrite (IH _ Hrest). apply lookup_insert_ne. exact Hb.
Qed.

Lemma fillSections_last_wins (lines : list jsstring)
      (earlier : list Boundary) (b : Boundary) (later : list Boundary)
      (sections : gmap jsstring jsstring) :
  Forall (fun b' => type b' <> type b) later ->
  fillSections lines (earlier ++ b :: later) sections !! type b
  = Some (join [LF] (slice lines (S (index b)) (sectionEnd later lines))).
Proof.
  intros Hlater. revert sections.
  induction earlier as [|a earlier IH]; intros sections.
  - simpl. rewrite (fillSections_untouched _ _ _ _ Hlater).
    rewrite lookup_insert_eq. destruct later; reflexivity.
  - simpl. apply IH.
Qed.

Lemma fillSections_keeps (lines : list jsstring) (boundaries : list Boundary)
      (sections : gmap jsstring jsstring) (key : jsstring) :
  is_Some (sections !! key) ->
  is_Some (fillSections lines boundaries sections !! key).
Proof.
  revert sections; induction boundaries as [|b rest IH]; intros sections Hs;
    [exact Hs|].
  simpl. apply IH. destruct (decide (type b = key)) as [-> | Hne].
  - rewrite lookup_insert_eq. eauto.
  - rewrite lookup_insert_ne by exact Hne. exact Hs.
Qed.

End Host.
End SectionFacts.

Module ParseFacts.
Import JS JSFacts Reference ResumeParser SplitFacts SectionFacts.

Section Host.
Variable toLowerCase : jsstring -> jsstring.
Variable re : RegExpEngine.

Lemma first_of_split (d : char16) (s : jsstring) :
  exists firstLine, first (splitChar d s) = Normal firstLine.
Proof.
  pose proof (splitChar_nonempty d s) as Hne.
  destruct (splitChar d s) as [|l ls]; [contradiction | exists l; reflexivity].
Qed.

Lemma visitJobBlock_returns (experiences : list ExperienceEntry.t)
      (block : jsstring) :
  exists experiences',
    visitJobBlock re experiences block = Normal experiences'.
Proof.
  unfold visitJobBlock.
  destruct (negb (truthy (trim block))); [eauto|].
  destruct (first_of_split LF (trim block)) as [firstLine ->].
  cbn [mbind completion_bind].
  destruct (matchGroups re titleCompanyPattern firstLine) as [[g1 g2]|];
    destruct (splitChar LF (trim block)) as [|l0 [|l1 ls]];
    try destruct (matchGroups re experience_datePattern l1) as [[d1 d2]|];
    eauto.
Qed.

Lemma visitEducationBlock_returns (education : list EducationEntry.t)
      (block : jsstring) :
  exists education',
    visitEducationBlock toLowerCase re education block = Normal education'.
Proof.
  unfold visitEducationBlock.
  destruct (negb (truthy (trim block))); [eauto|].
  destruct (first_of_split LF (trim block)) as [firstLine ->].
  cbn [mbind completion_bind].
  destruct (matchGroups re degreeSchoolPattern firstLine) as [[g1 g2]|];
    [|destruct (existsb _ potentialDegrees)];
    (destruct (match0 re education_datePattern _) as [dateRange|];
     [destruct (matchAll re yearPattern dateRange) as [years|];
      [destruct (1 <=? length years)%nat|]|]);
    eauto.
Qed.

Lemma forEachBlock_returns {A}
      (visit : list A -> jsstring -> completion (list A))
      (blocks : list jsstring) (acc : list A) :
  (forall acc block, exists acc', visit acc block = Normal acc') ->
  exists result, forEachBlock visit blocks acc = Normal result.
Proof.
  intros Hvisit. revert acc; induction blocks as [|block rest IH]; intros acc;
    simpl; [eauto|].
  destruct (Hvisit acc block) as [acc' ->]. apply IH.
Qed.

Lemma parseExperience_returns (text : option jsstring) :
  exists experience, parseExperience re text = Normal experience.
Proof.
  destruct text as [text|]; simpl; [|eauto].
  destruct (negb (truthy text)); [eauto|].
  apply forEachBlock_returns, visitJobBlock_returns.
Qed.

Lemma parseEducation_returns (text : option jsstring) :
  exists education, parseEducation toLowerCase re text = Normal education.
Proof.
  destruct text as [text|]; simpl; [|eauto].
  destruct (negb (truthy text)); [eauto|].
  apply forEachBlock_returns, visitEducationBlock_returns.
Qed.

Lemma extractSections_returns (text : jsstring) :
  exists sections,
    extractSections toLowerCase (JString text) = Normal sections
    /\ is_Some (sections !! str "header").
Proof.
  unfold extractSections. eexists. split; [reflexivity|].
  apply fillSections_keeps. rewrite lookup_insert_eq. eauto.
Qed.

Lemma parse_string_returns (text : jsstring) :
  exists record,
    parse toLowerCase re (JString text) = Normal record
    /\ rawText record = JString text.
Proof.
  unfold parse.
  destruct (extractSections_returns text) as (sections & -> & [header Hh]).
  cbn [mbind completion_bind]. rewrite Hh. cbn [parsePersonalInfo].
  cbn [mbind completion_bind].
  destruct (parseExperience_returns (sections !! str "experience")) as [ex ->].
  destruct (parseEducation_returns (sections !! str "education")) as [ed ->].
  cbn [mbind completion_bind tryCatch]. eexists. split; reflexivity.
Qed.

End Host.
End ParseFacts.

(* ===================================================================== *)
(** * Properties of the resume parser *)
(* ===================================================================== *)

Module ParserProperties.
Import JS JSFacts Reference ResumeParser SplitFacts SectionFacts ParseFacts.

(** C6. A line is recorded as a section boundary exactly when, trimmed
    and lower-cased, it equals a known header synonym or that synonym
    followed by a colon; and when several boundary lines resolve to the
    same canonical section, the section's text is the slice that follows
    the last of them: it runs from the line after that boundary to the
    next boundary, or to the end of the document. *)
Theorem C6_exact_headers_last_wins
        (toLowerCase : jsstring -> jsstring) (text : jsstring) :
  (forall (lines : list jsstring) (i : nat),
      (exists t, In {| type := t; index := i |}
                    (findSectionBoundaries toLowerCase lines sectionHeaders))
      <-> exists line, lines !! i = Some line /\ isHeaderLine toLowerCase line)
  /\ (forall earlier b later,
         findSectionBoundaries toLowerCase (splitChar LF (normalize text))
                               sectionHeaders
         = earlier ++ b :: later ->
         Forall (fun b' => type b' <> type b) later ->
         exists sections,
           extractSections toLowerCase (JString text) = Normal sections
           /\ sections !! type b
              = Some (join [LF]
                        (slice (splitChar LF (normalize text)) (S (index b))
                               (sectionEnd later
                                           (splitChar LF (normalize text)))))).
Proof.
  split.
  - apply boundary_iff_header_line.
  - intros earlier b later Hbs Hlater. unfold extractSections.
    eexists. split; [reflexivity|].
    rewrite Hbs. apply fillSections_last_wins, Hlater.
Qed.

Lemma C6_witness :
  exists sections,
    extractSections asciiToLowerCase (JString twoExperienceHeaders)
    = Normal sections
    /\ sections !! str "experience"
       = Some (join [LF] (map str ["job two"; "My experience is long";
                                   "end"]%string)).
Proof.
  pose (first := {| type := str "experience"; index := 1 |}).
  pose (second := {| type := str "education"; index := 3 |}).
  pose (third := {| type := str "experience"; index := 5 |}).
  destruct (proj2 (C6_exact_headers_last_wins asciiToLowerCase
                     twoExperienceHeaders)
                  [first; second] third [])
    as (sections & Hex & Hlook).
  - vm_compute. reflexivity.
  - constructor.
  - exists sections. split; [exact Hex|].
    etransitivity; [exact Hlook|]. vm_compute. reflexivity.
Defined.

(** C7 (as the code has it). [parse] invoked with a value that is not a
    string (undefined, null, a boolean, a number) raises a TypeError in
    [extractSections], which the catch clause of [parse] rethrows to the
    caller; invoked with any string it returns a ResumeRecord whose
    rawText is that string.  [parseExperience], [parseEducation] and
    [parseSkills] return an empty array when their section text is absent
    or empty. *)
Theorem C7_parse_failure_and_empty_sections
        (toLowerCase : jsstring -> jsstring) (re : RegExpEngine) :
  parse toLowerCase re JUndefined = Throw TypeError
  /\ parse toLowerCase re JNull = Throw TypeError
  /\ (forall b, parse toLowerCase re (JBoolean b) = Throw TypeError)
  /\ (forall x, parse toLowerCase re (JNumber x) = Throw TypeError)
  /\ (forall text, exists record,
         parse toLowerCase re (JString text) = Normal record
         /\ rawText record = JString text)
  /\ (parseExperience re None = Normal []
      /\ parseEducation toLowerCase re None = Normal []
      /\ parseSkills None = [])
  /\ (parseExperience re (Some []) = Normal []
      /\ parseEducation toLowerCase re (Some []) = Normal []
      /\ parseSkills (Some []) = []).
Proof.
  repeat split; try reflexivity.
  intros text. apply parse_string_returns.
Qed.

Lemma C7_counterexample :
  parse asciiToLowerCase silentEngine JUndefined = Throw TypeError
  /\ ~ (exists record,
           parse asciiToLowerCase silentEngine JUndefined = Normal record).
Proof.
  split; [reflexivity|]. intros [record H]. discriminate H.
Qed.

(** C8 (as the code has it). [parseSkills] splits its text at runs of
    comma, bullet (U+2022), pipe, middle dot (U+00B7), asterisk, plus and
    line feed and keeps the trimmed non-empty tokens.  Exactly when these
    are fewer than 3 and splitting the text at whitespace runs gives more
    than 10 pieces (pieces before leading and after trailing whitespace
    counted), it returns instead the pieces longer than 2, each trimmed
    and with every comma, full stop, semicolon and colon deleted, wherever
    in the piece it stands.  [parseSkills("Python, Go, Rust")] is
    [["Python", "Go", "Rust"]]. *)
Theorem C8_parseSkills_two_strategies (text : jsstring) :
  let tokens :=
    List.filter (fun skill => (0 <? length skill)%nat)
                (map trim (splitRuns isSkillDelimiter text)) in
  let words := splitRuns isWhiteSpace text in
  let fallback :=
    map (fun word => removeAll isListPunctuation (trim word))
        (List.filter (fun word => (2 <? length word)%nat) words) in
  ((length tokens < 3)%nat /\ (10 < length words)%nat ->
   parseSkills (Some text) = fallback)
  /\ (~ ((length tokens < 3)%nat /\ (10 < length words)%nat) ->
      parseSkills (Some text) = tokens)
  /\ Forall (fun t => t <> [] /\ trim t = t
                      /\ Forall (fun c => isSkillDelimiter c = false) t)
            tokens
  /\ Forall (Forall (fun c => isListPunctuation c = false
                              /\ isWhiteSpace c = false))
            fallback
  /\ parseSkills (Some skillsList) = map str ["Python"; "Go"; "Rust"]%string.
Proof.
  intros tokens words fallback.
  assert (Hempty : text = [] -> tokens = [] /\ length words = 1%nat)
    by (intros ->; split; reflexivity).
  split; [|split; [|split; [|split]]].
  - intros [Ht Hw]. unfold parseSkills.
    destruct text as [|c text]; [destruct (Hempty eq_refl); lia|].
    cbn [truthy negb]. fold tokens. fold words.
    destruct (Nat.ltb_spec (length tokens) 3); [|lia].
    destruct (Nat.ltb_spec 10 (length words)); [reflexivity | lia].
  - intros Hno. unfold parseSkills.
    destruct text as [|c text]; [reflexivity|].
    cbn [truthy negb]. fold tokens. fold words.
    destruct (Nat.ltb_spec (length tokens) 3); [|reflexivity].
    destruct (Nat.ltb_spec 10 (length words)); [|reflexivity].
    exfalso; apply Hno; split; assumption.
  - apply List.Forall_forall. intros t Ht. unfold tokens in Ht.
    apply filter_In in Ht. destruct Ht as [Ht Hlen].
    apply in_map_iff in Ht. destruct Ht as (piece & <- & Hpiece).
    split; [|split].
    + intros E. rewrite E in Hlen. discriminate.
    + apply trim_idempotent.
    + apply trim_Forall.
      pose proof (splitRuns_pieces isSkillDelimiter text) as Hp.
      rewrite List.Forall_forall in Hp. apply Hp, Hpiece.
  - apply List.Forall_forall. intros w Hw. unfold fallback in Hw.
    apply in_map_iff in Hw. destruct Hw as (piece & <- & Hpiece).
    apply filter_In in Hpiece. destruct Hpiece as [Hpiece _].
    pose proof (splitRuns_pieces isWhiteSpace text) as Hp.
    rewrite List.Forall_forall in Hp. specialize (Hp _ Hpiece).
    pose proof (removeAll_clean isListPunctuation (trim piece)) as Hclean.
    pose proof (removeAll_Forall _ isListPunctuation _
                  (trim_Forall _ _ Hp)) as Hws.
    rewrite List.Forall_forall in Hclean, Hws.
    apply List.Forall_forall. intros c Hc. split; [apply Hclean | apply Hws]; exact Hc.
  - vm_compute. reflexivity.
Qed.

Lemma C8_witness :
  parseSkills (Some skillsProse)
  = map str ["use"; "nodejs"; "and"; "many"; "other"; "tools"; "every";
             "day"; "job"]%string.
Proof.
  rewrite (proj1 (C8_parseSkills_two_strategies skillsProse)).
  - vm_compute. reflexivity.
  - vm_compute. split; lia.
Defined.

Lemma C8_counterexample :
  parseSkills (Some skillsProse) <> spec_parseSkills skillsProse
  /\ parseSkills (Some skillsTenWords) <> spec_parseSkills skillsTenWords.
Proof. split; vm_compute; discriminate. Qed.

End ParserProperties.

(* ===================================================================== *)
(** * Further properties of the field classifier *)
(* ===================================================================== *)

Module ClassifierExtras.
Import JS JSFacts FormDetector Reference Notions.
Import FormDetectorFacts BestMatchFacts ConfidenceFacts.
Local Open Scope Z_scope.

Lemma spec_matchScore_app (m : FieldMetadata) (ps qs : list jsstring) :
  spec_matchScore m (ps ++ qs) = spec_matchScore m ps + spec_matchScore m qs.
Proof.
  unfold spec_matchScore. induction ps as [|p ps IH]; simpl; [lia|].
  rewrite IH. lia.
Qed.

Lemma spec_matchScore_Permutation (m : FieldMetadata) (ps qs : list jsstring) :
  Permutation ps qs -> spec_matchScore m ps = spec_matchScore m qs.
Proof.
  unfold spec_matchScore. induction 1; simpl; lia.
Qed.

(** X1. The match score does not depend on the order in which the
    trigger phrases are listed, and the score against two lists put
    together is the sum of the two scores. *)
Theorem X1_score_order_irrelevant (m : FieldMetadata) (ps qs : list jsstring) :
  (Permutation ps qs -> calculateMatchScore m ps = calculateMatchScore m qs)
  /\ calculateMatchScore m (ps ++ qs)
     = calculateMatchScore m ps + calculateMatchScore m qs.
Proof.
  rewrite !calculateMatchScore_sum. split.
  - apply spec_matchScore_Permutation.
  - apply spec_matchScore_app.
Qed.

Lemma X1_witness :
  calculateMatchScore emailLabelled (map str ["email"; "e-mail"]%string)
  = calculateMatchScore emailLabelled (map str ["e-mail"; "email"]%string).
Proof.
  apply (proj1 (X1_score_order_irrelevant emailLabelled _ _)).
  apply perm_swap.
Defined.

Lemma spec_phraseScore_upper (m : FieldMetadata) (p : jsstring) :
  spec_phraseScore m p <= 19 + Z.of_nat (length (dataAttributes m)).
Proof.
  unfold spec_phraseScore.
  pose proof (filter_length_le
                (fun kv : jsstring * jsstring =>
                   includes kv.1 p || includes kv.2 p) (dataAttributes m)).
  destruct (includes (id m) p), (includes (name m) p),
    (includes (labelText m) p), (labelForField m),
    (includes (placeholder m) p), (includes (ariaLabel m) p),
    (includes (title m) p); lia.
Qed.

(** X2. A match score is never negative and is at most
    (19 + number of data-attributes) points per trigger phrase. *)
Theorem X2_score_bounds (m : FieldMetadata) (phrases : list jsstring) :
  0 <= calculateMatchScore m phrases
       <= (19 + Z.of_nat (length (dataAttributes m)))
          * Z.of_nat (length phrases).
Proof.
  rewrite calculateMatchScore_sum. split; [apply spec_matchScore_nonneg|].
  induction phrases as [|p ps IH]; unfold spec_matchScore in *; simpl length;
    simpl map; simpl foldr; [lia|].
  pose proof (spec_phraseScore_upper m p). lia.
Qed.

(** X3. Whenever some catalog pair scores 3 or more, [categorizeField]
    returns the earliest catalog pair among those of highest score: every
    pair before it scores strictly less, every pair after it scores no
    more. *)
Theorem X3_earliest_highest_wins (m : FieldMetadata)
        (e : jsstring * jsstring * list jsstring) :
  In e catalogEntries -> 3 <= calculateMatchScore m e.2 ->
  exists before pats after,
    catalogEntries
    = before ++ ((categorizeField m).1, (categorizeField m).2, pats) :: after
    /\ Forall (fun e' => calculateMatchScore m e'.2 < calculateMatchScore m pats)
              before
    /\ Forall (fun e' => calculateMatchScore m e'.2 <= calculateMatchScore m pats)
              after.
Proof.
  intros He Hscore. destruct (bestMatch m) as [[c s] h] eqn:Hbm.
  pose proof (bestMatch_dominates m c s h e Hbm He) as Hdom.
  rewrite (categorizeField_confident m c s h Hbm) by lia. cbn [fst snd].
  pose proof (bestMatch_firstMaximal m) as Hinv. rewrite Hbm in Hinv.
  unfold firstMaximal in Hinv. cbn [fst snd] in Hinv.
  destruct Hinv as [[Hinit _] | (_ & before & pats & after & Hcat & <- & Hb & Ha)].
  - injection Hinit as _ _ ->. lia.
  - exists before, pats, after. auto.
Qed.

Lemma X3_witness :
  exists before pats after,
    catalogEntries
    = before ++ (str "personal", str "name", pats) :: after
    /\ Forall (fun e' => calculateMatchScore firstNameLabelled e'.2
                         < calculateMatchScore firstNameLabelled pats) before
    /\ Forall (fun e' => calculateMatchScore firstNameLabelled e'.2
                         <= calculateMatchScore firstNameLabelled pats) after.
Proof.
  pose (e := (str "personal", str "firstName",
              map str ["first name"; "firstname"; "first_name"; "fname";
                       "given name"; "given_name"]%string)).
  assert (He : In e catalogEntries) by (vm_compute; tauto).
  assert (Hs : 3 <= calculateMatchScore firstNameLabelled e.2)
    by (vm_compute; discriminate).
  exact (X3_earliest_highest_wins firstNameLabelled e He Hs).
Defined.

Lemma catalog_entry_isCatalogPair (c s : jsstring) (pats : list jsstring) :
  In (c, s, pats) catalogEntries -> isCatalogPair c s = true.
Proof.
  intros Hin. unfold isCatalogPair. apply existsb_exists.
  exists (c, s, pats). split; [exact Hin|]. cbn [fst snd].
  rewrite !streq_refl. reflexivity.
Qed.

Lemma isCatalogPair_known (c s : jsstring) :
  isCatalogPair c s = true -> In c knownCategories.
Proof.
  unfold isCatalogPair. intros H. apply existsb_exists in H.
  destruct H as (e & He & Hc). apply andb_true_iff in Hc. destruct Hc as [Hc _].
  apply streq_spec in Hc. subst c.
  assert (Hall : forallb (fun e => arrayIncludes knownCategories e.1.1)
                         catalogEntries = true) by (vm_compute; reflexivity).
  rewrite forallb_forall in Hall. specialize (Hall e He).
  unfold arrayIncludes in Hall. apply existsb_exists in Hall.
  destruct Hall as (k & Hk & Heq). apply streq_spec in Heq. subst k. exact Hk.
Qed.

Lemma fieldTypeHeuristics_catalog (m : FieldMetadata) (c s : jsstring) :
  fieldTypeHeuristics m c s = (c, s)
  \/ isCatalogPair (fieldTypeHeuristics m c s).1 (fieldTypeHeuristics m c s).2
     = true.
Proof.
  unfold fieldTypeHeuristics.
  repeat match goal with
         | |- context [if ?b then _ else _] => destruct b
         end; auto; right; vm_compute; reflexivity.
Qed.

Lemma categorizeField_catalog (m : FieldMetadata) :
  categorizeField m = (unknown, unknown)
  \/ isCatalogPair (categorizeField m).1 (categorizeField m).2 = true.
Proof.
  destruct (bestMatch m) as [[c s] h] eqn:Hbm.
  destruct (bestMatch_cases m c s h Hbm)
    as [(-> & -> & ->) | (Hpos & Hk & pats & Hin & Hsc)].
  - rewrite (categorizeField_inconclusive m _ _ _ Hbm) by (left; lia).
    destruct (fieldTypeHeuristics_catalog m unknown unknown) as [-> | H]; auto.
  - destruct (Z.lt_ge_cases h 3) as [Hlt | Hge].
    + rewrite (categorizeField_inconclusive m _ _ _ Hbm) by (left; lia).
      destruct (fieldTypeHeuristics_catalog m c s) as [-> | H]; auto.
      right. cbn [fst snd]. eapply catalog_entry_isCatalogPair, Hin.
    + rewrite (categorizeField_confident m _ _ _ Hbm Hge).
      right. cbn [fst snd]. eapply catalog_entry_isCatalogPair, Hin.
Qed.

(** X4. [categorizeField] returns unknown/unknown or a category and
    subcategory that are keys of the pattern catalog; in either case the
    category is one of personal, education, experience, skills, other,
    unknown. *)
Theorem X4_result_is_catalog_pair (m : FieldMetadata) :
  (categorizeField m = (unknown, unknown)
   \/ isCatalogPair (categorizeField m).1 (categorizeField m).2 = true)
  /\ In (categorizeField m).1 knownCategories.
Proof.
  pose proof (categorizeField_catalog m) as H. split; [exact H|].
  destruct H as [-> | H].
  - vm_compute. tauto.
  - eapply isCatalogPair_known, H.
Qed.


(** Decides one condition of the fallback chain; a condition that holds
    is turned into an equation and rewritten everywhere. *)
Ltac split_signal m :=
  let E := fresh "E" in
  match goal with
  | |- context [streq (type m) ?lit] =>
      destruct (streq (type m) lit) eqn:E;
      [apply streq_spec in E |]
  | |- context [streq (autocomplete m) ?lit] =>
      destruct (streq (autocomplete m) lit) eqn:E;
      [apply streq_spec in E |]
  end.

Lemma streq_sym (a b : jsstring) : streq a b = streq b a.
Proof.
  destruct (streq b a) eqn:E.
  - apply streq_spec in E. subst. apply streq_refl.
  - apply streq_neq. intros ->. rewrite streq_refl in E. discriminate.
Qed.

Lemma structural_signal_confidence (m : FieldMetadata) (c s : jsstring) :
  hasStructuralSignal m = true ->
  (fieldTypeHeuristics m c s).1 = str "personal"
  /\ (0.8 <=? calculateConfidence m (fieldTypeHeuristics m c s).1
                                 (fieldTypeHeuristics m c s).2)%float = true.
Proof.
  unfold hasStructuralSignal, arrayIncludes, fieldTypeHeuristics.
  cbn [existsb map]. rewrite !(streq_sym _ (autocomplete m)). intros Hsig.
  repeat (split_signal m;
          [clear Hsig; cbn [fst snd]; split; [reflexivity|];
           unfold calculateConfidence;
           match goal with
           | H : type m = _ |- _ => rewrite ?H
           | H : autocomplete m = _ |- _ => rewrite ?H
           end;
           simpl; by_boost_cases |]).
  repeat match goal with
         | E : streq _ _ = false |- _ => rewrite E in Hsig; clear E
         end.
  discriminate Hsig.
Qed.

(** X5. When the pattern stage is inconclusive (best score below 3) and
    a structural rule applies (type email or tel, or one of the five
    address autocomplete tokens), classification returns a personal
    subcategory chosen by that rule, and its confidence is at least 0.8:
    the signal that triggered the rule is counted again as a boost. *)
Theorem X5_structural_fallback_is_confident
        (m : FieldMetadata) (c s : jsstring) (h : Z) :
  bestMatch m = (c, s, h) -> h < 3 -> hasStructuralSignal m = true ->
  categorizeField m = fieldTypeHeuristics m c s
  /\ category (classify m) = str "personal"
  /\ (0.8 <=? confidence (classify m))%float = true.
Proof.
  intros Hbm Hlt Hsig.
  pose proof (categorizeField_inconclusive m c s h Hbm (or_introl Hlt)) as Hcat.
  split; [exact Hcat|]. unfold classify. rewrite Hcat.
  destruct (structural_signal_confidence m c s Hsig) as [Hp Hconf].
  destruct (fieldTypeHeuristics m c s) as [c' s']. cbn [fst snd] in *.
  cbn [category confidence]. auto.
Qed.

Lemma X5_witness :
  category (classify emailTypeOnly) = str "personal"
  /\ (0.8 <=? confidence (classify emailTypeOnly))%float = true.
Proof.
  assert (Hbm : bestMatch emailTypeOnly = (unknown, unknown, 0))
    by (vm_compute; reflexivity).
  apply (X5_structural_fallback_is_confident emailTypeOnly _ _ _ Hbm);
    [lia | reflexivity].
Defined.

Lemma bound_label_phraseScore (m : FieldMetadata) (p : jsstring) :
  spec_phraseScore (withLabelBinding m false) p
  <= spec_phraseScore (withLabelBinding m true) p
  <= spec_phraseScore (withLabelBinding m false) p + 2.
Proof.
  unfold spec_phraseScore, withLabelBinding.
  cbn [id name labelText labelForField placeholder ariaLabel title
       dataAttributes].
  destruct (includes (labelText m) p); lia.
Qed.

(** X6. Binding the label of a control by for/id, everything else being
    equal, never lowers a match score (it adds at most 2 per trigger
    phrase) and never lowers the confidence. *)
Theorem X6_label_binding_never_hurts (m : FieldMetadata)
        (phrases : list jsstring) (c s : jsstring) :
  calculateMatchScore (withLabelBinding m false) phrases
  <= calculateMatchScore (withLabelBinding m true) phrases
  <= calculateMatchScore (withLabelBinding m false) phrases
     + 2 * Z.of_nat (length phrases)
  /\ (calculateConfidence (withLabelBinding m false) c s
      <=? calculateConfidence (withLabelBinding m true) c s)%float = true.
Proof.
  split.
  - rewrite !calculateMatchScore_sum. unfold spec_matchScore.
    induction phrases as [|p ps IH]; simpl map; simpl foldr; simpl length;
      [lia|].
    pose proof (bound_label_phraseScore m p). lia.
  - unfold calculateConfidence, withLabelBinding.
    cbn [id name type autocomplete labelText labelForField required options].
    by_boost_cases.
Qed.

Lemma isRelevantField_true (field : FormControls.Control) :
  FormControls.isRelevantField field = true ->
  ~ In (FormControls.type field)
       (map str ["hidden"; "submit"; "button"; "file"; "password"]%string)
  /\ FormControls.disabled field = false
  /\ FormControls.readOnly field = false
  /\ FormControls.autocomplete field <> str "new-password"
  /\ FormControls.optionalIncludes (FormControls.name field) (str "captcha") = false
  /\ FormControls.optionalIncludes (FormControls.id field) (str "captcha") = false
  /\ FormControls.optionalIncludes (FormControls.name field) (str "security") = false
  /\ FormControls.optionalIncludes (FormControls.id field) (str "security") = false.
Proof.
  unfold FormControls.isRelevantField.
  destruct (_ || _) eqn:E1 at 1; [discriminate|].
  destruct (_ || _) eqn:E2 at 1; [discriminate|]. intros _.
  repeat (apply orb_false_iff in E1; destruct E1 as [E1 ?]).
  repeat (apply orb_false_iff in E2; destruct E2 as [E2 ?]).
  repeat split; auto.
  - cbn [map In]. intros Hin.
    repeat (destruct Hin as [Heq | Hin];
            [rewrite <- Heq, streq_refl in *; discriminate|]).
    exact Hin.
  - intros Heq. rewrite Heq, streq_refl in *. discriminate.
Qed.

(** X7. [detectFields] keeps exactly the controls [isRelevantField]
    accepts, in document order, and no detected field refers to a control
    of type hidden, submit, button, file or password, to a disabled or
    read-only control, to one with autocomplete new-password, or to one
    whose id or name contains "captcha" or "security"; the category,
    subcategory and confidence it stores are those the classifier computes
    from the metadata it stores. *)
Theorem X7_detectFields_skips_unsafe_controls
        (getFieldMetadata : FormControls.Control -> FieldMetadata)
        (inputElements : list FormControls.Control) :
  map FormControls.element
      (FormControls.detectFields getFieldMetadata inputElements)
  = List.filter FormControls.isRelevantField inputElements
  /\ Forall
       (fun f =>
          let field := FormControls.element f in
          In field inputElements
          /\ ~ In (FormControls.type field)
                  (map str ["hidden"; "submit"; "button"; "file";
                            "password"]%string)
          /\ FormControls.disabled field = false
          /\ FormControls.readOnly field = false
          /\ FormControls.autocomplete field <> str "new-password"
          /\ (forall s, FormControls.name field = Some s
                        \/ FormControls.id field = Some s ->
                        includes s (str "captcha") = false
                        /\ includes s (str "security") = false)
          /\ FormControls.metadata f = getFieldMetadata field
          /\ {| category := FormControls.category f;
                subcategory := FormControls.subcategory f;
                confidence := FormControls.confidence f |}
             = classify (FormControls.metadata f))
       (FormControls.detectFields getFieldMetadata inputElements).
Proof.
  unfold FormControls.detectFields. split.
  - rewrite map_map.
    assert (Hel : forall field,
               FormControls.element
                 (FormControls.analyzeField getFieldMetadata field) = field).
    { intros field. unfold FormControls.analyzeField.
      destruct (categorizeField _); reflexivity. }
    induction (List.filter FormControls.isRelevantField inputElements)
      as [|x l IH]; simpl; [reflexivity|]. rewrite Hel, IH. reflexivity.
  - apply List.Forall_forall. intros f Hf.
    apply in_map_iff in Hf. destruct Hf as (field & <- & Hfield).
    apply filter_In in Hfield. destruct Hfield as [Hin Hrel].
    destruct (isRelevantField_true field Hrel)
      as (Hty & Hdis & Hro & Hauto & Hnc & Hic & Hns & His).
    unfold FormControls.analyzeField, classify.
    destruct (categorizeField (getFieldMetadata field)) as [c s] eqn:Hcat.
    cbn [FormControls.element FormControls.metadata FormControls.category
         FormControls.subcategory FormControls.confidence].
    rewrite Hcat.
    split; [exact Hin|]. split; [exact Hty|]. split; [exact Hdis|].
    split; [exact Hro|]. split; [exact Hauto|]. split; [|split; reflexivity].
    intros s0 [Hs | Hs]; rewrite Hs in *; split; assumption.
Qed.

End ClassifierExtras.

(* ===================================================================== *)
(** * Properties of the site adapters *)
(* ===================================================================== *)

Module AdapterExtras.
Import JS JSFacts Reference Notions.
Import FormDetectorFacts BestMatchFacts ConfidenceFacts ClassifierExtras.

(** ** Greenhouse: finding the wrapper *)

Lemma findFieldWrapper_found (ancestors : list GreenhouseFields.Element)
      (w : GreenhouseFields.Element) :
  GreenhouseFields.findFieldWrapper ancestors = Some w ->
  exists inner outer,
    ancestors = inner ++ w :: outer
    /\ Forall passedOver inner
    /\ GreenhouseFields.tagName w <> str "BODY"
    /\ hasWrapperClass w = true.
Proof.
  induction ancestors as [|parent rest IH]; simpl; [discriminate|].
  destruct (streq (GreenhouseFields.tagName parent) (str "BODY")) eqn:Hbody;
    [discriminate|].
  assert (Hnb : GreenhouseFields.tagName parent <> str "BODY")
    by (intros Heq; rewrite Heq, streq_refl in Hbody; discriminate).
  fold (hasWrapperClass parent).
  destruct (hasWrapperClass parent) eqn:Hcls.
  - intros [= <-]. exists [], rest. repeat split; auto.
  - intros Hrest. destruct (IH Hrest) as (inner & outer & -> & Hin & Hw).
    exists (parent :: inner), outer. split; [reflexivity|].
    split; [constructor; [split; assumption | exact Hin] | exact Hw].
Qed.

Lemma findFieldWrapper_none (ancestors : list GreenhouseFields.Element) :
  GreenhouseFields.findFieldWrapper ancestors = None ->
  exists inner outer,
    ancestors = inner ++ outer
    /\ Forall passedOver inner
    /\ match outer with
       | [] => True
       | top :: _ => GreenhouseFields.tagName top = str "BODY"
       end.
Proof.
  induction ancestors as [|parent rest IH]; simpl.
  - intros _. exists [], []. repeat split; constructor.
  - destruct (streq (GreenhouseFields.tagName parent) (str "BODY")) eqn:Hbody.
    + intros _. apply streq_spec in Hbody.
      exists [], (parent :: rest). repeat split; [constructor | exact Hbody].
    + assert (Hnb : GreenhouseFields.tagName parent <> str "BODY")
        by (intros Heq; rewrite Heq, streq_refl in Hbody; discriminate).
      fold (hasWrapperClass parent).
      destruct (hasWrapperClass parent) eqn:Hcls; [discriminate|].
      intros Hrest. destruct (IH Hrest) as (inner & outer & -> & Hin & Hout).
      exists (parent :: inner), outer. split; [reflexivity|].
      split; [constructor; [split; assumption | exact Hin] | exact Hout].
Qed.

(** X8. [findFieldWrapper] of the Greenhouse adapter returns the nearest
    ancestor that carries the class field, form-field or question, and
    only looks below the body element: every ancestor nearer than the one
    returned is below the body and has none of the classes.  It returns
    null exactly when the walk reaches the body or the root first. *)
Theorem X8_wrapper_is_nearest_below_body
        (ancestors : list GreenhouseFields.Element) :
  match GreenhouseFields.findFieldWrapper ancestors with
  | Some w =>
      exists inner outer,
        ancestors = inner ++ w :: outer
        /\ Forall passedOver inner
        /\ GreenhouseFields.tagName w <> str "BODY"
        /\ hasWrapperClass w = true
  | None =>
      exists inner outer,
        ancestors = inner ++ outer
        /\ Forall passedOver inner
        /\ match outer with
           | [] => True
           | top :: _ => GreenhouseFields.tagName top = str "BODY"
           end
  end.
Proof.
  destruct (GreenhouseFields.findFieldWrapper ancestors) as [w|] eqn:E.
  - apply findFieldWrapper_found, E.
  - apply findFieldWrapper_none, E.
Qed.

(** ** Greenhouse: confidence *)

Lemma greenhouse_never_lowers (gm : GreenhouseAdapter.GreenhouseMetadata)
      (c s : jsstring) :
  (FormDetector.calculateConfidence (GreenhouseAdapter.base gm) c s
   <=? GreenhouseAdapter.calculateGreenhouseConfidence gm c s)%float = true.
Proof.
  unfold GreenhouseAdapter.calculateGreenhouseConfidence,
    FormDetector.calculateConfidence.
  by_boost_cases.
Qed.

Lemma greenhouse_unknown (gm : GreenhouseAdapter.GreenhouseMetadata)
      (s : jsstring) :
  GreenhouseAdapter.calculateGreenhouseConfidence gm FormDetector.unknown s
  = if truthy (GreenhouseAdapter.greenhouseFieldId gm)
       || truthy (GreenhouseAdapter.greenhouseFieldType gm)
    then 0.15%float else 0%float.
Proof.
  unfold GreenhouseAdapter.calculateGreenhouseConfidence.
  rewrite calculateConfidence_unknown.
  change (streq FormDetector.unknown (str "personal")) with false.
  change (streq FormDetector.unknown (str "other")) with false.
  cbn [andb orb].
  destruct (truthy _ || truthy _); reflexivity.
Qed.

Lemma greenhouse_wrapped_floor (gm : GreenhouseAdapter.GreenhouseMetadata)
      (c s : jsstring) :
  truthy (GreenhouseAdapter.greenhouseFieldType gm) = true ->
  (0.15 <=? GreenhouseAdapter.calculateGreenhouseConfidence gm c s)%float
  = true.
Proof.
  intros Hty.
  unfold GreenhouseAdapter.calculateGreenhouseConfidence,
    FormDetector.calculateConfidence.
  rewrite Hty, orb_true_r. by_boost_cases.
Qed.

(** X9. The Greenhouse overlay never reports less confidence than the
    generic computation it starts from.  For the category unknown it
    reports 0.15, not 0, as soon as the wrapper has an id or a class
    attribute, and 0 otherwise. *)
Theorem X9_greenhouse_confidence_overlay
        (gm : GreenhouseAdapter.GreenhouseMetadata) (c s : jsstring) :
  (FormDetector.calculateConfidence (GreenhouseAdapter.base gm) c s
   <=? GreenhouseAdapter.calculateGreenhouseConfidence gm c s)%float = true
  /\ GreenhouseAdapter.calculateGreenhouseConfidence gm FormDetector.unknown s
     = if truthy (GreenhouseAdapter.greenhouseFieldId gm)
          || truthy (GreenhouseAdapter.greenhouseFieldType gm)
       then 0.15%float else 0%float.
Proof. split; [apply greenhouse_never_lowers | apply greenhouse_unknown]. Qed.

(** ** Greenhouse: enhancing a field *)

Lemma classListContains_className (e : GreenhouseFields.Element)
      (token : jsstring) :
  GreenhouseFields.classListContains e token = true ->
  truthy (GreenhouseFields.className e) = true.
Proof.
  unfold GreenhouseFields.classListContains, GreenhouseFields.classList.
  destruct (GreenhouseFields.className e); [discriminate | reflexivity].
Qed.

Lemma hasWrapperClass_className (e : GreenhouseFields.Element) :
  hasWrapperClass e = true -> truthy (GreenhouseFields.className e) = true.
Proof.
  unfold hasWrapperClass. intros H.
  apply orb_true_iff in H. destruct H as [H | H];
    [apply orb_true_iff in H; destruct H as [H | H]|];
    eapply classListContains_className, H.
Qed.

(** X10. [enhanceGreenhouseField] returns the field object as it was
    when the control has no wrapper.  Otherwise the new metadata keeps the
    detector's properties, carries the wrapper's id and class attribute
    and keeps a required control required, the category and subcategory
    are those of [categorizeGreenhouseField], and the confidence lies
    between 0.15 and 1, also when the category is unknown. *)
Theorem X10_enhanceGreenhouseField (field : GreenhouseFields.Field) :
  match GreenhouseFields.findFieldWrapper (GreenhouseFields.ancestors field) with
  | None => GreenhouseFields.enhanceGreenhouseField field = field
  | Some w =>
      let r := GreenhouseFields.enhanceGreenhouseField field in
      exists gm,
        GreenhouseFields.metadata r = GreenhouseFields.Enhanced gm
        /\ GreenhouseAdapter.base gm
           = GreenhouseFields.detectorMetadata (GreenhouseFields.metadata field)
        /\ GreenhouseAdapter.greenhouseFieldId gm = GreenhouseFields.id w
        /\ GreenhouseAdapter.greenhouseFieldType gm
           = GreenhouseFields.className w
        /\ (FormDetector.required
              (GreenhouseFields.detectorMetadata
                 (GreenhouseFields.metadata field)) = true ->
            GreenhouseAdapter.isRequired gm = true)
        /\ (GreenhouseFields.category r, GreenhouseFields.subcategory r)
           = GreenhouseFields.categorizeGreenhouseField gm
        /\ (0.15 <=? GreenhouseFields.confidence r)%float = true
        /\ (GreenhouseFields.confidence r <=? 1)%float = true
  end.
Proof.
  unfold GreenhouseFields.enhanceGreenhouseField.
  destruct (GreenhouseFields.findFieldWrapper (GreenhouseFields.ancestors field))
    as [w|] eqn:Hw; [|reflexivity].
  destruct (findFieldWrapper_found _ _ Hw) as (_ & _ & _ & _ & _ & Hcls).
  apply hasWrapperClass_className in Hcls.
  set (gm := {| GreenhouseAdapter.base := _;
                GreenhouseAdapter.greenhouseFieldId := GreenhouseFields.id w;
                GreenhouseAdapter.greenhouseFieldType :=
                  GreenhouseFields.className w;
                GreenhouseAdapter.isRequired := _ |}).
  cbv zeta. exists gm.
  destruct (GreenhouseFields.categorizeGreenhouseField gm) as [c s] eqn:Hcat.
  cbn [GreenhouseFields.metadata GreenhouseFields.category
       GreenhouseFields.subcategory GreenhouseFields.confidence].
  split; [reflexivity|]. split; [reflexivity|]. split; [reflexivity|].
  split; [reflexivity|]. split.
  { intros Hreq. subst gm. cbn [GreenhouseAdapter.isRequired].
    rewrite Hreq. apply orb_true_r. }
  split; [reflexivity|]. split.
  - apply greenhouse_wrapped_floor. exact Hcls.
  - apply calculateGreenhouseConfidence_unit.
Qed.

(** ** What the adapters' categorizers can return *)

(** Splits on the conditions of a rule chain, outermost first. *)
Ltac by_rule_cases :=
  repeat match goal with
         | |- _ (if ?b then _ else _) => destruct b
         end.

Lemma categorizeField_catalogOrUnknown (m : FormDetector.FieldMetadata) :
  catalogOrUnknown (FormDetector.categorizeField m).
Proof. apply categorizeField_catalog. Qed.

Lemma catalogOrUnknown_known (r : jsstring * jsstring) :
  catalogOrUnknown r -> In r.1 knownCategories.
Proof.
  intros [-> | H]; [vm_compute; tauto | eapply isCatalogPair_known, H].
Qed.

Lemma greenhouse_catalogOrUnknown (gm : GreenhouseAdapter.GreenhouseMetadata) :
  catalogOrUnknown (GreenhouseFields.categorizeGreenhouseField gm).
Proof.
  unfold GreenhouseFields.categorizeGreenhouseField. cbv zeta.
  by_rule_cases;
    first [apply categorizeField_catalogOrUnknown
          | right; vm_compute; reflexivity].
Qed.

(** X11. [categorizeGreenhouseField] returns unknown/unknown or a
    category and subcategory that are keys of the pattern catalog, so its
    category is always one of the six known ones. *)
Theorem X11_greenhouse_result_is_catalog_pair
        (gm : GreenhouseAdapter.GreenhouseMetadata) :
  (GreenhouseFields.categorizeGreenhouseField gm
   = (FormDetector.unknown, FormDetector.unknown)
   \/ isCatalogPair (GreenhouseFields.categorizeGreenhouseField gm).1
                    (GreenhouseFields.categorizeGreenhouseField gm).2 = true)
  /\ In (GreenhouseFields.categorizeGreenhouseField gm).1 knownCategories.
Proof.
  pose proof (greenhouse_catalogOrUnknown gm) as H.
  split; [exact H | apply catalogOrUnknown_known, H].
Qed.

(** X12. [categorizeLeverField] returns unknown/unknown or a category
    and subcategory that are keys of the pattern catalog, so its category
    is always one of the six known ones. *)
Theorem X12_lever_result_is_catalog_pair (lm : LeverAdapter.LeverMetadata) :
  (LeverAdapter.categorizeLeverField lm
   = (FormDetector.unknown, FormDetector.unknown)
   \/ isCatalogPair (LeverAdapter.categorizeLeverField lm).1
                    (LeverAdapter.categorizeLeverField lm).2 = true)
  /\ In (LeverAdapter.categorizeLeverField lm).1 knownCategories.
Proof.
  assert (H : catalogOrUnknown (LeverAdapter.categorizeLeverField lm)).
  { unfold LeverAdapter.categorizeLeverField. cbv zeta.
    by_rule_cases;
      first [apply categorizeField_catalogOrUnknown
            | right; vm_compute; reflexivity]. }
  split; [exact H | apply catalogOrUnknown_known, H].
Qed.

Lemma automationIdCategory_cases (automationId : jsstring) :
  catalogOrVeteran (WorkdayAdapter.automationIdCategory automationId).
Proof.
  unfold WorkdayAdapter.automationIdCategory. cbv zeta.
  by_rule_cases;
    first [exact I | left; vm_compute; reflexivity | right; reflexivity].
Qed.

(** X13. [categorizeWorkdayField] returns unknown/unknown, a key pair of
    the pattern catalog, or other/veteranStatus, a subcategory the catalog
    does not list; its category is always one of the six known ones. *)
Theorem X13_workday_result (wm : WorkdayAdapter.WorkdayMetadata) :
  (WorkdayAdapter.categorizeWorkdayField wm
   = (FormDetector.unknown, FormDetector.unknown)
   \/ isCatalogPair (WorkdayAdapter.categorizeWorkdayField wm).1
                    (WorkdayAdapter.categorizeWorkdayField wm).2 = true
   \/ WorkdayAdapter.categorizeWorkdayField wm
      = (str "other", str "veteranStatus"))
  /\ isCatalogPair (str "other") (str "veteranStatus") = false
  /\ In (WorkdayAdapter.categorizeWorkdayField wm).1 knownCategories.
Proof.
  assert (Hgen : forall r, catalogOrUnknown r ->
                           r = (FormDetector.unknown, FormDetector.unknown)
                           \/ isCatalogPair r.1 r.2 = true
                           \/ r = (str "other", str "veteranStatus"))
    by (intros r [Hr | Hr]; auto).
  assert (H : WorkdayAdapter.categorizeWorkdayField wm
              = (FormDetector.unknown, FormDetector.unknown)
              \/ isCatalogPair (WorkdayAdapter.categorizeWorkdayField wm).1
                               (WorkdayAdapter.categorizeWorkdayField wm).2
                 = true
              \/ WorkdayAdapter.categorizeWorkdayField wm
                 = (str "other", str "veteranStatus")).
  { unfold WorkdayAdapter.categorizeWorkdayField. cbv zeta.
    destruct (WorkdayAdapter.workdayAutomationId wm) as [aid|];
      [|apply Hgen, categorizeField_catalogOrUnknown].
    destruct (truthy aid); [|apply Hgen, categorizeField_catalogOrUnknown].
    pose proof (automationIdCategory_cases aid) as Hc.
    destruct (WorkdayAdapter.automationIdCategory aid) as [r|];
      [|apply Hgen, categorizeField_catalogOrUnknown].
    destruct Hc as [Hc | Hc]; auto. }
  split; [exact H|]. split; [vm_compute; reflexivity|].
  destruct H as [-> | [H | ->]].
  - vm_compute. tauto.
  - eapply isCatalogPair_known, H.
  - vm_compute. tauto.
Qed.

(** ** Lever and Workday: confidence *)

(** X14. The Lever overlay's confidence lies in [0, 1] and is never
    below the generic confidence it starts from. *)
Theorem X14_lever_confidence (lm : LeverAdapter.LeverMetadata)
        (c s : jsstring) :
  (0 <=? LeverAdapter.calculateLeverConfidence lm c s)%float = true
  /\ (LeverAdapter.calculateLeverConfidence lm c s <=? 1)%float = true
  /\ (FormDetector.calculateConfidence (LeverAdapter.base lm) c s
      <=? LeverAdapter.calculateLeverConfidence lm c s)%float = true.
Proof.
  unfold LeverAdapter.calculateLeverConfidence,
    FormDetector.calculateConfidence.
  by_boost_cases.
Qed.

(** X15. The Workday overlay's confidence lies in [0, 1] and is never
    below the generic confidence it starts from; for the category unknown
    it is 0.2 when the control has an automation id, and 0 otherwise. *)
Theorem X15_workday_confidence (wm : WorkdayAdapter.WorkdayMetadata)
        (c s : jsstring) :
  (0 <=? WorkdayAdapter.calculateWorkdayConfidence wm c s)%float = true
  /\ (WorkdayAdapter.calculateWorkdayConfidence wm c s <=? 1)%float = true
  /\ (FormDetector.calculateConfidence (WorkdayAdapter.base wm) c s
      <=? WorkdayAdapter.calculateWorkdayConfidence wm c s)%float = true
  /\ WorkdayAdapter.calculateWorkdayConfidence wm FormDetector.unknown s
     = if LeverAdapter.truthyOption (WorkdayAdapter.workdayAutomationId wm)
       then 0.2%float else 0%float.
Proof.
  split; [|split; [|split]].
  1-3: unfold WorkdayAdapter.calculateWorkdayConfidence,
         FormDetector.calculateConfidence; by_boost_cases.
  unfold WorkdayAdapter.calculateWorkdayConfidence.
  rewrite calculateConfidence_unknown.
  destruct (LeverAdapter.truthyOption _); reflexivity.
Qed.


(** ** Workday: dropping duplicate field objects *)

Section Duplicates.
Context {Field : Type} (element : Field -> nat).
Set Warnings "-clear-no-such-hyp".

Lemma removeDuplicateFields_loop (fields uniqueFields : list Field)
      (seenElements : gset nat) :
  (fold_left
     (fun '(uniqueFields, seenElements) field =>
        if bool_decide (element field ∈ (seenElements : gset nat))
        then (uniqueFields, seenElements)
        else (uniqueFields ++ [field], {[element field]} ∪ seenElements))
     fields (uniqueFields, seenElements)).1
  = uniqueFields ++ firstOccurrences element seenElements fields.
Proof.
  revert uniqueFields seenElements.
  induction fields as [|field rest IH]; intros uniqueFields seenElements; simpl.
  - rewrite app_nil_r. reflexivity.
  - destruct (bool_decide (element field ∈ seenElements)).
    + apply IH.
    + rewrite IH, <- app_assoc. reflexivity.
Qed.

Lemma removeDuplicateFields_firstOccurrences (fields : list Field) :
  WorkdayAdapter.removeDuplicateFields element fields
  = firstOccurrences element ∅ fields.
Proof. apply (removeDuplicateFields_loop fields [] ∅). Qed.

Lemma firstOccurrences_sublist (seen : gset nat) (fields : list Field) :
  sublist (firstOccurrences element seen fields) fields.
Proof.
  revert seen; induction fields as [|field rest IH]; intros seen; simpl.
  - constructor.
  - destruct (bool_decide (element field ∈ seen)).
    + apply sublist_cons, IH.
    + apply sublist_skip, IH.
Qed.

Lemma firstOccurrences_unseen (seen : gset nat) (fields : list Field)
      (f : Field) :
  f ∈ firstOccurrences element seen fields -> element f ∉ seen.
Proof.
  revert seen; induction fields as [|field rest IH]; intros seen; simpl.
  - intros H. inversion H.
  - case_bool_decide as Hseen.
    + apply IH.
    + intros H. apply elem_of_cons in H. destruct H as [-> | H];
        [exact Hseen|].
      apply IH in H. set_solver.
Qed.

Lemma firstOccurrences_NoDup (seen : gset nat) (fields : list Field) :
  NoDup (map element (firstOccurrences element seen fields)).
Proof.
  revert seen; induction fields as [|field rest IH]; intros seen; simpl.
  - constructor.
  - case_bool_decide as Hseen; [apply IH|].
    simpl. apply NoDup_cons. split; [|apply IH].
    intros Hin. apply list_elem_of_fmap in Hin. destruct Hin as (f & Heq & Hf).
    apply firstOccurrences_unseen in Hf. set_solver.
Qed.

Lemma firstOccurrences_covers (seen : gset nat) (fields : list Field)
      (f : Field) :
  f ∈ fields -> element f ∉ seen ->
  element f ∈ map element (firstOccurrences element seen fields).
Proof.
  revert seen; induction fields as [|field rest IH]; intros seen Hin Hun.
  - inversion Hin.
  - simpl. apply elem_of_cons in Hin. case_bool_decide as Hseen.
    + destruct Hin as [-> | Hin]; [contradiction | apply IH; assumption].
    + simpl. destruct (decide (element f = element field)) as [-> | Hne].
      * apply elem_of_cons. left. reflexivity.
      * apply elem_of_cons. right. destruct Hin as [-> | Hin]; [congruence|].
        apply IH; [exact Hin | set_solver].
Qed.

Lemma firstOccurrences_fixed (seen : gset nat) (fields : list Field) :
  NoDup (map element fields) ->
  (forall f, f ∈ fields -> element f ∉ seen) ->
  firstOccurrences element seen fields = fields.
Proof.
  revert seen; induction fields as [|field rest IH]; intros seen Hnd Hun;
    [reflexivity|].
  simpl in *. apply NoDup_cons in Hnd. destruct Hnd as [Hhd Hnd].
  case_bool_decide as Hseen.
  - exfalso. apply (Hun field); [left | exact Hseen].
  - f_equal. apply IH; [exact Hnd|].
    intros f Hf. assert (Hf' : element f ∉ seen) by (apply Hun; right; exact Hf).
    assert (element f <> element field).
    { intros Heq. apply Hhd. rewrite <- Heq.
      apply list_elem_of_fmap. exists f. auto. }
    set_solver.
Qed.

End Duplicates.

(** X16. [removeDuplicateFields] keeps the field objects in their
    order, keeps at most one object per DOM node, keeps an object for
    every node that occurs, and keeps the first object of each node; on a
    list without repeated nodes, and on its own result, it changes
    nothing. *)
Theorem X16_removeDuplicateFields {Field : Type} (element : Field -> nat)
        (fields : list Field) :
  let unique := WorkdayAdapter.removeDuplicateFields element fields in
  sublist unique fields
  /\ NoDup (map element unique)
  /\ (forall f, f ∈ fields -> element f ∈ map element unique)
  /\ unique = firstOccurrences element ∅ fields
  /\ (NoDup (map element fields) -> unique = fields)
  /\ WorkdayAdapter.removeDuplicateFields element unique = unique.
Proof.
  cbv zeta. rewrite !removeDuplicateFields_firstOccurrences.
  split; [apply firstOccurrences_sublist|].
  split; [apply firstOccurrences_NoDup|].
  split; [intros f Hf; apply firstOccurrences_covers; [exact Hf | set_solver]|].
  split; [reflexivity|].
  split.
  - intros Hnd. apply firstOccurrences_fixed; [exact Hnd | set_solver].
  - apply firstOccurrences_fixed; [apply firstOccurrences_NoDup | set_solver].
Qed.

Lemma X16_witness :
  WorkdayAdapter.removeDuplicateFields (fun f : nat * nat => f.1)
                                       [(1, 10); (2, 20); (3, 30)]
  = [(1, 10); (2, 20); (3, 30)].
Proof.
  apply (X16_removeDuplicateFields (fun f : nat * nat => f.1)).
  cbn [map fst]. repeat (apply NoDup_cons; split; [set_solver|]).
  apply NoDup_nil. exact I.
Defined.

End AdapterExtras.

(* ===================================================================== *)
(** * Further properties of the resume parser *)
(* ===================================================================== *)

Module NormalizeFacts.
Import JS JSFacts Reference Notions ResumeParser SplitFacts.

Lemma replaceCRLF_fixed (s : jsstring) :
  Forall (fun c => c <> CR) s -> replaceCRLF s = s.
Proof.
  induction 1 as [|c s Hc Hs IH]; [reflexivity|].
  simpl. destruct s as [|d s']; [reflexivity|].
  destruct (N.eqb_spec c CR) as [->|_]; [contradiction|].
  simpl andb. cbv iota. f_equal. exact IH.
Qed.

Lemma replaceCR_clean (s : jsstring) :
  Forall (fun c => c <> CR) (replaceCR s).
Proof.
  unfold replaceCR. induction s as [|c s IH]; simpl; constructor; [|exact IH].
  destruct (N.eqb_spec c CR); [unfold LF, CR; discriminate | assumption].
Qed.

Lemma replaceCR_fixed (s : jsstring) :
  Forall (fun c => c <> CR) s -> replaceCR s = s.
Proof.
  unfold replaceCR. induction 1 as [|c s Hc Hs IH]; [reflexivity|].
  simpl. destruct (N.eqb_spec c CR); [contradiction|]. f_equal. exact IH.
Qed.

Lemma collapseLF_Forall (P : char16 -> Prop) (s : jsstring) :
  Forall P s -> Forall P (collapseLF s).
Proof.
  induction 1 as [|c s Hc Hs IH]; [constructor|].
  simpl. destruct (N.eqb c LF); [|constructor; assumption].
  destruct s as [|d s']; [constructor; [assumption | constructor]|].
  destruct (N.eqb d LF); [exact IH | constructor; assumption].
Qed.

Lemma collapseLF_head (s : jsstring) : head (collapseLF s) = head s.
Proof.
  induction s as [|c s IH]; [reflexivity|].
  simpl. destruct (N.eqb_spec c LF) as [->|_]; [|reflexivity].
  destruct s as [|d s']; [reflexivity|].
  destruct (N.eqb_spec d LF) as [->|_]; [|reflexivity].
  rewrite IH. reflexivity.
Qed.

Lemma adjacentLF_cons (c : char16) (s : jsstring) :
  adjacentLF (c :: s)
  = match head s with
    | Some d => N.eqb c LF && N.eqb d LF || adjacentLF s
    | None => false
    end.
Proof. destruct s; reflexivity. Qed.

Lemma collapseLF_no_adjacent (s : jsstring) : adjacentLF (collapseLF s) = false.
Proof.
  induction s as [|c s IH]; [reflexivity|].
  simpl. destruct (N.eqb_spec c LF) as [->|Hc].
  - destruct s as [|d s']; [reflexivity|].
    destruct (N.eqb_spec d LF) as [->|Hd]; [exact IH|].
    rewrite adjacentLF_cons, collapseLF_head, IH. simpl.
    destruct (N.eqb_spec d LF); [contradiction | reflexivity].
  - rewrite adjacentLF_cons, IH.
    destruct (head (collapseLF s)); [|reflexivity].
    destruct (N.eqb_spec c LF); [contradiction | reflexivity].
Qed.

Lemma collapseLF_fixed (s : jsstring) :
  adjacentLF s = false -> collapseLF s = s.
Proof.
  induction s as [|c s IH]; [reflexivity|].
  rewrite adjacentLF_cons. simpl. intros Hadj.
  destruct s as [|d s'].
  - destruct (N.eqb c LF); reflexivity.
  - simpl in Hadj. apply orb_false_iff in Hadj. destruct Hadj as [Hpair Hrest].
    rewrite (IH Hrest).
    destruct (N.eqb c LF); [|reflexivity].
    simpl in Hpair. rewrite Hpair. reflexivity.
Qed.

Lemma adjacentLF_app (a b : jsstring) :
  adjacentLF (a ++ b) = false -> adjacentLF a = false /\ adjacentLF b = false.
Proof.
  induction a as [|c a IH]; [auto|].
  destruct a as [|d a'].
  - destruct b as [|d b']; [auto|].
    change (adjacentLF ([c] ++ d :: b'))
      with (N.eqb c LF && N.eqb d LF || adjacentLF (d :: b')).
    intros H. apply orb_false_iff in H. destruct H as [_ H]. auto.
  - change (adjacentLF ((c :: d :: a') ++ b))
      with (N.eqb c LF && N.eqb d LF || adjacentLF ((d :: a') ++ b)).
    change (adjacentLF (c :: d :: a'))
      with (N.eqb c LF && N.eqb d LF || adjacentLF (d :: a')).
    intros H. apply orb_false_iff in H. destruct H as [Hp Hr].
    destruct (IH Hr) as [Ha Hb]. rewrite Hp, Ha. auto.
Qed.

Lemma trimStart_suffix (s : jsstring) : exists a, s = a ++ trimStart s.
Proof.
  induction s as [|c s [a IH]]; [exists []; reflexivity|].
  simpl. destruct (isWhiteSpace c).
  - exists (c :: a). simpl. f_equal. exact IH.
  - exists []. reflexivity.
Qed.

Lemma trim_infix (s : jsstring) : exists a b, s = a ++ trim s ++ b.
Proof.
  unfold trim, trimEnd.
  destruct (trimStart_suffix s) as [a Ha].
  destruct (trimStart_suffix (rev (trimStart s))) as [b Hb].
  exists a, (rev b). rewrite Ha at 1. f_equal.
  rewrite <- rev_app_distr, <- Hb, rev_involutive. reflexivity.
Qed.

Lemma trim_no_adjacent (s : jsstring) :
  adjacentLF s = false -> adjacentLF (trim s) = false.
Proof.
  destruct (trim_infix s) as (a & b & Hs). intros H. rewrite Hs in H.
  apply adjacentLF_app in H. destruct H as [_ H].
  apply adjacentLF_app in H. tauto.
Qed.

Lemma trim_last (s : jsstring) : headNotWhiteSpace (rev (trim s)).
Proof.
  unfold trim, trimEnd. rewrite rev_involutive. apply trimStart_head.
Qed.

Lemma normalize_no_CR (text : jsstring) :
  Forall (fun c => c <> CR) (normalize text).
Proof. apply trim_Forall, collapseLF_Forall, replaceCR_clean. Qed.

Lemma normalize_no_adjacent (text : jsstring) :
  adjacentLF (normalize text) = false.
Proof. apply trim_no_adjacent, collapseLF_no_adjacent. Qed.

Lemma normalize_trimmed (text : jsstring) :
  trim (normalize text) = normalize text.
Proof. apply trim_idempotent. Qed.

Lemma normalize_idempotent (text : jsstring) :
  normalize (normalize text) = normalize text.
Proof.
  unfold normalize at 1.
  rewrite (replaceCRLF_fixed _ (normalize_no_CR text)).
  rewrite (replaceCR_fixed _ (normalize_no_CR text)).
  rewrite (collapseLF_fixed _ (normalize_no_adjacent text)).
  apply normalize_trimmed.
Qed.

End NormalizeFacts.

Module SectionMoreFacts.
Import JS JSFacts Reference Notions ResumeParser.
Import SplitFacts SectionFacts ParseFacts NormalizeFacts.

(** ** [split] and [join] *)

Lemma join_cons (sep x : jsstring) (rest : list jsstring) :
  rest <> [] -> join sep (x :: rest) = x ++ sep ++ join sep rest.
Proof. destruct rest; [contradiction | reflexivity]. Qed.

Lemma join_splitCharFrom (d : char16) (s cur : jsstring) :
  join [d] (splitCharFrom d s cur) = rev cur ++ s.
Proof.
  revert cur; induction s as [|c s IH]; intros cur; simpl.
  - rewrite app_nil_r. reflexivity.
  - destruct (N.eqb_spec c d) as [->|_].
    + rewrite join_cons by apply splitCharFrom_nonempty.
      rewrite IH. reflexivity.
    + rewrite IH. simpl. rewrite <- app_assoc. reflexivity.
Qed.

Lemma join_splitChar (d : char16) (s : jsstring) :
  join [d] (splitChar d s) = s.
Proof. apply (join_splitCharFrom d s []). Qed.

Lemma head_splitCharFrom (s cur : jsstring) :
  head (splitCharFrom LF s cur) = Some (rev cur ++ firstLineOf s).
Proof.
  revert cur; induction s as [|c s IH]; intros cur; simpl.
  - rewrite app_nil_r. reflexivity.
  - destruct (N.eqb c LF).
    + rewrite app_nil_r. reflexivity.
    + rewrite IH. simpl. rewrite <- app_assoc. reflexivity.
Qed.

Lemma slice_all {A} (l : list A) : slice l 0 (length l) = l.
Proof. unfold slice. rewrite Nat.sub_0_r. apply firstn_all. Qed.

Lemma slice_prefix {A} (l : list A) (n : nat) : slice l 0 n = take n l.
Proof. unfold slice. rewrite Nat.sub_0_r. reflexivity. Qed.

Section Host.
Variable toLowerCase : jsstring -> jsstring.

(** ** The boundary list *)

Lemma headerType_sectionTypes (clean t : jsstring) :
  headerType clean = Some t -> In t sectionTypes.
Proof.
  unfold headerType.
  destruct (List.find _ sectionHeaders) as [[t' hs]|] eqn:F; [|discriminate].
  intros [= <-]. apply find_some in F. destruct F as [Hin _].
  unfold sectionTypes. apply in_map_iff. exists (t', hs). auto.
Qed.

Lemma boundariesFrom_strict (lines : list jsstring) (start : nat) :
  StronglySorted indexLt (boundariesFrom toLowerCase lines start).
Proof.
  revert start; induction lines as [|line rest IH]; intros start; simpl;
    [constructor|].
  destruct (headerType _); simpl; [|apply IH].
  constructor; [apply IH|].
  apply List.Forall_forall. intros b Hb.
  pose proof (boundariesFrom_lower toLowerCase rest (S start)) as Hlow.
  rewrite List.Forall_forall in Hlow. specialize (Hlow b Hb).
  unfold indexLt; simpl. lia.
Qed.

Lemma boundariesFrom_members (lines : list jsstring) (b : Boundary) :
  In b (boundariesFrom toLowerCase lines 0) ->
  exists line, lines !! index b = Some line
               /\ headerType (toLowerCase (trim line)) = Some (type b).
Proof.
  destruct b as [t i]. intros Hb. apply boundariesFrom_In in Hb.
  destruct Hb as (_ & line & Hl & Ht). rewrite Nat.sub_0_r in Hl.
  exists line. auto.
Qed.

Lemma header_is_no_section : ~ In (str "header") sectionTypes.
Proof.
  assert (H : forallb (fun t => negb (streq t (str "header"))) sectionTypes
              = true) by (vm_compute; reflexivity).
  rewrite forallb_forall in H. intros Hin. specialize (H _ Hin).
  rewrite streq_refl in H. discriminate.
Qed.

Lemma boundary_types (lines : list jsstring) :
  Forall (fun b => In (type b) sectionTypes /\ type b <> str "header")
         (findSectionBoundaries toLowerCase lines sectionHeaders).
Proof.
  rewrite findSectionBoundaries_boundariesFrom.
  apply List.Forall_forall. intros b Hb.
  destruct (boundariesFrom_members lines b Hb) as (line & _ & Ht).
  apply headerType_sectionTypes in Ht. split; [exact Ht|].
  intros Heq. rewrite Heq in Ht. exact (header_is_no_section Ht).
Qed.

Lemma no_header_lines_no_boundaries (lines : list jsstring) :
  Forall (fun line => ~ isHeaderLine toLowerCase line) lines ->
  findSectionBoundaries toLowerCase lines sectionHeaders = [].
Proof.
  intros Hno.
  destruct (findSectionBoundaries toLowerCase lines sectionHeaders)
    as [|[t i] rest] eqn:E; [reflexivity|].
  exfalso.
  assert (Hex : exists t', In {| type := t'; index := i |}
                              (findSectionBoundaries toLowerCase lines
                                                     sectionHeaders))
    by (exists t; rewrite E; left; reflexivity).
  apply boundary_iff_header_line in Hex. destruct Hex as (line & Hl & Hh).
  rewrite List.Forall_forall in Hno. apply (Hno line); [|exact Hh].
  apply list_elem_of_In. eapply list_elem_of_lookup_2, Hl.
Qed.

(** ** The sections object *)

Lemma fillSections_origin (lines : list jsstring) (boundaries : list Boundary)
      (sections : gmap jsstring jsstring) (key : jsstring) :
  is_Some (fillSections lines boundaries sections !! key) ->
  is_Some (sections !! key) \/ exists b, In b boundaries /\ type b = key.
Proof.
  revert sections; induction boundaries as [|b rest IH]; intros sections;
    [auto|].
  simpl. intros H. apply IH in H. destruct H as [H | (b' & Hb' & Hk)].
  - destruct (decide (type b = key)) as [Heq | Hne].
    + right. exists b. auto.
    + rewrite lookup_insert_ne in H by exact Hne. auto.
  - right. exists b'. auto.
Qed.

Lemma fillSections_present (lines : list jsstring) (boundaries : list Boundary)
      (sections : gmap jsstring jsstring) (b : Boundary) :
  In b boundaries ->
  is_Some (fillSections lines boundaries sections !! type b).
Proof.
  revert sections; induction boundaries as [|b' rest IH]; intros sections;
    [intros []|].
  simpl. intros [-> | Hin]; [|apply IH, Hin].
  apply fillSections_keeps. rewrite lookup_insert_eq. eauto.
Qed.

End Host.
End SectionMoreFacts.

Module ParserExtras.
Import JS JSFacts Reference Notions ResumeParser.
Import SplitFacts SectionFacts ParseFacts NormalizeFacts SectionMoreFacts.

(** X17. The text [extractSections] splits into lines holds no carriage
    return and no two line feeds in a row, and neither starts nor ends
    with whitespace; normalizing it again changes nothing. *)
Theorem X17_normalized_text (text : jsstring) :
  Forall (fun c => c <> CR) (normalize text)
  /\ adjacentLF (normalize text) = false
  /\ headNotWhiteSpace (normalize text)
  /\ headNotWhiteSpace (rev (normalize text))
  /\ normalize (normalize text) = normalize text.
Proof.
  split; [apply normalize_no_CR|]. split; [apply normalize_no_adjacent|].
  split; [apply trimEnd_head, trimStart_head|].
  split; [apply trim_last | apply normalize_idempotent].
Qed.


Lemma findSectionBoundaries_strict
      (toLowerCase : jsstring -> jsstring) (lines : list jsstring) :
  StronglySorted indexLt
    (findSectionBoundaries toLowerCase lines sectionHeaders).
Proof.
  rewrite findSectionBoundaries_boundariesFrom. apply boundariesFrom_strict.
Qed.

(** X18. The boundaries [findSectionBoundaries] returns are in line
    order with strictly increasing indices, so a line gives at most one
    boundary; every index is a line of the text, and every type is one of
    the canonical section names, the one the line at that index names. *)
Theorem X18_boundaries_in_line_order
        (toLowerCase : jsstring -> jsstring) (lines : list jsstring) :
  StronglySorted indexLt
    (findSectionBoundaries toLowerCase lines sectionHeaders)
  /\ Forall
       (fun b =>
          (index b < length lines)%nat
          /\ In (type b) sectionTypes
          /\ exists line,
               lines !! index b = Some line
               /\ headerType (toLowerCase (trim line)) = Some (type b))
       (findSectionBoundaries toLowerCase lines sectionHeaders).
Proof.
  rewrite findSectionBoundaries_boundariesFrom. split.
  - apply boundariesFrom_strict.
  - apply List.Forall_forall. intros b Hb.
    destruct (boundariesFrom_members toLowerCase lines b Hb)
      as (line & Hl & Ht).
    split; [eapply lookup_lt_Some, Hl|].
    split; [eapply headerType_sectionTypes, Ht | eauto].
Qed.

(** X19. The object [extractSections] returns for a string always has
    the key header; its other keys are exactly the types of the boundaries
    found, hence canonical section names. *)
Theorem X19_section_keys
        (toLowerCase : jsstring -> jsstring) (text : jsstring) :
  exists sections,
    extractSections toLowerCase (JString text) = Normal sections
    /\ is_Some (sections !! str "header")
    /\ (forall key,
           is_Some (sections !! key)
           <-> key = str "header"
               \/ exists b,
                    In b (findSectionBoundaries toLowerCase
                            (splitChar LF (normalize text)) sectionHeaders)
                    /\ type b = key)
    /\ (forall key,
           is_Some (sections !! key) ->
           key = str "header" \/ In key sectionTypes).
Proof.
  unfold extractSections. eexists. split; [reflexivity|].
  set (lines := splitChar LF (normalize text)).
  set (bs := findSectionBoundaries toLowerCase lines sectionHeaders).
  set (init := <[str "header" := _]> ∅).
  assert (Hinit : forall key, is_Some (init !! key) <-> key = str "header").
  { intros key. unfold init. destruct (decide (str "header" = key)) as [<-|Hne].
    - rewrite lookup_insert_eq. split; eauto.
    - rewrite lookup_insert_ne, lookup_empty by exact Hne.
      split; [intros [? [=]] | congruence]. }
  assert (Hkeys : forall key,
             is_Some (fillSections lines bs init !! key)
             <-> key = str "header" \/ exists b, In b bs /\ type b = key).
  { intros key. split.
    - intros H. apply fillSections_origin in H.
      destruct H as [H | H]; [left; apply Hinit, H | right; exact H].
    - intros [-> | (b & Hb & <-)].
      + apply fillSections_keeps, Hinit. reflexivity.
      + apply fillSections_present, Hb. }
  split; [apply Hkeys; left; reflexivity|]. split; [exact Hkeys|].
  intros key H. apply Hkeys in H. destruct H as [-> | (b & Hb & <-)]; [auto|].
  right. pose proof (boundary_types toLowerCase lines) as Hty.
  rewrite List.Forall_forall in Hty. apply (Hty b Hb).
Qed.

(** X20. For a text none of whose lines is a header line, the sections
    object has the single key header, holding the whole normalized text;
    [parse] then returns a record with no experience, no education and no
    skills, whose full name is the first line of the normalized text. *)
Theorem X20_text_without_headers
        (toLowerCase : jsstring -> jsstring) (re : RegExpEngine)
        (text : jsstring) :
  Forall (fun line => ~ isHeaderLine toLowerCase line)
         (splitChar LF (normalize text)) ->
  extractSections toLowerCase (JString text)
  = Normal {[ str "header" := normalize text ]}
  /\ exists record,
       parse toLowerCase re (JString text) = Normal record
       /\ experience record = []
       /\ education record = []
       /\ skills record = []
       /\ fullName (personalInfo record) = firstLineOf (normalize text).
Proof.
  intros Hno.
  assert (Hex : extractSections toLowerCase (JString text)
                = Normal {[ str "header" := normalize text ]}).
  { unfold extractSections.
    rewrite (no_header_lines_no_boundaries toLowerCase _ Hno).
    cbn [fillSections headerEnd]. rewrite slice_all, join_splitChar.
    rewrite insert_empty. reflexivity. }
  split; [exact Hex|].
  unfold parse. rewrite Hex. cbn [mbind completion_bind].
  rewrite lookup_singleton_eq. cbn [parsePersonalInfo].
  cbn [mbind completion_bind].
  rewrite !lookup_singleton_ne by (vm_compute; discriminate).
  cbn [parseExperience parseEducation parseSkills mbind completion_bind
       tryCatch].
  eexists. split; [reflexivity|].
  cbn [experience education skills personalInfo fullName].
  repeat split. rewrite normalize_trimmed.
  pose proof (head_splitCharFrom (normalize text) []) as Hhd.
  fold (splitChar LF (normalize text)) in Hhd.
  destruct (splitChar LF (normalize text)); [discriminate|].
  injection Hhd as ->. reflexivity.
Qed.

Lemma X20_witness :
  exists record,
    parse asciiToLowerCase silentEngine
          (JString (str "Jane Doe" ++ [LF] ++ str "Engineer"))
    = Normal record
    /\ experience record = []
    /\ education record = []
    /\ skills record = []
    /\ fullName (personalInfo record) = str "Jane Doe".
Proof.
  apply (X20_text_without_headers asciiToLowerCase silentEngine
           (str "Jane Doe" ++ [LF] ++ str "Engineer")).
  repeat constructor;
    (intros Hh; apply headerType_isHeaderLine in Hh; destruct Hh as [t Ht];
     vm_compute in Ht; discriminate Ht).
Defined.

(** X21. The header section is the text before the first boundary.  When
    there is no boundary, and also when the very first line is itself a
    section header (boundary index 0), it is the whole normalized text. *)
Theorem X21_header_region
        (toLowerCase : jsstring -> jsstring) (text : jsstring) :
  exists sections,
    extractSections toLowerCase (JString text) = Normal sections
    /\ match findSectionBoundaries toLowerCase
               (splitChar LF (normalize text)) sectionHeaders with
       | [] => sections !! str "header" = Some (normalize text)
       | b :: _ =>
           if (index b =? 0)%nat
           then sections !! str "header" = Some (normalize text)
           else sections !! str "header"
                = Some (join [LF] (take (index b)
                                        (splitChar LF (normalize text))))
       end.
Proof.
  unfold extractSections. eexists. split; [reflexivity|].
  set (lines := splitChar LF (normalize text)).
  pose proof (boundary_types toLowerCase lines) as Hty.
  assert (Hhead : forall v,
             fillSections lines
               (findSectionBoundaries toLowerCase lines sectionHeaders)
               (<[str "header" := v]> ∅) !! str "header" = Some v).
  { intros v. rewrite fillSections_untouched; [apply lookup_insert_eq|].
    eapply Forall_impl; [exact Hty|]. simpl. tauto. }
  rewrite Hhead.
  destruct (findSectionBoundaries toLowerCase lines sectionHeaders)
    as [|b rest]; cbn [headerEnd].
  - rewrite slice_all. unfold lines. rewrite join_splitChar. reflexivity.
  - destruct (index b =? 0)%nat.
    + rewrite slice_all. unfold lines. rewrite join_splitChar. reflexivity.
    + rewrite slice_prefix. reflexivity.
Qed.


Lemma slice_members {A} (l : list A) (start stop : nat) (x : A) :
  In x (slice l start stop) ->
  exists i, (start <= i < stop)%nat /\ l !! i = Some x.
Proof.
  unfold slice. intros Hin. apply list_elem_of_In in Hin.
  apply list_elem_of_lookup in Hin. destruct Hin as [j Hj].
  apply lookup_take_Some in Hj. destruct Hj as [Hj Hlt].
  rewrite lookup_drop in Hj. exists (start + j)%nat. split; [lia | exact Hj].
Qed.

Lemma later_boundaries (earlier later : list Boundary) (b b' : Boundary)
      (lines : list jsstring) :
  StronglySorted indexLt (earlier ++ b :: later) ->
  In b' (earlier ++ b :: later) ->
  (index b < index b')%nat ->
  (sectionEnd later lines <= index b')%nat.
Proof.
  intros Hs Hin Hlt. apply StronglySorted_app in Hs.
  destruct Hs as (Hcross & _ & Hright).
  apply in_app_or in Hin. destruct Hin as [Hin | [<- | Hin]].
  - assert (indexLt b' b)
      by (apply Hcross; [apply list_elem_of_In, Hin | left]).
    unfold indexLt in *. lia.
  - lia.
  - apply StronglySorted_inv in Hright. destruct Hright as [Hlater _].
    destruct later as [|n l]; [destruct Hin|]. simpl.
    destruct Hin as [<- | Hin]; [lia|].
    apply StronglySorted_inv in Hlater. destruct Hlater as [_ Hn].
    rewrite List.Forall_forall in Hn. specialize (Hn b' Hin).
    unfold indexLt in Hn. lia.
Qed.

(** X22. The text stored for a section consists of the lines between
    its last boundary and the next boundary (or the end of the text), and
    none of these lines is a header line. *)
Theorem X22_section_text_has_no_header_line
        (toLowerCase : jsstring -> jsstring) (text : jsstring)
        (earlier : list Boundary) (b : Boundary) (later : list Boundary) :
  findSectionBoundaries toLowerCase (splitChar LF (normalize text))
                        sectionHeaders
  = earlier ++ b :: later ->
  Forall (fun b' => type b' <> type b) later ->
  exists sections segment,
    extractSections toLowerCase (JString text) = Normal sections
    /\ sections !! type b = Some (join [LF] segment)
    /\ segment = slice (splitChar LF (normalize text)) (S (index b))
                       (sectionEnd later (splitChar LF (normalize text)))
    /\ Forall (fun line => ~ isHeaderLine toLowerCase line) segment.
Proof.
  intros Hbs Hlater. set (lines := splitChar LF (normalize text)) in *.
  unfold extractSections. fold lines. rewrite Hbs.
  eexists. eexists. split; [reflexivity|].
  split; [apply fillSections_last_wins, Hlater|]. split; [reflexivity|].
  apply List.Forall_forall. intros line Hline Hheader.
  apply slice_members in Hline. destruct Hline as (i & Hi & Hl).
  assert (Hex : exists t, In {| type := t; index := i |}
                             (findSectionBoundaries toLowerCase lines
                                                    sectionHeaders))
    by (apply boundary_iff_header_line; eauto).
  destruct Hex as [t Ht].
  pose proof (findSectionBoundaries_strict toLowerCase lines) as Hs.
  rewrite Hbs in Hs, Ht.
  pose proof (later_boundaries earlier later b _ lines Hs Ht) as Hend.
  simpl in Hend. lia.
Qed.


Lemma X22_witness :
  exists sections segment,
    extractSections asciiToLowerCase (JString twoExperienceHeaders)
    = Normal sections
    /\ sections !! str "experience" = Some (join [LF] segment)
    /\ segment = map str ["job two"; "My experience is long"; "end"]%string
    /\ Forall (fun line => ~ isHeaderLine asciiToLowerCase line) segment.
Proof.
  pose (first := {| type := str "experience"; index := 1 |}).
  pose (second := {| type := str "education"; index := 3 |}).
  pose (third := {| type := str "experience"; index := 5 |}).
  destruct (X22_section_text_has_no_header_line asciiToLowerCase
              twoExperienceHeaders [first; second] third [])
    as (sections & segment & Hex & Hlook & Hseg & Hno).
  - vm_compute. reflexivity.
  - constructor.
  - exists sections, segment. split; [exact Hex|]. split; [exact Hlook|].
    split; [|exact Hno]. rewrite Hseg. vm_compute. reflexivity.
Defined.

(** ** Skills *)

Lemma splitRunsFrom_token (sep : char16 -> bool) (t rest cur : jsstring)
      (inRun : bool) :
  Forall (fun c => sep c = false) t -> t <> [] ->
  splitRunsFrom sep (t ++ rest) cur inRun
  = splitRunsFrom sep rest (rev t ++ cur) false.
Proof.
  intros Ht. revert cur inRun.
  induction Ht as [|c t Hc Ht IH]; intros cur inRun Hne; [contradiction|].
  simpl. rewrite Hc. destruct t as [|d t'].
  - reflexivity.
  - rewrite IH by discriminate. simpl. rewrite <- !app_assoc. reflexivity.
Qed.

Lemma split_comma_joined (ts : list jsstring) (t cur : jsstring) :
  Forall (fun t => t <> [] /\ Forall (fun c => isSkillDelimiter c = false) t)
         (t :: ts) ->
  splitRunsFrom isSkillDelimiter (join (str ", ") (t :: ts)) cur false
  = (rev cur ++ t) :: map (fun x => 32%N :: x) ts.
Proof.
  revert t cur; induction ts as [|t' ts IH]; intros t cur Hall.
  - apply Forall_cons in Hall. destruct Hall as [[Hne Ht] _].
    cbn [join map]. rewrite <- (app_nil_r t) at 1.
    rewrite (splitRunsFrom_token _ _ _ _ _ Ht Hne). cbn [splitRunsFrom].
    rewrite rev_app_distr, rev_involutive. reflexivity.
  - apply Forall_cons in Hall. destruct Hall as [[Hne Ht] Hrest].
    rewrite join_cons by discriminate.
    rewrite (splitRunsFrom_token _ _ _ _ _ Ht Hne).
    change (str ", " ++ join (str ", ") (t' :: ts))
      with (44%N :: 32%N :: join (str ", ") (t' :: ts)).
    cbn [splitRunsFrom].
    change (isSkillDelimiter 44%N) with true.
    change (isSkillDelimiter 32%N) with false. cbv iota.
    cbn [map]. f_equal.
    + rewrite rev_app_distr, rev_involutive. reflexivity.
    + exact (IH t' [32%N] Hrest).
Qed.

Lemma trim_after_space (x : jsstring) : trim (32%N :: x) = trim x.
Proof. reflexivity. Qed.

(** X23. Writing three or more skills as a comma-separated list and
    parsing the list gives the skills back, provided each skill is
    non-empty, has no whitespace at either end and holds none of the
    delimiter characters. *)
Theorem X23_parseSkills_round_trip (tokens : list jsstring) :
  (3 <= length tokens)%nat ->
  Forall (fun t => t <> [] /\ trim t = t
                   /\ Forall (fun c => isSkillDelimiter c = false) t)
         tokens ->
  parseSkills (Some (join (str ", ") tokens)) = tokens.
Proof.
  intros Hlen Hall. destruct tokens as [|t ts]; [simpl in Hlen; lia|].
  assert (Hclean : Forall (fun t => t <> []
                                    /\ Forall (fun c => isSkillDelimiter c = false) t)
                          (t :: ts))
    by (eapply Forall_impl; [exact Hall|]; simpl; tauto).
  assert (Hsplit := split_comma_joined ts t [] Hclean).
  cbn [rev app] in Hsplit. fold (splitRuns isSkillDelimiter
                                   (join (str ", ") (t :: ts))) in Hsplit.
  assert (Htext : truthy (join (str ", ") (t :: ts)) = true).
  { apply Forall_cons in Hall. destruct Hall as [[Hne _] _].
    destruct t as [|c t']; [contradiction|]. destruct ts; reflexivity. }
  unfold parseSkills. rewrite Htext. cbn [negb]. rewrite Hsplit. cbv zeta.
  match goal with
  | |- context [List.filter ?f (map trim ?l)] =>
      assert (Htokens : List.filter f (map trim l) = t :: ts)
  end.
  { apply Forall_cons in Hall. destruct Hall as [(Hne & Htrim & _) Hts].
    cbn [map List.filter]. rewrite Htrim.
    destruct t as [|c t']; [contradiction|]. cbn [length Nat.ltb Nat.leb].
    f_equal. clear -Hts. induction Hts as [|x l (Hx & Hxt & _) _ IH];
      [reflexivity|].
    cbn [map List.filter]. rewrite trim_after_space, Hxt.
    destruct x as [|c x']; [contradiction|]. cbn [length Nat.ltb Nat.leb].
    f_equal. exact IH. }
  rewrite Htokens.
  destruct (_ <? 3)%nat eqn:E; [|reflexivity].
  apply Nat.ltb_lt in E. apply Nat.lt_nge in E. destruct (E Hlen).
Qed.

Lemma X23_witness :
  parseSkills (Some (str "Python, Go, Rust"))
  = map str ["Python"; "Go"; "Rust"]%string.
Proof.
  apply (X23_parseSkills_round_trip (map str ["Python"; "Go"; "Rust"]%string)).
  - simpl. lia.
  - repeat constructor; try discriminate;
      (apply List.Forall_forall; intros c Hc; simpl in Hc;
       repeat (destruct Hc as [<- | Hc]; [reflexivity|]); destruct Hc).
Defined.


(** ** Entries *)

Section Entries.
Variable toLowerCase : jsstring -> jsstring.
Variable re : RegExpEngine.

Lemma visitJobBlock_adds (experiences : list ExperienceEntry.t)
      (block : jsstring) :
  exists added,
    visitJobBlock re experiences block = Normal (experiences ++ added)
    /\ length added = if isEntryBlock block then 1%nat else 0%nat.
Proof.
  unfold visitJobBlock, isEntryBlock.
  destruct (truthy (trim block)); cbn [negb];
    [|exists []; rewrite app_nil_r; auto].
  destruct (first_of_split LF (trim block)) as [firstLine ->].
  cbn [mbind completion_bind].
  destruct (matchGroups re titleCompanyPattern firstLine) as [[g1 g2]|];
    destruct (splitChar LF (trim block)) as [|l0 [|l1 ls]];
    try destruct (matchGroups re experience_datePattern l1) as [[d1 d2]|];
    eexists [_]; split; reflexivity.
Qed.

Lemma visitEducationBlock_adds (education : list EducationEntry.t)
      (block : jsstring) :
  exists added,
    visitEducationBlock toLowerCase re education block
    = Normal (education ++ added)
    /\ length added = if isEntryBlock block then 1%nat else 0%nat.
Proof.
  unfold visitEducationBlock, isEntryBlock.
  destruct (truthy (trim block)); cbn [negb];
    [|exists []; rewrite app_nil_r; auto].
  destruct (first_of_split LF (trim block)) as [firstLine ->].
  cbn [mbind completion_bind].
  destruct (matchGroups re degreeSchoolPattern firstLine) as [[g1 g2]|];
    [|destruct (existsb _ potentialDegrees)];
    (destruct (match0 re education_datePattern _) as [dateRange|];
     [destruct (matchAll re yearPattern dateRange) as [years|];
      [destruct (1 <=? length years)%nat|]|]);
    eexists [_]; split; reflexivity.
Qed.

Lemma forEachBlock_counts {A}
      (visit : list A -> jsstring -> completion (list A))
      (blocks : list jsstring) (acc : list A) :
  (forall acc block, exists added,
        visit acc block = Normal (acc ++ added)
        /\ length added = if isEntryBlock block then 1%nat else 0%nat) ->
  exists entries,
    forEachBlock visit blocks acc = Normal (acc ++ entries)
    /\ length entries = length (List.filter isEntryBlock blocks).
Proof.
  intros Hvisit. revert acc; induction blocks as [|block rest IH]; intros acc.
  - exists []. rewrite app_nil_r. auto.
  - simpl. destruct (Hvisit acc block) as (added & -> & Hadd).
    cbn [mbind completion_bind].
    destruct (IH (acc ++ added)) as (entries & -> & Hlen).
    exists (added ++ entries). rewrite app_assoc. split; [reflexivity|].
    rewrite length_app, Hadd, Hlen.
    destruct (isEntryBlock block); reflexivity.
Qed.

End Entries.

(** X24. [parseExperience] and [parseEducation] return one entry per
    block that is not blank, whatever the matcher finds in the blocks;
    blank blocks give no entry. *)
Theorem X24_one_entry_per_block
        (toLowerCase : jsstring -> jsstring) (re : RegExpEngine)
        (text : jsstring) :
  text <> [] ->
  (exists experiences,
      parseExperience re (Some text) = Normal experiences
      /\ length experiences
         = length (List.filter isEntryBlock
                               (splitRegExp re blockSeparator text)))
  /\ (exists education,
         parseEducation toLowerCase re (Some text) = Normal education
         /\ length education
            = length (List.filter isEntryBlock
                                  (splitRegExp re blockSeparator text))).
Proof.
  intros Hne. destruct text as [|c text]; [contradiction|].
  unfold parseExperience, parseEducation. cbn [truthy negb]. split.
  - destruct (forEachBlock_counts (visitJobBlock re)
                (splitRegExp re blockSeparator (c :: text)) []
                (visitJobBlock_adds re))
      as (entries & Hrun & Hlen).
    exists entries. auto.
  - destruct (forEachBlock_counts (visitEducationBlock toLowerCase re)
                (splitRegExp re blockSeparator (c :: text)) []
                (visitEducationBlock_adds toLowerCase re))
      as (entries & Hrun & Hlen).
    exists entries. auto.
Qed.

Lemma X24_witness :
  exists experiences,
    parseExperience silentEngine (Some (str "Engineer")) = Normal experiences
    /\ length experiences = 1%nat.
Proof.
  destruct (X24_one_entry_per_block asciiToLowerCase silentEngine
              (str "Engineer")) as [(experiences & Hrun & Hlen) _].
  - discriminate.
  - exists experiences. split; [exact Hrun | exact Hlen].
Defined.

(** ** The name *)

Lemma firstLineOf_no_LF (s : jsstring) :
  Forall (fun c => c <> LF) (firstLineOf s).
Proof.
  induction s as [|c s IH]; simpl; [constructor|].
  destruct (N.eqb_spec c LF); [constructor | constructor; assumption].
Qed.

Lemma firstLineOf_empty (s : jsstring) :
  headNotWhiteSpace s -> (firstLineOf s = [] <-> s = []).
Proof.
  destruct s as [|c s]; simpl; [tauto|]. intros Hc.
  destruct (N.eqb_spec c LF) as [->|_]; [discriminate Hc|].
  split; discriminate.
Qed.

Lemma firstLineOf_head (s : jsstring) :
  headNotWhiteSpace s -> headNotWhiteSpace (firstLineOf s).
Proof.
  destruct s as [|c s]; simpl; [tauto|]. intros Hc.
  destruct (N.eqb c LF); [exact I | exact Hc].
Qed.

(** X25. [parsePersonalInfo] takes as full name the first line of the
    trimmed header text: it holds no line feed, does not start with
    whitespace, and is empty exactly when the header is blank.  Each
    contact field is the matcher's first match in the full text, or the
    empty string when there is none. *)
Theorem X25_full_name_is_first_header_line
        (re : RegExpEngine) (fullText headerText : jsstring) :
  exists info,
    parsePersonalInfo re (JString fullText) (Some headerText) = Normal info
    /\ fullName info = firstLineOf (trim headerText)
    /\ Forall (fun c => c <> LF) (fullName info)
    /\ headNotWhiteSpace (fullName info)
    /\ (fullName info = [] <-> trim headerText = [])
    /\ email info = default [] (match0 re patterns_email fullText)
    /\ phone info = default [] (match0 re patterns_phone fullText)
    /\ linkedin info = default [] (match0 re patterns_linkedin fullText)
    /\ website info = default [] (match0 re patterns_website fullText)
    /\ address info = default [] (match0 re patterns_address fullText).
Proof.
  cbn [parsePersonalInfo]. eexists. split; [reflexivity|].
  cbn [fullName email phone linkedin website address].
  assert (Hname : match splitChar LF (trim headerText) with
                  | l :: _ => l
                  | [] => []
                  end = firstLineOf (trim headerText)).
  { pose proof (head_splitCharFrom (trim headerText) []) as Hhd.
    fold (splitChar LF (trim headerText)) in Hhd.
    destruct (splitChar LF (trim headerText)); [discriminate|].
    injection Hhd as ->. reflexivity. }
  rewrite Hname.
  assert (Hhead : headNotWhiteSpace (trim headerText))
    by apply trimEnd_head, trimStart_head.
  split; [reflexivity|]. split; [apply firstLineOf_no_LF|].
  split; [apply firstLineOf_head, Hhead|].
  split; [apply firstLineOf_empty, Hhead|].
  unfold extractPattern.
  repeat split; match goal with |- context [match0 re ?p fullText] =>
                                  destruct (match0 re p fullText) end;
    reflexivity.
Qed.

End ParserExtras.
